(** * DirectWrite custom font sets: the CustomFontSetManager of the sample

    A shallow embedding of [CustomFontSetManager.cpp] and of the driver in
    [DWriteCustomFontSets.cpp].  The manager is glue around the DirectWrite
    factory, so the embedding has two layers:

    - the DirectWrite objects the manager talks to (factory, in-memory loader,
      font set builder, font set, font face references, string lists), each
      reduced to the observable behaviour the manager relies on;
    - the manager's methods, written call for call after the C++ source, in a
      state-and-exception monad whose state is the manager's members together
      with the shared factory.

    A computation ends in one of three ways: it returns, [DX::ThrowIfFailed]
    throws the failing HRESULT, or a null [ComPtr] is dereferenced. *)

From Stdlib Require Import List String Ascii ZArith NArith Lia Bool Arith.
From Stdlib Require Import DecimalString.
Import ListNotations.

Local Open Scope string_scope.
Local Open Scope list_scope.

(** ** HRESULT *)

Definition HRESULT := Z.

(** The codes are the 32-bit patterns of winerror.h and dwrite.h read as signed
    integers. *)
Definition hresult_of_bits (bits : Z) : HRESULT :=
  if Z.testbit bits 31 then (bits - 2 ^ 32)%Z else bits.

Definition S_OK : HRESULT := 0%Z.
Definition E_NOINTERFACE : HRESULT := hresult_of_bits 0x80004002%Z.
Definition E_INVALIDARG : HRESULT := hresult_of_bits 0x80070057%Z.
Definition E_NOT_SUFFICIENT_BUFFER : HRESULT := hresult_of_bits 0x8007007A%Z.
Definition DWRITE_E_FILEFORMAT : HRESULT := hresult_of_bits 0x88985000%Z.
Definition DWRITE_E_ALREADYREGISTERED : HRESULT := hresult_of_bits 0x88985006%Z.
Definition DWRITE_E_REMOTEFONT : HRESULT := hresult_of_bits 0x8898500D%Z.

Definition FAILED (hr : HRESULT) : bool := (hr <? 0)%Z.

(** ** The data of the platform *)

(** [std::wstring], with the code units the sample uses. *)
Definition wstring := string.

(** [std::to_wstring] of an unsigned value: its decimal digits. *)
Definition to_wstring (n : N) : wstring :=
  NilZero.string_of_uint (N.to_uint n).

(** [IDWriteLocalizedStrings] and [IDWriteStringList]: pairs of a locale name
    and a string, addressed by index. *)
Definition LocalizedStrings := list (wstring * wstring).

(** [IDWriteFontFace3], as far as the sample reads it: the informational
    string FULL_NAME (absent when [exists] comes back FALSE) and the x-height
    of [DWRITE_FONT_METRICS1] (a UINT16). *)
Record IDWriteFontFace3 := {
  informationalFullName : option LocalizedStrings;
  metrics_xHeight : N
}.

Inductive DWRITE_LOCALITY :=
| DWRITE_LOCALITY_REMOTE
| DWRITE_LOCALITY_PARTIAL
| DWRITE_LOCALITY_LOCAL.

Definition locality_eqb (a b : DWRITE_LOCALITY) : bool :=
  match a, b with
  | DWRITE_LOCALITY_REMOTE, DWRITE_LOCALITY_REMOTE => true
  | DWRITE_LOCALITY_PARTIAL, DWRITE_LOCALITY_PARTIAL => true
  | DWRITE_LOCALITY_LOCAL, DWRITE_LOCALITY_LOCAL => true
  | _, _ => false
  end.

Inductive DWRITE_FONT_PROPERTY_ID :=
| DWRITE_FONT_PROPERTY_ID_FAMILY_NAME
| DWRITE_FONT_PROPERTY_ID_FULL_NAME
| DWRITE_FONT_PROPERTY_ID_POSTSCRIPT_NAME.

(** [IDWriteFontFaceReference], as an entry of a font set: the properties the
    set records for the font, where its data lives, what enqueueing a download
    request answers, and the face that [CreateFontFace] yields ([None] while
    the data cannot be read, which the platform reports as
    [DWRITE_E_REMOTEFONT]). *)
Record IDWriteFontFaceReference := {
  ref_properties : DWRITE_FONT_PROPERTY_ID -> LocalizedStrings;
  ref_locality : DWRITE_LOCALITY;
  ref_enqueue : HRESULT;
  ref_face : option IDWriteFontFace3
}.

(** [IDWriteFontSet]: the entries, fixed once the set is created. *)
Definition IDWriteFontSet := list IDWriteFontFaceReference.

(** [MemoryFontInfo] (declared in a header of the sample): a buffer and its
    size. *)
Record MemoryFontInfo := {
  fontData : list Byte.byte;
  fontDataSize : N
}.

(** The object that keeps a buffer alive, passed to the loader as data owner. *)
Inductive DataOwner := owner_binaryResources | owner_document.

(** [IDWriteFontFile] made by the in-memory loader. *)
Record IDWriteFontFile := {
  file_info : MemoryFontInfo;
  file_owner : DataOwner
}.

(** Loader objects are told apart by identity. *)
Definition Loader := nat.

(** The calls the manager makes on the platform, recorded in the order made. *)
Inductive Call :=
| call_CreateInMemoryFontFileLoader
| call_RegisterFontFileLoader (l : Loader)
| call_UnregisterFontFileLoader (l : Loader)
| call_CreateFontSetBuilder
| call_CreateInMemoryFontFileReference (f : MemoryFontInfo) (o : DataOwner)
| call_AddFontFile (f : IDWriteFontFile)
| call_CreateFontSet
| call_EnqueueFontDownloadRequest (fontIndex : nat)
| call_CreateFontFace (fontIndex : nat).

(** The shared DirectWrite factory: the loaders registered with it, and the
    record of calls. *)
Record DWriteFactory := {
  registeredLoaders : list Loader;
  calls : list Call
}.

(** What the surroundings of one build decide: the fonts the two providers
    hand out ([BinaryResources::GetFonts], [Documents::Document::GetFonts]),
    the answers of the platform calls that can fail for reasons outside the
    program, and what the platform's parser makes of a buffer ([None]: not
    font data in a supported format). *)
Record Env := {
  BinaryResources_GetFonts : list MemoryFontInfo;
  Document_GetFonts : list MemoryFontInfo;
  hr_CreateInMemoryFontFileLoader : HRESULT;
  hr_RegisterFontFileLoader : HRESULT;
  hr_CreateFontSetBuilder : HRESULT;
  hr_CreateInMemoryFontFileReference : MemoryFontInfo -> HRESULT;
  parse_font_data : MemoryFontInfo -> option (list IDWriteFontFace3);
  hr_CreateFontSet : HRESULT
}.

(** ** The manager *)

Record CustomFontSetManager := {
  m_dwriteFactory3 : bool;   (* non-null? *)
  m_dwriteFactory5 : bool;   (* non-null? *)
  m_inMemoryFontFileLoader : option Loader;
  m_customFontSet : option IDWriteFontSet
}.

Record World := {
  this : CustomFontSetManager;
  dwrite : DWriteFactory
}.

(** ** Outcomes and the monad *)

Inductive Outcome (A : Type) :=
| Returned (a : A)
| Thrown (hr : HRESULT)
| NullDereference.

Arguments Returned {A} a.
Arguments Thrown {A} hr.
Arguments NullDereference {A}.

Definition M (A : Type) := World -> Outcome A * World.

Definition ret {A} (a : A) : M A := fun w => (Returned a, w).

Definition bind {A B} (m : M A) (k : A -> M B) : M B :=
  fun w =>
    match m w with
    | (Returned a, w') => k a w'
    | (Thrown hr, w') => (Thrown hr, w')
    | (NullDereference, w') => (NullDereference, w')
    end.

Declare Scope cpp_scope.
Delimit Scope cpp_scope with cpp.
Notation "x <- m ;; k" := (bind m (fun x => k))
  (at level 100, m at next level, right associativity) : cpp_scope.
Notation "m ;;; k" := (bind m (fun _ => k))
  (at level 100, right associativity) : cpp_scope.
Local Open Scope cpp_scope.

Definition throw {A} (hr : HRESULT) : M A := fun w => (Thrown hr, w).
Definition null_dereference {A} : M A := fun w => (NullDereference, w).
Definition get_this : M CustomFontSetManager := fun w => (Returned (this w), w).
Definition get_dwrite : M DWriteFactory := fun w => (Returned (dwrite w), w).
Definition put_this (m : CustomFontSetManager) : M unit :=
  fun w => (Returned tt, {| this := m; dwrite := dwrite w |}).
Definition put_dwrite (d : DWriteFactory) : M unit :=
  fun w => (Returned tt, {| this := this w; dwrite := d |}).

(** [DX::ThrowIfFailed] (a helper of the sample's precompiled header): throws
    when the HRESULT is a failure code. *)
Definition ThrowIfFailed (hr : HRESULT) : M unit :=
  if FAILED hr then throw hr else ret tt.

(** [p->...] on a [ComPtr] member. *)
Definition deref {A} (p : option A) : M A :=
  match p with
  | Some a => ret a
  | None => null_dereference
  end.

Definition deref_flag (p : bool) : M unit :=
  if p then ret tt else null_dereference.

Definition record_call (c : Call) : M unit :=
  d <- get_dwrite ;;
  put_dwrite {| registeredLoaders := registeredLoaders d;
                calls := calls d ++ [c] |}.

Definition result {A} (r : Outcome A * World) : Outcome A := fst r.
Definition world {A} (r : Outcome A * World) : World := snd r.

(** ** The platform calls *)

(** [IDWriteFontSet::GetFontCount], a UINT32. *)
Definition IDWriteFontSet_GetFontCount (fs : IDWriteFontSet) : Z :=
  Z.of_nat (List.length fs).

(** [IDWriteFontSet::GetFontFaceReference(index, &ref)]. *)
Definition IDWriteFontSet_GetFontFaceReference (fs : IDWriteFontSet) (index : nat)
  : HRESULT * option IDWriteFontFaceReference :=
  match nth_error fs index with
  | Some r => (S_OK, Some r)
  | None => (E_INVALIDARG, None)
  end.

(** [IDWriteFontFaceReference::EnqueueFontDownloadRequest]: the request is
    queued, nothing is waited for. *)
Definition EnqueueFontDownloadRequest (fontIndex : nat) (r : IDWriteFontFaceReference)
  : M HRESULT :=
  record_call (call_EnqueueFontDownloadRequest fontIndex) ;;;
  ret (ref_enqueue r).

(** [IDWriteFontFaceReference::CreateFontFace(&face)]. *)
Definition CreateFontFace (fontIndex : nat) (r : IDWriteFontFaceReference)
  : M (HRESULT * option IDWriteFontFace3) :=
  record_call (call_CreateFontFace fontIndex) ;;;
  match ref_face r with
  | Some face => ret (S_OK, Some face)
  | None => ret (DWRITE_E_REMOTEFONT, None)
  end.

Definition GetLocality (r : IDWriteFontFaceReference) : DWRITE_LOCALITY :=
  ref_locality r.

(** [IDWriteFontFace3::GetInformationalStrings(FULL_NAME, &strings, &exists)]. *)
Definition GetInformationalStrings_FULL_NAME (face : IDWriteFontFace3)
  : HRESULT * option LocalizedStrings * bool :=
  match informationalFullName face with
  | Some ls => (S_OK, Some ls, true)
  | None => (S_OK, None, false)
  end.

Fixpoint find_locale (localeName : wstring) (ls : LocalizedStrings) (index : nat)
  : option nat :=
  match ls with
  | [] => None
  | (loc, _) :: rest =>
      if String.eqb loc localeName then Some index
      else find_locale localeName rest (S index)
  end.

(** [IDWriteLocalizedStrings::FindLocaleName(name, &index, &exists)]; the
    index is UINT_MAX when the locale is absent. *)
Definition UINT_MAX : N := (2 ^ 32 - 1)%N.

Definition FindLocaleName (ls : LocalizedStrings) (localeName : wstring)
  : HRESULT * N * bool :=
  match find_locale localeName ls 0 with
  | Some i => (S_OK, N.of_nat i, true)
  | None => (S_OK, UINT_MAX, false)
  end.

(** [GetStringLength(index, &length)] of both string containers. *)
Definition GetStringLength (ls : LocalizedStrings) (index : nat) : HRESULT * nat :=
  match nth_error ls index with
  | Some (_, s) => (S_OK, String.length s)
  | None => (E_INVALIDARG, 0)
  end.

(** [GetString(index, buffer, size)]: the buffer must hold the string and its
    terminator.  The sample sizes the buffer as the length plus one; lengths
    are UINT32 values the platform reported, far from where that sum wraps. *)
Definition GetString (ls : LocalizedStrings) (index : nat) (size : nat)
  : HRESULT * wstring :=
  match nth_error ls index with
  | Some (_, s) =>
      if Nat.ltb (String.length s) size then (S_OK, s)
      else (E_NOT_SUFFICIENT_BUFFER, "")
  | None => (E_INVALIDARG, "")
  end.

Definition GetCount (ls : LocalizedStrings) : nat := List.length ls.

(** The value a font contributes for a language preference: the string of
    the preferred locale, else the font's first one. *)
Definition best_language_match (preferred : wstring) (names : LocalizedStrings)
  : option (wstring * wstring) :=
  match find (fun p => String.eqb (fst p) preferred) names with
  | Some p => Some p
  | None => hd_error names
  end.

Fixpoint language_matches (preferred : wstring) (props : list LocalizedStrings)
  : LocalizedStrings :=
  match props with
  | [] => []
  | names :: rest =>
      match best_language_match preferred names with
      | Some p => p :: language_matches preferred rest
      | None => language_matches preferred rest
      end
  end.

Fixpoint unique_values (seen : list wstring) (l : LocalizedStrings)
  : LocalizedStrings :=
  match l with
  | [] => []
  | (loc, v) :: rest =>
      if existsb (String.eqb v) seen then unique_values seen rest
      else (loc, v) :: unique_values (v :: seen) rest
  end.

(** Modelled from the spec: [IDWriteFontSet::GetPropertyValues(id, locale,
    &values)] is platform code, not part of the sample.  The spec has it
    return "the unique, deduplicated set of full name values across all
    entries, preferring a specified locale, falling back to a default locale",
    and the comment in [GetPropertyValuesFromFontSet] says the same ("only
    the best language match from a font", "unique values from across the
    set").  Values are kept in order of first occurrence. *)
Definition IDWriteFontSet_GetPropertyValues
  (fs : IDWriteFontSet) (propertyId : DWRITE_FONT_PROPERTY_ID)
  (preferredLocaleNames : wstring) : HRESULT * option LocalizedStrings :=
  (S_OK,
   Some (unique_values []
           (language_matches preferredLocaleNames
              (map (fun r => ref_properties r propertyId) fs)))).

(** A font face reference the builder makes from a face found in an in-memory
    file: the data is at hand, so the reference is local, enqueueing is a
    no-op, and the properties are read from the font itself. *)
Definition in_memory_reference (face : IDWriteFontFace3) : IDWriteFontFaceReference :=
  {| ref_properties := fun id =>
       match id with
       | DWRITE_FONT_PROPERTY_ID_FULL_NAME =>
           match informationalFullName face with
           | Some ls => ls
           | None => []
           end
       | _ => []
       end;
     ref_locality := DWRITE_LOCALITY_LOCAL;
     ref_enqueue := S_OK;
     ref_face := Some face |}.

(** [&comPtr] releases what the pointer holds before the callee fills it. *)
Definition ReleaseAndGetAddressOf_m_inMemoryFontFileLoader : M unit :=
  m <- get_this ;;
  put_this {| m_dwriteFactory3 := m_dwriteFactory3 m;
              m_dwriteFactory5 := m_dwriteFactory5 m;
              m_inMemoryFontFileLoader := None;
              m_customFontSet := m_customFontSet m |}.

Definition set_m_inMemoryFontFileLoader (l : Loader) : M unit :=
  m <- get_this ;;
  put_this {| m_dwriteFactory3 := m_dwriteFactory3 m;
              m_dwriteFactory5 := m_dwriteFactory5 m;
              m_inMemoryFontFileLoader := Some l;
              m_customFontSet := m_customFontSet m |}.

Definition set_m_customFontSet (fs : option IDWriteFontSet) : M unit :=
  m <- get_this ;;
  put_this {| m_dwriteFactory3 := m_dwriteFactory3 m;
              m_dwriteFactory5 := m_dwriteFactory5 m;
              m_inMemoryFontFileLoader := m_inMemoryFontFileLoader m;
              m_customFontSet := fs |}.

(** A loader object the factory has not seen. *)
Definition new_loader (d : DWriteFactory) : Loader :=
  S (list_max (registeredLoaders d)).

(** [m_dwriteFactory5->CreateInMemoryFontFileLoader(&m_inMemoryFontFileLoader)]. *)
Definition CreateInMemoryFontFileLoader (env : Env) : M HRESULT :=
  ReleaseAndGetAddressOf_m_inMemoryFontFileLoader ;;;
  record_call call_CreateInMemoryFontFileLoader ;;;
  if FAILED (hr_CreateInMemoryFontFileLoader env)
  then ret (hr_CreateInMemoryFontFileLoader env)
  else
    d <- get_dwrite ;;
    set_m_inMemoryFontFileLoader (new_loader d) ;;;
    ret (hr_CreateInMemoryFontFileLoader env).

(** [IDWriteFactory::RegisterFontFileLoader]: a loader is registered once. *)
Definition RegisterFontFileLoader (env : Env) (l : Loader) : M HRESULT :=
  record_call (call_RegisterFontFileLoader l) ;;;
  d <- get_dwrite ;;
  if existsb (Nat.eqb l) (registeredLoaders d) then ret DWRITE_E_ALREADYREGISTERED
  else if FAILED (hr_RegisterFontFileLoader env)
  then ret (hr_RegisterFontFileLoader env)
  else
    put_dwrite {| registeredLoaders := l :: registeredLoaders d;
                  calls := calls d |} ;;;
    ret (hr_RegisterFontFileLoader env).

(** [IDWriteFactory::UnregisterFontFileLoader]. *)
Definition IDWriteFactory_UnregisterFontFileLoader (l : Loader) : M HRESULT :=
  record_call (call_UnregisterFontFileLoader l) ;;;
  d <- get_dwrite ;;
  if existsb (Nat.eqb l) (registeredLoaders d)
  then
    put_dwrite {| registeredLoaders := remove Nat.eq_dec l (registeredLoaders d);
                  calls := calls d |} ;;;
    ret S_OK
  else ret E_INVALIDARG.

(** [IDWriteFactory5::CreateFontSetBuilder(&builder)]: an empty builder. *)
Definition CreateFontSetBuilder (env : Env) : M (HRESULT * option IDWriteFontSet) :=
  record_call call_CreateFontSetBuilder ;;;
  if FAILED (hr_CreateFontSetBuilder env)
  then ret (hr_CreateFontSetBuilder env, None)
  else ret (hr_CreateFontSetBuilder env, Some []).

(** [IDWriteInMemoryFontFileLoader::CreateInMemoryFontFileReference]. *)
Definition CreateInMemoryFontFileReference
  (env : Env) (fontInfo : MemoryFontInfo) (owner : DataOwner)
  : M (HRESULT * option IDWriteFontFile) :=
  record_call (call_CreateInMemoryFontFileReference fontInfo owner) ;;;
  if FAILED (hr_CreateInMemoryFontFileReference env fontInfo)
  then ret (hr_CreateInMemoryFontFileReference env fontInfo, None)
  else ret (hr_CreateInMemoryFontFileReference env fontInfo,
            Some {| file_info := fontInfo; file_owner := owner |}).

(** [IDWriteFontSetBuilder1::AddFontFile]: every font of the file is added, or
    the call fails with [DWRITE_E_FILEFORMAT] and adds nothing. *)
Definition AddFontFile (env : Env) (builder : IDWriteFontSet) (file : IDWriteFontFile)
  : M (HRESULT * IDWriteFontSet) :=
  record_call (call_AddFontFile file) ;;;
  match parse_font_data env (file_info file) with
  | Some faces => ret (S_OK, builder ++ map in_memory_reference faces)
  | None => ret (DWRITE_E_FILEFORMAT, builder)
  end.

(** [IDWriteFontSetBuilder::CreateFontSet(&m_customFontSet)]. *)
Definition CreateFontSet (env : Env) (builder : IDWriteFontSet) : M HRESULT :=
  set_m_customFontSet None ;;;
  record_call call_CreateFontSet ;;;
  if FAILED (hr_CreateFontSet env) then ret (hr_CreateFontSet env)
  else
    set_m_customFontSet (Some builder) ;;;
    ret (hr_CreateFontSet env).

(** ** The manager's methods *)

(** A freshly allocated manager: every [ComPtr] member is null. *)
Definition null_members : CustomFontSetManager :=
  {| m_dwriteFactory3 := false;
     m_dwriteFactory5 := false;
     m_inMemoryFontFileLoader := None;
     m_customFontSet := None |}.

(** [CustomFontSetManager::CustomFontSetManager()].  The two arguments are the
    answers of [DWriteCreateFactory] and of the query for [IDWriteFactory5]. *)
Definition CustomFontSetManager_ctor (hr_DWriteCreateFactory hr_As : HRESULT) : M unit :=
  put_this null_members ;;;
  ThrowIfFailed hr_DWriteCreateFactory ;;;
  put_this {| m_dwriteFactory3 := true;
              m_dwriteFactory5 := false;
              m_inMemoryFontFileLoader := None;
              m_customFontSet := None |} ;;;
  if Z.eqb hr_As E_NOINTERFACE
  then ret tt   (* let this go *)
  else
    ThrowIfFailed hr_As ;;;
    put_this {| m_dwriteFactory3 := true;
                m_dwriteFactory5 := true;
                m_inMemoryFontFileLoader := None;
                m_customFontSet := None |}.

(** [CustomFontSetManager::UnregisterFontFileLoader(fontFileLoader)]. *)
Definition UnregisterFontFileLoader (fontFileLoader : option Loader) : M unit :=
  match fontFileLoader with
  | Some l =>
      m <- get_this ;;
      deref_flag (m_dwriteFactory3 m) ;;;
      (* called from the destructor: errors are ignored *)
      IDWriteFactory_UnregisterFontFileLoader l ;;;
      ret tt
  | None => ret tt
  end.

(** [CustomFontSetManager::~CustomFontSetManager()]. *)
Definition CustomFontSetManager_dtor : M unit :=
  m <- get_this ;;
  UnregisterFontFileLoader (m_inMemoryFontFileLoader m).

(** [CustomFontSetManager::IDWriteFactory5_IsAvailable()]. *)
Definition IDWriteFactory5_IsAvailable (m : CustomFontSetManager) : bool :=
  m_dwriteFactory5 m.

(** The two loops of [CreateFontSetUsingInMemoryFontData] that add the fonts
    of one provider, in the order of the provider's vector. *)
Fixpoint add_in_memory_fonts
  (env : Env) (owner : DataOwner) (fonts : list MemoryFontInfo)
  (fontSetBuilder : IDWriteFontSet) : M IDWriteFontSet :=
  match fonts with
  | [] => ret fontSetBuilder
  | fontInfo :: rest =>
      m <- get_this ;;
      deref (m_inMemoryFontFileLoader m) ;;;
      created <- CreateInMemoryFontFileReference env fontInfo owner ;;
      ThrowIfFailed (fst created) ;;;
      fontFileReference <- deref (snd created) ;;
      added <- AddFontFile env fontSetBuilder fontFileReference ;;
      ThrowIfFailed (fst added) ;;;
      add_in_memory_fonts env owner rest (snd added)
  end.

(** [CustomFontSetManager::CreateFontSetUsingInMemoryFontData()]. *)
Definition CreateFontSetUsingInMemoryFontData (env : Env) : M unit :=
  m <- get_this ;;
  deref_flag (m_dwriteFactory5 m) ;;;
  hr <- CreateInMemoryFontFileLoader env ;;
  ThrowIfFailed hr ;;;
  m <- get_this ;;
  hr <- match m_inMemoryFontFileLoader m with
        | Some l => RegisterFontFileLoader env l
        | None => ret E_INVALIDARG   (* registering a null loader *)
        end ;;
  ThrowIfFailed hr ;;;
  created <- CreateFontSetBuilder env ;;
  ThrowIfFailed (fst created) ;;;
  fontSetBuilder <- deref (snd created) ;;
  let appFontResources := BinaryResources_GetFonts env in
  fontSetBuilder <- add_in_memory_fonts env owner_binaryResources
                      appFontResources fontSetBuilder ;;
  let documentFonts := Document_GetFonts env in
  fontSetBuilder <- add_in_memory_fonts env owner_document
                      documentFonts fontSetBuilder ;;
  hr <- CreateFontSet env fontSetBuilder ;;
  ThrowIfFailed hr.

(** [CustomFontSetManager::GetFontCount()]. *)
Definition GetFontCount (m : CustomFontSetManager) : Z :=
  match m_customFontSet m with
  | None => 0%Z
  | Some fs => IDWriteFontSet_GetFontCount fs
  end.

(** [CustomFontSetManager::GetPropertyValuesFromFontSet(propertyId)]. *)
Definition GetPropertyValuesFromFontSet (propertyId : DWRITE_FONT_PROPERTY_ID)
  : M LocalizedStrings :=
  m <- get_this ;;
  fs <- deref (m_customFontSet m) ;;
  let answer := IDWriteFontSet_GetPropertyValues fs propertyId "en-US" in
  ThrowIfFailed (fst answer) ;;;
  deref (snd answer).

(** [for (i = from; i < from + iterations; i++) body], over a value carried
    from one iteration to the next. *)
Fixpoint for_loop {A} (iterations from : nat) (body : nat -> A -> M A) (a : A) : M A :=
  match iterations with
  | O => ret a
  | S n => a' <- body from a ;; for_loop n (S from) body a'
  end.

(** The body of the loop of [GetFullFontNames]. *)
Definition push_full_name (fullNamePropertyValues : LocalizedStrings)
  (i : nat) (fullNames : list wstring) : M (list wstring) :=
  let len := GetStringLength fullNamePropertyValues i in
  ThrowIfFailed (fst len) ;;;
  let got := GetString fullNamePropertyValues i (snd len + 1) in
  ThrowIfFailed (fst got) ;;;
  ret (fullNames ++ [snd got]).

(** [CustomFontSetManager::GetFullFontNames()]. *)
Definition GetFullFontNames : M (list wstring) :=
  fullNamePropertyValues <- GetPropertyValuesFromFontSet DWRITE_FONT_PROPERTY_ID_FULL_NAME ;;
  for_loop (GetCount fullNamePropertyValues) 0
    (push_full_name fullNamePropertyValues) [].

(** A Win32 [HANDLE] to wait on: null, or an object that is signalled or not. *)
Inductive HANDLE :=
| null_handle
| waitable (signalled : bool).

(** The body of the first loop of [GetFontDataDetails]. *)
Definition enqueue_download (fs : IDWriteFontSet) (fontIndex : nat) (_ : unit) : M unit :=
  let got := IDWriteFontSet_GetFontFaceReference fs fontIndex in
  ThrowIfFailed (fst got) ;;;
  fontFaceReference <- deref (snd got) ;;
  hr <- EnqueueFontDownloadRequest fontIndex fontFaceReference ;;
  ThrowIfFailed hr.

(** The start of a report line: the full name read from the font data. *)
Definition full_name_prefix (localizedStrings : option LocalizedStrings) : M wstring :=
  ls <- deref localizedStrings ;;
  let found := FindLocaleName ls "en-US" in
  ThrowIfFailed (fst (fst found)) ;;;
  let stringIndex := N.to_nat (if snd found then snd (fst found) else 0%N) in
  let len := GetStringLength ls stringIndex in
  ThrowIfFailed (fst len) ;;;
  let got := GetString ls stringIndex (snd len + 1) in
  ThrowIfFailed (fst got) ;;;
  ret (snd got ++ ": ")%string.

(** The body of the second loop of [GetFontDataDetails]. *)
Definition report_font (fs : IDWriteFontSet) (fontIndex : nat)
  (resultVector : list wstring) : M (list wstring) :=
  let got := IDWriteFontSet_GetFontFaceReference fs fontIndex in
  ThrowIfFailed (fst got) ;;;
  fontFaceReference <- deref (snd got) ;;
  created <- CreateFontFace fontIndex fontFaceReference ;;
  ThrowIfFailed (fst created) ;;;
  fontFace <- deref (snd created) ;;
  let info := GetInformationalStrings_FULL_NAME fontFace in
  ThrowIfFailed (fst (fst info)) ;;;
  fontDetailReport <-
    (if snd info   (* should always be the case *)
     then full_name_prefix (snd (fst info))
     else ret ("Font " ++ to_wstring (N.of_nat fontIndex) ++ ": ")%string) ;;
  let fontDetailReport :=
    (fontDetailReport ++ "x-height = " ++ to_wstring (metrics_xHeight fontFace))%string in
  ret (resultVector ++ [fontDetailReport]).

(** [CustomFontSetManager::GetFontDataDetails(cancellationHandle)]. *)
Definition GetFontDataDetails (cancellationHandle : HANDLE) : M (list wstring) :=
  m <- get_this ;;
  fs <- deref (m_customFontSet m) ;;
  for_loop (List.length fs) 0 (enqueue_download fs) tt ;;;
  for_loop (List.length fs) 0 (report_font fs) [].

(** The loop of [CustomFontSetHasRemoteFonts], which leaves at the first font
    that is not local. *)
Fixpoint has_remote_from (fs : IDWriteFontSet) (iterations fontIndex : nat) : M bool :=
  match iterations with
  | O => ret false
  | S n =>
      let got := IDWriteFontSet_GetFontFaceReference fs fontIndex in
      ThrowIfFailed (fst got) ;;;
      fontFaceReference <- deref (snd got) ;;
      if negb (locality_eqb (GetLocality fontFaceReference) DWRITE_LOCALITY_LOCAL)
      then ret true
      else has_remote_from fs n (S fontIndex)
  end.

(** [CustomFontSetManager::CustomFontSetHasRemoteFonts()]. *)
Definition CustomFontSetHasRemoteFonts : M bool :=
  m <- get_this ;;
  fs <- deref (m_customFontSet m) ;;
  has_remote_from fs (List.length fs) 0.

(** ** Concrete runs *)

Module Scenario.

(** The sample's own scenario: one font in the app's resources, with an
    en-US full name after a French one, and one in the document, with a
    German full name only; a buffer that is not font data; and a face
    without a full name. *)
Definition resource_font : MemoryFontInfo :=
  {| fontData := [Byte.x00; Byte.x01; Byte.x00; Byte.x00]; fontDataSize := 4 |}.
Definition document_font : MemoryFontInfo :=
  {| fontData := [Byte.x4f; Byte.x54; Byte.x54; Byte.x4f]; fontDataSize := 4 |}.
Definition garbage : MemoryFontInfo :=
  {| fontData := [Byte.xff]; fontDataSize := 1 |}.

Definition face_A : IDWriteFontFace3 :=
  {| informationalFullName := Some [("fr-FR", "Police A"); ("en-US", "Font A")];
     metrics_xHeight := 1082 |}.
Definition face_B : IDWriteFontFace3 :=
  {| informationalFullName := Some [("de-DE", "Schrift B")];
     metrics_xHeight := 916 |}.
Definition face_nameless : IDWriteFontFace3 :=
  {| informationalFullName := None; metrics_xHeight := 500 |}.

Definition parser (f : MemoryFontInfo) : option (list IDWriteFontFace3) :=
  match fontData f with
  | [Byte.x00; Byte.x01; Byte.x00; Byte.x00] => Some [face_A]
  | [Byte.x4f; Byte.x54; Byte.x54; Byte.x4f] => Some [face_B]
  | _ => None
  end.

Definition env_of (app doc : list MemoryFontInfo) : Env :=
  {| BinaryResources_GetFonts := app;
     Document_GetFonts := doc;
     hr_CreateInMemoryFontFileLoader := S_OK;
     hr_RegisterFontFileLoader := S_OK;
     hr_CreateFontSetBuilder := S_OK;
     hr_CreateInMemoryFontFileReference := fun _ => S_OK;
     parse_font_data := parser;
     hr_CreateFontSet := S_OK |}.

Definition env : Env := env_of [resource_font] [document_font].
Definition env_empty : Env := env_of [] [].
Definition env_malformed : Env := env_of [resource_font] [garbage; document_font].

Definition no_calls : DWriteFactory := {| registeredLoaders := []; calls := [] |}.

(** The world once the constructor has run with [IDWriteFactory5] present. *)
Definition constructed : World :=
  world (CustomFontSetManager_ctor S_OK S_OK {| this := null_members; dwrite := no_calls |}).

Definition built : World := world (CreateFontSetUsingInMemoryFontData env constructed).
Definition built_twice : World := world (CreateFontSetUsingInMemoryFontData env built).

Definition set_of (fs : IDWriteFontSet) : World :=
  {| this := {| m_dwriteFactory3 := true;
                m_dwriteFactory5 := true;
                m_inMemoryFontFileLoader := None;
                m_customFontSet := Some fs |};
     dwrite := no_calls |}.

Definition remote_reference : IDWriteFontFaceReference :=
  {| ref_properties := fun _ => [("en-US", "Font R")];
     ref_locality := DWRITE_LOCALITY_REMOTE;
     ref_enqueue := S_OK;
     ref_face := None |}.

End Scenario.

(** ** Vocabulary of the statements *)

(** The world with one more recorded call. *)
Definition logged (c : Call) (w : World) : World :=
  {| this := this w;
     dwrite := {| registeredLoaders := registeredLoaders (dwrite w);
                  calls := calls (dwrite w) ++ [c] |} |}.

(** The world with a run of calls recorded. *)
Fixpoint logged_all (cs : list Call) (w : World) : World :=
  match cs with
  | [] => w
  | c :: rest => logged_all rest (logged c w)
  end.

(** An entry whose data is not local. *)
Definition is_remote (r : IDWriteFontFaceReference) : bool :=
  negb (locality_eqb (GetLocality r) DWRITE_LOCALITY_LOCAL).

(** The file the loader makes of a provider's buffer. *)
Definition in_memory_file (owner : DataOwner) (fontInfo : MemoryFontInfo) : IDWriteFontFile :=
  {| file_info := fontInfo; file_owner := owner |}.

(** The files of one build in source order: the app's resources, then the
    document's fonts. *)
Definition source_files (env : Env) : list IDWriteFontFile :=
  map (in_memory_file owner_binaryResources) (BinaryResources_GetFonts env) ++
  map (in_memory_file owner_document) (Document_GetFonts env).

(** The files handed to [AddFontFile] in a record of calls, in call order. *)
Fixpoint added_files (cs : list Call) : list IDWriteFontFile :=
  match cs with
  | [] => []
  | call_AddFontFile f :: rest => f :: added_files rest
  | _ :: rest => added_files rest
  end.

(** The loaders passed to [RegisterFontFileLoader] in a record of calls. *)
Fixpoint registrations (cs : list Call) : list Loader :=
  match cs with
  | [] => []
  | call_RegisterFontFileLoader l :: rest => l :: registrations rest
  | _ :: rest => registrations rest
  end.

(** The loaders passed to [UnregisterFontFileLoader] in a record of calls. *)
Fixpoint unregistrations (cs : list Call) : list Loader :=
  match cs with
  | [] => []
  | call_UnregisterFontFileLoader l :: rest => l :: unregistrations rest
  | _ :: rest => unregistrations rest
  end.

(** The number of [CreateFontSet] calls in a record of calls. *)
Fixpoint finalizations (cs : list Call) : nat :=
  match cs with
  | [] => 0
  | call_CreateFontSet :: rest => S (finalizations rest)
  | _ :: rest => finalizations rest
  end.

(** The entries the builder holds once the given files were added. *)
Fixpoint entries_of (env : Env) (files : list IDWriteFontFile) : IDWriteFontSet :=
  match files with
  | [] => []
  | f :: rest =>
      match parse_font_data env (file_info f) with
      | Some faces => map in_memory_reference faces ++ entries_of env rest
      | None => entries_of env rest
      end
  end.

(** What one of the two adding loops does, apart from the world it runs in:
    the calls it makes and how it ends. *)
Fixpoint adding (env : Env) (owner : DataOwner) (fonts : list MemoryFontInfo)
  (builder : IDWriteFontSet) : list Call * Outcome IDWriteFontSet :=
  match fonts with
  | [] => ([], Returned builder)
  | fontInfo :: rest =>
      let c1 := call_CreateInMemoryFontFileReference fontInfo owner in
      let c2 := call_AddFontFile (in_memory_file owner fontInfo) in
      if FAILED (hr_CreateInMemoryFontFileReference env fontInfo)
      then ([c1], Thrown (hr_CreateInMemoryFontFileReference env fontInfo))
      else
        match parse_font_data env fontInfo with
        | None => ([c1; c2], Thrown DWRITE_E_FILEFORMAT)
        | Some faces =>
            let r := adding env owner rest (builder ++ map in_memory_reference faces) in
            (c1 :: c2 :: fst r, snd r)
        end
  end.

Definition set_loader (l : option Loader) (w : World) : World :=
  {| this := {| m_dwriteFactory3 := m_dwriteFactory3 (this w);
                m_dwriteFactory5 := m_dwriteFactory5 (this w);
                m_inMemoryFontFileLoader := l;
                m_customFontSet := m_customFontSet (this w) |};
     dwrite := dwrite w |}.

Definition set_font_set (fs : option IDWriteFontSet) (w : World) : World :=
  {| this := {| m_dwriteFactory3 := m_dwriteFactory3 (this w);
                m_dwriteFactory5 := m_dwriteFactory5 (this w);
                m_inMemoryFontFileLoader := m_inMemoryFontFileLoader (this w);
                m_customFontSet := fs |};
     dwrite := dwrite w |}.

Definition with_registered (l : Loader) (w : World) : World :=
  {| this := this w;
     dwrite := {| registeredLoaders := l :: registeredLoaders (dwrite w);
                  calls := calls (dwrite w) |} |}.

(** Every platform call of a build succeeds and every buffer is font data. *)
Definition platform_succeeds (env : Env) : Prop :=
  FAILED (hr_CreateInMemoryFontFileLoader env) = false /\
  FAILED (hr_RegisterFontFileLoader env) = false /\
  FAILED (hr_CreateFontSetBuilder env) = false /\
  FAILED (hr_CreateFontSet env) = false /\
  forall f, In f (BinaryResources_GetFonts env ++ Document_GetFonts env) ->
    FAILED (hr_CreateInMemoryFontFileReference env f) = false /\
    parse_font_data env f <> None.

(** A manager on which the build is invoked [n] times in a row. *)
Fixpoint build_times (n : nat) (env : Env) (w : World) : World :=
  match n with
  | O => w
  | S n' => build_times n' env (world (CreateFontSetUsingInMemoryFontData env w))
  end.

(** A manager on which the build is invoked once for each of [envs], in
    order, whatever each build's outcome. *)
Fixpoint build_each (envs : list Env) (w : World) : World :=
  match envs with
  | [] => w
  | env :: rest => build_each rest (world (CreateFontSetUsingInMemoryFontData env w))
  end.

(** The world a manager's destructor runs in: the manager was constructed over
    the factory [d0] and then built once for each of [envs] (not at all when
    [envs] is empty). *)
Definition manager_after (d0 : DWriteFactory) (hr_create hr_as : HRESULT)
  (envs : list Env) : World :=
  build_each envs
    (world (CustomFontSetManager_ctor hr_create hr_as
              {| this := null_members; dwrite := d0 |})).

(** The line [GetFontDataDetails] reports for the font at [fontIndex] whose
    data reads as [face]. *)
Definition report_line (fontIndex : nat) (face : IDWriteFontFace3) : wstring :=
  ((match informationalFullName face with
    | Some ls =>
        match best_language_match "en-US" ls with
        | Some p => snd p
        | None => ""
        end
    | None => "Font " ++ to_wstring (N.of_nat fontIndex)
    end)
   ++ ": " ++ "x-height = " ++ to_wstring (metrics_xHeight face))%string.

(** The lines for the entries of a set, numbered from [from]. *)
Fixpoint report_lines (from : nat) (fs : IDWriteFontSet) : list wstring :=
  match fs with
  | [] => []
  | r :: rest =>
      match ref_face r with
      | Some face => report_line from face :: report_lines (S from) rest
      | None => report_lines (S from) rest
      end
  end.

(** An entry whose download request is accepted and whose data can be read,
    with at least one string behind a full name that exists. *)
Definition readable (r : IDWriteFontFaceReference) : bool :=
  negb (FAILED (ref_enqueue r)) &&
  match ref_face r with
  | Some face =>
      match informationalFullName face with
      | Some [] => false
      | _ => true
      end
  | None => false
  end.

(** ** The driver *)

(** What the console sees, in order: text written to [std::wcout], and
    [FlushConsoleInputBuffer] on a handle. *)
Inductive ConsoleEvent :=
| wcout (text : wstring)
| flushed_input (h : HANDLE).

(** The process of the sample: its console and the manager in its world. *)
Record Process := {
  console : list ConsoleEvent;
  manager_world : World
}.

Definition D (A : Type) := Process -> Outcome A * Process.

Definition dret {A} (a : A) : D A := fun p => (Returned a, p).

Definition dbind {A B} (m : D A) (k : A -> D B) : D B :=
  fun p =>
    match m p with
    | (Returned a, p') => k a p'
    | (Thrown hr, p') => (Thrown hr, p')
    | (NullDereference, p') => (NullDereference, p')
    end.

Declare Scope driver_scope.
Delimit Scope driver_scope with driver.
Notation "x <- m ;; k" := (dbind m (fun x => k))
  (at level 100, m at next level, right associativity) : driver_scope.
Notation "m ;;; k" := (dbind m (fun _ => k))
  (at level 100, right associativity) : driver_scope.

(** A call on the manager, made from the driver. *)
Definition call {A} (m : M A) : D A :=
  fun p =>
    (fst (m (manager_world p)),
     {| console := console p; manager_world := snd (m (manager_world p)) |}).

(** [std::wcout << ...], one statement. *)
Definition write (text : wstring) : D unit :=
  fun p => (Returned tt,
            {| console := console p ++ [wcout text];
               manager_world := manager_world p |}).

Definition FlushConsoleInputBuffer (h : HANDLE) : D unit :=
  fun p => (Returned tt,
            {| console := console p ++ [flushed_input h];
               manager_world := manager_world p |}).

(** The newline of the string literals and of [std::endl]. *)
Definition nl : wstring := String (ascii_of_nat 10) EmptyString.

(** [for (auto& row : rows) std::wcout << row << std::endl;] *)
Fixpoint write_rows (rows : list wstring) : D unit :=
  match rows with
  | [] => dret tt
  | row :: rest => dbind (write (row ++ nl)%string) (fun _ => write_rows rest)
  end.

(** [fontSetManager.GetFontCount()] from the driver. *)
Definition fontCount : D Z :=
  call (bind get_this (fun m => ret (GetFontCount m))).

(** [DWriteCustomFontSets::ReportFontProperties(fontSetManager)]. *)
Definition ReportFontProperties : D unit :=
  (count <- fontCount ;;
   write ("Number of fonts in the font set: " ++ to_wstring (Z.to_N count) ++ nl)%string ;;;
   count <- fontCount ;;
   if (0 <? count)%Z
   then
     write (nl ++ "Full face name property for fonts in the custom font set:" ++ nl)%string ;;;
     fullNames <- call GetFullFontNames ;;
     write_rows fullNames ;;;
     write nl
   else dret tt)%driver.

(** What [GetStdHandle(STD_INPUT_HANDLE)] answers. *)
Inductive StdHandle :=
| INVALID_HANDLE_VALUE
| std_handle (h : HANDLE).

(** The part of [ReportFontDataDetails] that settles [inputHandle]; [None]
    is the early [return]. *)
Definition choose_input_handle (GetStdHandle_STD_INPUT_HANDLE : StdHandle)
  : D (option HANDLE) :=
  (remote <- call CustomFontSetHasRemoteFonts ;;
   if remote
   then
     write ("The custom font set has remote fonts that will need to be downloaded." ++ nl)%string ;;;
     match GetStdHandle_STD_INPUT_HANDLE with
     | INVALID_HANDLE_VALUE =>
         write ("Unable to fetch the remote fonts without risk of blocking UI, so skipping."
                ++ nl)%string ;;;
         dret None
     | std_handle inputHandle =>
         write ("Fetching remote fonts, which may take some time. To quit, press any key..."
                ++ nl)%string ;;;
         FlushConsoleInputBuffer inputHandle ;;;
         dret (Some inputHandle)
     end
   else dret (Some null_handle))%driver.

(** [DWriteCustomFontSets::ReportFontDataDetails(fontSetManager)]. *)
Definition ReportFontDataDetails (GetStdHandle_STD_INPUT_HANDLE : StdHandle) : D unit :=
  (count <- fontCount ;;
   if (0 <? count)%Z
   then
     write (nl ++ "Reporting some details requiring actual font data:" ++ nl)%string ;;;
     chosen <- choose_input_handle GetStdHandle_STD_INPUT_HANDLE ;;
     match chosen with
     | None => dret tt
     | Some inputHandle =>
         fontDetails <- call (GetFontDataDetails inputHandle) ;;
         write_rows fontDetails
     end
   else dret tt)%driver.

(** [Scenario] (declared in a header of the sample): the driver implements
    one scenario and sends every other one to [default:]. *)
Inductive Scenario_id :=
| InMemoryFonts
| other_scenario (n : nat).

(** One run of the program: what [CommandLineArgs] (a class of the sample that
    is not in the two files) makes of the command line, and what the platform
    answers. *)
Record Run := {
  ProcessArgs : bool;
  DisplayUsage : wstring;
  GetScenario : Scenario_id;
  hr_DWriteCreateFactory : HRESULT;
  hr_As_IDWriteFactory5 : HRESULT;
  build_env : Env;
  GetStdHandle_STD_INPUT_HANDLE : StdHandle
}.

(** The [switch] of [wmain] and what follows it, up to the [return]; the
    value is the exit code. *)
Definition wmain_scenario (run : Run) : D Z :=
  (match GetScenario run with
   | InMemoryFonts =>
       write ("Scenario 4: custom font set using in-memory font data." ++ nl)%string ;;;
       m <- call get_this ;;
       if negb (IDWriteFactory5_IsAvailable m)
       then
         write ("This scenario requires Windows 10 Creators Update (preview build 15021 or later)."
                ++ nl)%string ;;;
         dret (-1)%Z
       else
         call (CreateFontSetUsingInMemoryFontData (build_env run)) ;;;
         ReportFontProperties ;;;
         ReportFontDataDetails (GetStdHandle_STD_INPUT_HANDLE run) ;;;
         dret 0%Z
   | other_scenario _ =>
       write (nl ++ "The selected scenario is not implemented." ++ nl)%string ;;;
       dret (-1)%Z
   end)%driver.

(** [wmain(argc, argv)].  The manager is a local of [wmain]: it is constructed
    after the command line was accepted and destroyed at each [return] that
    follows.  An exception leaves [wmain] without a handler; no destructor is
    run for it here. *)
Definition wmain (run : Run) : D Z :=
  (if negb (ProcessArgs run)
   then write (DisplayUsage run) ;;; dret (-1)%Z
   else
     call (CustomFontSetManager_ctor (hr_DWriteCreateFactory run)
             (hr_As_IDWriteFactory5 run)) ;;;
     exit_code <- wmain_scenario run ;;
     call CustomFontSetManager_dtor ;;;
     dret exit_code)%driver.

(** The process [wmain] starts in: nothing on the console, the manager's
    storage not yet constructed, over the factory [d0]. *)
Definition process_start (d0 : DWriteFactory) : Process :=
  {| console := [];
     manager_world := {| this := null_members; dwrite := d0 |} |}.

(** The handles the console has flushed. *)
Fixpoint flushed (es : list ConsoleEvent) : list HANDLE :=
  match es with
  | [] => []
  | flushed_input h :: rest => h :: flushed rest
  | wcout _ :: rest => flushed rest
  end.

(** A computation that dereferences no null pointer and throws failure codes
    only. *)
Definition clean {A} (o : Outcome A) : Prop :=
  match o with
  | Returned _ => True
  | Thrown hr => FAILED hr = true
  | NullDereference => False
  end.

(** The number of fonts the platform's parser finds in a buffer. *)
Definition fonts_in (env : Env) (f : MemoryFontInfo) : nat :=
  match parse_font_data env f with
  | Some faces => List.length faces
  | None => 0
  end.

(** The [CreateFontFace] calls in a record of calls. *)
Fixpoint created_faces (cs : list Call) : list nat :=
  match cs with
  | [] => []
  | call_CreateFontFace i :: rest => i :: created_faces rest
  | _ :: rest => created_faces rest
  end.

(** The rows the driver writes for a list of strings. *)
Definition rows (lines : list wstring) : list ConsoleEvent :=
  map (fun line => wcout (line ++ nl)%string) lines.

(** What the driver does with the answer of [GetFontDataDetails], on a
    console that shows [con]. *)
Definition print_details (con : list ConsoleEvent) (r : Outcome (list wstring) * World)
  : Outcome unit * Process :=
  match r with
  | (Returned lines, w) =>
      (Returned tt, {| console := con ++ rows lines; manager_world := w |})
  | (Thrown hr, w) => (Thrown hr, {| console := con; manager_world := w |})
  | (NullDereference, w) => (NullDereference, {| console := con; manager_world := w |})
  end.

(** The full names [GetFullFontNames] returns for a font set. *)
Definition full_names (fs : IDWriteFontSet) : list wstring :=
  map snd
    (unique_values []
       (language_matches "en-US"
          (map (fun r => ref_properties r DWRITE_FONT_PROPERTY_ID_FULL_NAME) fs))).

(** The texts of the driver. *)
Definition text_count (count : Z) : wstring :=
  ("Number of fonts in the font set: " ++ to_wstring (Z.to_N count) ++ nl)%string.
Definition text_names : wstring :=
  (nl ++ "Full face name property for fonts in the custom font set:" ++ nl)%string.
Definition text_details : wstring :=
  (nl ++ "Reporting some details requiring actual font data:" ++ nl)%string.
Definition text_remote : wstring :=
  ("The custom font set has remote fonts that will need to be downloaded." ++ nl)%string.
Definition text_skipping : wstring :=
  ("Unable to fetch the remote fonts without risk of blocking UI, so skipping." ++ nl)%string.
Definition text_fetching : wstring :=
  ("Fetching remote fonts, which may take some time. To quit, press any key..."
   ++ nl)%string.

Definition text_scenario : wstring :=
  ("Scenario 4: custom font set using in-memory font data." ++ nl)%string.
Definition text_requires : wstring :=
  ("This scenario requires Windows 10 Creators Update (preview build 15021 or later)."
   ++ nl)%string.
Definition text_not_implemented : wstring :=
  (nl ++ "The selected scenario is not implemented." ++ nl)%string.

(** An entry that accepts its download request. *)
Definition accepts_download (r : IDWriteFontFaceReference) : bool :=
  negb (FAILED (ref_enqueue r)).

(** An entry whose data can be read, with at least one string behind a full
    name that exists. *)
Definition data_readable (r : IDWriteFontFaceReference) : bool :=
  match ref_face r with
  | Some face =>
      match informationalFullName face with
      | Some [] => false
      | _ => true
      end
  | None => false
  end.

(** Runs of the sample. *)
Module Runs.

(** A build in which the loader is created but its registration fails. *)
Definition env_registration_fails : Env :=
  {| BinaryResources_GetFonts := [Scenario.resource_font];
     Document_GetFonts := [Scenario.document_font];
     hr_CreateInMemoryFontFileLoader := S_OK;
     hr_RegisterFontFileLoader := E_INVALIDARG;
     hr_CreateFontSetBuilder := S_OK;
     hr_CreateInMemoryFontFileReference := fun _ => S_OK;
     parse_font_data := Scenario.parser;
     hr_CreateFontSet := S_OK |}.

(** A build whose last call, [CreateFontSet], fails. *)
Definition env_CreateFontSet_fails : Env :=
  {| BinaryResources_GetFonts := [];
     Document_GetFonts := [];
     hr_CreateInMemoryFontFileLoader := S_OK;
     hr_RegisterFontFileLoader := S_OK;
     hr_CreateFontSetBuilder := S_OK;
     hr_CreateInMemoryFontFileReference := fun _ => S_OK;
     parse_font_data := Scenario.parser;
     hr_CreateFontSet := E_INVALIDARG |}.

(** An entry that is local but refuses the download request. *)
Definition refusing_reference : IDWriteFontFaceReference :=
  {| ref_properties := fun _ => [("en-US", "Font Q")];
     ref_locality := DWRITE_LOCALITY_LOCAL;
     ref_enqueue := E_INVALIDARG;
     ref_face := Some Scenario.face_A |}.

Definition in_memory : Run :=
  {| ProcessArgs := true;
     DisplayUsage := "usage";
     GetScenario := InMemoryFonts;
     hr_DWriteCreateFactory := S_OK;
     hr_As_IDWriteFactory5 := S_OK;
     build_env := Scenario.env;
     GetStdHandle_STD_INPUT_HANDLE := std_handle (waitable false) |}.

Definition process_of (w : World) : Process :=
  {| console := []; manager_world := w |}.

End Runs.

(** * Properties *)

(** ** The monad *)

Lemma bind_Returned {A B} (m : M A) (k : A -> M B) w a w' :
  m w = (Returned a, w') -> bind m k w = k a w'.
Proof. intros E. unfold bind. rewrite E. reflexivity. Qed.

Lemma ThrowIfFailed_ok hr w :
  FAILED hr = false -> ThrowIfFailed hr w = (Returned tt, w).
Proof. intros E. unfold ThrowIfFailed. rewrite E. reflexivity. Qed.

Lemma ThrowIfFailed_throws hr w :
  FAILED hr = true -> ThrowIfFailed hr w = (Thrown hr, w).
Proof. intros E. unfold ThrowIfFailed. rewrite E. reflexivity. Qed.

Lemma record_call_logged c w : record_call c w = (Returned tt, logged c w).
Proof. reflexivity. Qed.

Lemma this_logged_all cs : forall w, this (logged_all cs w) = this w.
Proof. induction cs as [|c cs IH]; intros w; simpl; [reflexivity|]. now rewrite IH. Qed.

Lemma registered_logged_all cs :
  forall w, registeredLoaders (dwrite (logged_all cs w)) = registeredLoaders (dwrite w).
Proof. induction cs as [|c cs IH]; intros w; simpl; [reflexivity|]. now rewrite IH. Qed.

Lemma calls_logged_all cs :
  forall w, calls (dwrite (logged_all cs w)) = calls (dwrite w) ++ cs.
Proof.
  induction cs as [|c cs IH]; intros w; simpl.
  - now rewrite app_nil_r.
  - rewrite IH. simpl. now rewrite <- app_assoc.
Qed.

(** ** Reading the font set *)

Lemma GetFontFaceReference_in_range (fs : IDWriteFontSet) i r :
  nth_error fs i = Some r ->
  IDWriteFontSet_GetFontFaceReference fs i = (S_OK, Some r).
Proof. intros E. unfold IDWriteFontSet_GetFontFaceReference. now rewrite E. Qed.

Lemma is_remote_spec r :
  is_remote r = true <-> ref_locality r <> DWRITE_LOCALITY_LOCAL.
Proof.
  unfold is_remote, GetLocality.
  destruct (ref_locality r); simpl; split; intros H; congruence.
Qed.

(** The loop over the indices [i .. i + n - 1] looks at the entries from [i]
    on and stops at the first that is not local. *)
Lemma has_remote_from_skipn (fs : IDWriteFontSet) w :
  forall n i, i + n = List.length fs ->
  has_remote_from fs n i w = (Returned (existsb is_remote (skipn i fs)), w).
Proof.
  induction n as [|n IH]; intros i Hlen.
  - rewrite skipn_all2 by lia. reflexivity.
  - destruct (nth_error fs i) as [r|] eqn:E.
    2:{ apply nth_error_None in E. lia. }
    assert (Hskip : skipn i fs = r :: skipn (S i) fs).
    { clear - E. revert i E. induction fs as [|x fs IHfs]; intros [|i] E; simpl in *;
        try discriminate.
      - now inversion E.
      - now apply IHfs. }
    rewrite Hskip. simpl.
    rewrite (GetFontFaceReference_in_range _ _ _ E). simpl.
    unfold bind at 1. rewrite ThrowIfFailed_ok by reflexivity.
    unfold bind, deref, ret. fold (is_remote r).
    destruct (is_remote r); [reflexivity|].
    simpl. apply IH. lia.
Qed.

Lemma CustomFontSetHasRemoteFonts_built w fs :
  m_customFontSet (this w) = Some fs ->
  CustomFontSetHasRemoteFonts w = (Returned (existsb is_remote fs), w).
Proof.
  intros E. unfold CustomFontSetHasRemoteFonts, bind, get_this. rewrite E. simpl.
  now rewrite has_remote_from_skipn.
Qed.

(** ** The build *)

Lemma new_loader_fresh d : ~ In (new_loader d) (registeredLoaders d).
Proof.
  unfold new_loader. intros H.
  pose proof (list_max_le (registeredLoaders d) (list_max (registeredLoaders d))) as [Hle _].
  specialize (Hle (Nat.le_refl _)).
  rewrite Forall_forall in Hle. apply Hle in H. lia.
Qed.

Lemma existsb_eqb_false l ls : ~ In l ls -> existsb (Nat.eqb l) ls = false.
Proof.
  intros H. destruct (existsb (Nat.eqb l) ls) eqn:E; [|reflexivity].
  apply existsb_exists in E as [x [Hin Heq]]. apply Nat.eqb_eq in Heq. now subst.
Qed.

Lemma existsb_eqb_true l ls : In l ls -> existsb (Nat.eqb l) ls = true.
Proof.
  intros H. apply existsb_exists. exists l. split; [assumption|apply Nat.eqb_refl].
Qed.

(** The adding loop in a world whose loader is set: it records the calls of
    [adding] and ends as [adding] says; the manager's members and the
    registered loaders stay as they are. *)
Lemma add_in_memory_fonts_adding env owner fonts :
  forall builder w l,
  m_inMemoryFontFileLoader (this w) = Some l ->
  add_in_memory_fonts env owner fonts builder w =
  (snd (adding env owner fonts builder),
   logged_all (fst (adding env owner fonts builder)) w).
Proof.
  induction fonts as [|f rest IH]; intros builder w l Hl; [reflexivity|].
  cbn [add_in_memory_fonts adding].
  unfold bind at 1. unfold get_this at 1. cbv beta iota.
  unfold bind at 1. rewrite Hl. unfold deref at 1, ret at 1. cbv beta iota.
  unfold bind at 1. unfold CreateInMemoryFontFileReference at 1.
  unfold bind at 1. rewrite record_call_logged.
  destruct (FAILED (hr_CreateInMemoryFontFileReference env f)) eqn:Hf.
  - unfold ret at 1. cbn [fst snd].
    unfold bind at 1. rewrite (ThrowIfFailed_throws _ _ Hf). reflexivity.
  - unfold ret at 1. cbn [fst snd].
    unfold bind at 1. rewrite (ThrowIfFailed_ok _ _ Hf).
    unfold bind at 1. unfold deref at 1, ret at 1. cbv beta iota.
    unfold bind at 1. unfold AddFontFile at 1.
    unfold bind at 1. rewrite record_call_logged.
    cbn [file_info].
    destruct (parse_font_data env f) as [faces|] eqn:Hp.
    + unfold ret at 1. cbn [fst snd].
      unfold bind at 1. rewrite ThrowIfFailed_ok by reflexivity.
      rewrite (IH _ _ l) by exact Hl. reflexivity.
    + unfold ret at 1. cbn [fst snd].
      unfold bind at 1. rewrite ThrowIfFailed_throws by reflexivity. reflexivity.
Qed.

(** The build, step by step, on a manager whose [IDWriteFactory5] is there. *)
Lemma build_steps env w :
  m_dwriteFactory5 (this w) = true ->
  CreateFontSetUsingInMemoryFontData env w =
  let w1 := logged call_CreateInMemoryFontFileLoader (set_loader None w) in
  if FAILED (hr_CreateInMemoryFontFileLoader env)
  then (Thrown (hr_CreateInMemoryFontFileLoader env), w1)
  else
    let l := new_loader (dwrite w) in
    let w2 := logged (call_RegisterFontFileLoader l) (set_loader (Some l) w1) in
    if FAILED (hr_RegisterFontFileLoader env)
    then (Thrown (hr_RegisterFontFileLoader env), w2)
    else
      let w3 := logged call_CreateFontSetBuilder (with_registered l w2) in
      if FAILED (hr_CreateFontSetBuilder env)
      then (Thrown (hr_CreateFontSetBuilder env), w3)
      else
        let a1 := adding env owner_binaryResources (BinaryResources_GetFonts env) [] in
        let w4 := logged_all (fst a1) w3 in
        match snd a1 with
        | Returned b1 =>
            let a2 := adding env owner_document (Document_GetFonts env) b1 in
            let w5 := logged_all (fst a2) w4 in
            match snd a2 with
            | Returned b2 =>
                let w6 := logged call_CreateFontSet (set_font_set None w5) in
                if FAILED (hr_CreateFontSet env)
                then (Thrown (hr_CreateFontSet env), w6)
                else (Returned tt, set_font_set (Some b2) w6)
            | Thrown hr => (Thrown hr, w5)
            | NullDereference => (NullDereference, w5)
            end
        | Thrown hr => (Thrown hr, w4)
        | NullDereference => (NullDereference, w4)
        end.
Proof.
  intros H5. cbv zeta.
  unfold CreateFontSetUsingInMemoryFontData.
  unfold bind at 1. unfold get_this at 1. cbv beta iota.
  unfold bind at 1. rewrite H5. unfold deref_flag at 1, ret at 1. cbv beta iota.
  unfold bind at 1. unfold CreateInMemoryFontFileLoader at 1.
  unfold bind at 1.
  change (ReleaseAndGetAddressOf_m_inMemoryFontFileLoader w)
    with (Returned tt, set_loader None w). cbv beta iota.
  unfold bind at 1. rewrite record_call_logged.
  destruct (FAILED (hr_CreateInMemoryFontFileLoader env)) eqn:HL.
  { unfold ret at 1. unfold bind at 1. rewrite (ThrowIfFailed_throws _ _ HL). reflexivity. }
  unfold bind at 1.
  change (get_dwrite (logged call_CreateInMemoryFontFileLoader (set_loader None w)))
    with (Returned (dwrite (logged call_CreateInMemoryFontFileLoader (set_loader None w))),
          logged call_CreateInMemoryFontFileLoader (set_loader None w)).
  cbv beta iota.
  unfold bind at 1.
  change (new_loader (dwrite (logged call_CreateInMemoryFontFileLoader (set_loader None w))))
    with (new_loader (dwrite w)).
  set (l := new_loader (dwrite w)).
  change (set_m_inMemoryFontFileLoader l
            (logged call_CreateInMemoryFontFileLoader (set_loader None w)))
    with (Returned tt,
          set_loader (Some l) (logged call_CreateInMemoryFontFileLoader (set_loader None w))).
  cbv beta iota. unfold ret at 1.
  unfold bind at 1. rewrite (ThrowIfFailed_ok _ _ HL).
  unfold bind at 1. unfold get_this at 1. cbv beta iota.
  unfold bind at 1.
  cbn [this set_loader m_inMemoryFontFileLoader].
  unfold RegisterFontFileLoader at 1.
  unfold bind at 1. rewrite record_call_logged.
  unfold bind at 1. unfold get_dwrite at 1. cbv beta iota.
  cbn [dwrite logged set_loader registeredLoaders].
  rewrite (existsb_eqb_false l (registeredLoaders (dwrite w))) by apply new_loader_fresh.
  destruct (FAILED (hr_RegisterFontFileLoader env)) eqn:HR.
  { unfold ret at 1. unfold bind at 1. rewrite (ThrowIfFailed_throws _ _ HR). reflexivity. }
  unfold bind at 1. unfold put_dwrite at 1, ret at 1. cbv beta iota.
  unfold bind at 1. rewrite (ThrowIfFailed_ok _ _ HR).
  unfold bind at 1. unfold CreateFontSetBuilder at 1.
  unfold bind at 1. rewrite record_call_logged.
  destruct (FAILED (hr_CreateFontSetBuilder env)) eqn:HB.
  { unfold ret at 1. cbn [fst snd].
    unfold bind at 1. rewrite (ThrowIfFailed_throws _ _ HB). reflexivity. }
  unfold ret at 1. cbn [fst snd].
  unfold bind at 1. rewrite (ThrowIfFailed_ok _ _ HB).
  unfold bind at 1. unfold deref at 1, ret at 1. cbv beta iota.
  unfold bind at 1.
  rewrite (add_in_memory_fonts_adding env owner_binaryResources _ _ _ l) by reflexivity.
  destruct (snd (adding env owner_binaryResources (BinaryResources_GetFonts env) []))
    as [b1|hr|]; try reflexivity.
  unfold bind at 1.
  rewrite (add_in_memory_fonts_adding env owner_document _ _ _ l)
    by (rewrite this_logged_all; reflexivity).
  destruct (snd (adding env owner_document (Document_GetFonts env) b1))
    as [b2|hr|]; try reflexivity.
  unfold bind at 1. unfold CreateFontSet at 1.
  unfold bind at 1.
  match goal with
  | |- context [set_m_customFontSet None ?w0] =>
      change (set_m_customFontSet None w0) with (Returned tt, set_font_set None w0)
  end.
  cbv beta iota.
  unfold bind at 1. rewrite record_call_logged.
  destruct (FAILED (hr_CreateFontSet env)) eqn:HS.
  { unfold ret at 1. cbv beta iota. rewrite (ThrowIfFailed_throws _ _ HS). reflexivity. }
  unfold bind at 1.
  match goal with
  | |- context [set_m_customFontSet (Some b2) ?w0] =>
      change (set_m_customFontSet (Some b2) w0) with (Returned tt, set_font_set (Some b2) w0)
  end.
  cbv beta iota. unfold ret at 1. cbv beta iota.
  rewrite (ThrowIfFailed_ok _ _ HS). reflexivity.
Qed.

Lemma added_files_app cs1 cs2 :
  added_files (cs1 ++ cs2) = added_files cs1 ++ added_files cs2.
Proof.
  induction cs1 as [|c cs1 IH]; [reflexivity|].
  destruct c; simpl; rewrite IH; reflexivity.
Qed.

Lemma registrations_app cs1 cs2 :
  registrations (cs1 ++ cs2) = registrations cs1 ++ registrations cs2.
Proof.
  induction cs1 as [|c cs1 IH]; [reflexivity|].
  destruct c; simpl; rewrite IH; reflexivity.
Qed.

Lemma unregistrations_app cs1 cs2 :
  unregistrations (cs1 ++ cs2) = unregistrations cs1 ++ unregistrations cs2.
Proof.
  induction cs1 as [|c cs1 IH]; [reflexivity|].
  destruct c; simpl; rewrite IH; reflexivity.
Qed.

Lemma finalizations_app cs1 cs2 :
  finalizations (cs1 ++ cs2) = finalizations cs1 + finalizations cs2.
Proof.
  induction cs1 as [|c cs1 IH]; [reflexivity|].
  destruct c; simpl; rewrite IH; reflexivity.
Qed.

Lemma entries_of_app env fs1 fs2 :
  entries_of env (fs1 ++ fs2) = entries_of env fs1 ++ entries_of env fs2.
Proof.
  induction fs1 as [|f fs1 IH]; [reflexivity|].
  simpl. destruct (parse_font_data env (file_info f)); rewrite IH;
    [now rewrite app_assoc | reflexivity].
Qed.

Section Adding.

Variables (env : Env) (owner : DataOwner).

(** The loop never touches a null pointer, and what it throws is a failure
    code. *)
Lemma adding_outcome fonts : forall builder,
  match snd (adding env owner fonts builder) with
  | Returned _ => True
  | Thrown hr => FAILED hr = true
  | NullDereference => False
  end.
Proof.
  induction fonts as [|f rest IH]; intros builder; simpl; [exact I|].
  destruct (FAILED (hr_CreateInMemoryFontFileReference env f)) eqn:Hf; simpl; [exact Hf|].
  destruct (parse_font_data env f); simpl; [apply IH | reflexivity].
Qed.

(** It registers nothing, unregisters nothing and does not finalize. *)
Lemma adding_only_adds fonts : forall builder,
  registrations (fst (adding env owner fonts builder)) = [] /\
  unregistrations (fst (adding env owner fonts builder)) = [] /\
  finalizations (fst (adding env owner fonts builder)) = 0.
Proof.
  induction fonts as [|f rest IH]; intros builder; simpl; [auto|].
  destruct (FAILED (hr_CreateInMemoryFontFileReference env f)); simpl; [auto|].
  destruct (parse_font_data env f); simpl; [apply IH | auto].
Qed.

(** The files it adds are the first ones of the provider's vector, in the
    vector's order. *)
Lemma adding_prefix fonts : forall builder,
  exists k,
    k <= List.length fonts /\
    added_files (fst (adding env owner fonts builder)) =
    firstn k (map (in_memory_file owner) fonts).
Proof.
  induction fonts as [|f rest IH]; intros builder; simpl.
  - exists 0. split; [lia | reflexivity].
  - destruct (FAILED (hr_CreateInMemoryFontFileReference env f)); simpl.
    + exists 0. split; [lia | reflexivity].
    + destruct (parse_font_data env f) as [faces|]; simpl.
      * destruct (IH (builder ++ map in_memory_reference faces)) as [k [Hle Hk]].
        exists (S k). split; [lia|]. simpl. now rewrite Hk.
      * exists 1. split; [lia|]. destruct rest; reflexivity.
Qed.

(** When it returns, it has added every file, and the builder holds the
    fonts of all of them after those it held before. *)
Lemma adding_Returned fonts : forall builder b,
  snd (adding env owner fonts builder) = Returned b ->
  added_files (fst (adding env owner fonts builder)) = map (in_memory_file owner) fonts /\
  b = builder ++ entries_of env (map (in_memory_file owner) fonts) /\
  Forall (fun f => parse_font_data env f <> None) fonts.
Proof.
  induction fonts as [|f rest IH]; intros builder b; simpl.
  - intros E. inversion E. now rewrite app_nil_r.
  - destruct (FAILED (hr_CreateInMemoryFontFileReference env f)); simpl; [discriminate|].
    destruct (parse_font_data env f) as [faces|] eqn:Hp; simpl; [|discriminate].
    intros E. destruct (IH _ _ E) as [Ha [Hb Hall]].
    rewrite Ha, Hb. repeat split.
    + now rewrite app_assoc.
    + constructor; [congruence | exact Hall].
Qed.

(** A buffer that is not font data makes it throw. *)
Lemma adding_malformed fonts : forall builder f,
  In f fonts -> parse_font_data env f = None ->
  exists hr, snd (adding env owner fonts builder) = Thrown hr.
Proof.
  induction fonts as [|g rest IH]; intros builder f Hin Hp; [destruct Hin|].
  simpl.
  destruct (FAILED (hr_CreateInMemoryFontFileReference env g)); simpl; [eauto|].
  destruct (parse_font_data env g) as [faces|] eqn:Hg; simpl; [|eauto].
  destruct Hin as [->|Hin]; [congruence|]. eapply IH; eassumption.
Qed.

(** When the calls succeed and the buffers are font data, it returns. *)
Lemma adding_succeeds fonts : forall builder,
  (forall f, In f fonts ->
     FAILED (hr_CreateInMemoryFontFileReference env f) = false /\
     parse_font_data env f <> None) ->
  exists b, snd (adding env owner fonts builder) = Returned b.
Proof.
  induction fonts as [|g rest IH]; intros builder H; simpl; [eauto|].
  destruct (H g (or_introl eq_refl)) as [Hf Hp]. rewrite Hf.
  destruct (parse_font_data env g) as [faces|]; [|congruence]. simpl.
  apply IH. intros f Hin. apply H. now right.
Qed.

End Adding.

Lemma build_without_factory5 env w :
  m_dwriteFactory5 (this w) = false ->
  CreateFontSetUsingInMemoryFontData env w = (NullDereference, w).
Proof.
  intros H. unfold CreateFontSetUsingInMemoryFontData, bind, get_this, deref_flag.
  rewrite H. reflexivity.
Qed.

(** The cases of [build_steps], one goal for each way the build can end. *)
Ltac build_cases H5 :=
  match goal with
  | |- context [CreateFontSetUsingInMemoryFontData ?env ?w] =>
      rewrite (build_steps env w H5); cbv zeta;
      destruct (FAILED (hr_CreateInMemoryFontFileLoader env)) eqn:HL;
      [ | destruct (FAILED (hr_RegisterFontFileLoader env)) eqn:HR;
          [ | destruct (FAILED (hr_CreateFontSetBuilder env)) eqn:HB;
              [ | pose proof (adding_outcome env owner_binaryResources
                                (BinaryResources_GetFonts env) []) as Ho1;
                  destruct (snd (adding env owner_binaryResources
                                   (BinaryResources_GetFonts env) []))
                    as [b1|hr1|] eqn:Ha1;
                  [ pose proof (adding_outcome env owner_document
                                  (Document_GetFonts env) b1) as Ho2;
                    destruct (snd (adding env owner_document
                                     (Document_GetFonts env) b1))
                      as [b2|hr2|] eqn:Ha2;
                    [ destruct (FAILED (hr_CreateFontSet env)) eqn:HS
                    | | contradiction ]
                  | | contradiction ] ] ] ]
  end.

Lemma in_memory_entries_local env files :
  existsb is_remote (entries_of env files) = false.
Proof.
  induction files as [|f rest IH]; [reflexivity|]. simpl.
  destruct (parse_font_data env (file_info f)) as [faces|]; [|exact IH].
  rewrite existsb_app, IH, orb_false_r.
  clear. induction faces as [|face faces IHf]; [reflexivity|]. simpl. exact IHf.
Qed.

(** A build that returns leaves the font set made of the fonts of all the
    source files, in source order. *)
Lemma build_Returned_font_set env w :
  result (CreateFontSetUsingInMemoryFontData env w) = Returned tt ->
  m_customFontSet (this (world (CreateFontSetUsingInMemoryFontData env w))) =
  Some (entries_of env (source_files env)).
Proof.
  destruct (m_dwriteFactory5 (this w)) eqn:H5.
  2:{ rewrite (build_without_factory5 env w H5). discriminate. }
  build_cases H5; unfold result; cbn [fst]; try discriminate.
  intros _. cbn [world snd set_font_set this m_customFontSet].
  apply adding_Returned in Ha1 as [_ [-> _]].
  apply adding_Returned in Ha2 as [_ [-> _]].
  unfold source_files. now rewrite entries_of_app.
Qed.

(** When the platform calls succeed and the buffers are font data, the build
    returns. *)
Lemma build_succeeds env w :
  m_dwriteFactory5 (this w) = true ->
  platform_succeeds env ->
  result (CreateFontSetUsingInMemoryFontData env w) = Returned tt.
Proof.
  intros H5 (HL' & HR' & HB' & HS' & Hfonts).
  destruct (adding_succeeds env owner_binaryResources (BinaryResources_GetFonts env) [])
    as [b1' Hb1].
  { intros f Hin. apply Hfonts. apply in_or_app. now left. }
  destruct (adding_succeeds env owner_document (Document_GetFonts env) b1')
    as [b2' Hb2].
  { intros f Hin. apply Hfonts. apply in_or_app. now right. }
  rewrite (build_steps env w H5). cbv zeta.
  rewrite HL', HR', HB', Hb1, Hb2, HS'. reflexivity.
Qed.

(** The calls a build has recorded, in each of the ways it can end. *)
Lemma build_calls env w :
  m_dwriteFactory5 (this w) = true ->
  exists cs k,
    calls (dwrite (world (CreateFontSetUsingInMemoryFontData env w))) =
      calls (dwrite w) ++ cs /\
    k <= List.length (source_files env) /\
    added_files cs = firstn k (source_files env) /\
    (FAILED (hr_CreateInMemoryFontFileLoader env) = false ->
     registrations cs = [new_loader (dwrite w)]) /\
    (FAILED (hr_CreateInMemoryFontFileLoader env) = true -> registrations cs = []) /\
    unregistrations cs = [] /\
    (result (CreateFontSetUsingInMemoryFontData env w) = Returned tt ->
     exists cs', cs = cs' ++ [call_CreateFontSet] /\
                 added_files cs' = source_files env /\
                 finalizations cs' = 0).
Proof.
  intros H5.
  destruct (adding_prefix env owner_binaryResources (BinaryResources_GetFonts env) [])
    as [k1 [Hk1 Hp1]].
  destruct (adding_only_adds env owner_binaryResources (BinaryResources_GetFonts env) [])
    as [Hr1 [Hu1 Hf1]].
  set (A := map (in_memory_file owner_binaryResources) (BinaryResources_GetFonts env)) in *.
  set (D := map (in_memory_file owner_document) (Document_GetFonts env)).
  assert (HlenA : List.length A = List.length (BinaryResources_GetFonts env))
    by apply length_map.
  assert (HlenD : List.length D = List.length (Document_GetFonts env))
    by apply length_map.
  assert (Hsrc : source_files env = A ++ D) by reflexivity.
  assert (Hlen : List.length (source_files env) = List.length A + List.length D)
    by (rewrite Hsrc; apply length_app).
  build_cases H5; unfold result, world; cbn [fst snd].
  - exists [call_CreateInMemoryFontFileLoader], 0. simpl.
    repeat split; try reflexivity; try lia; try discriminate.
  - exists [call_CreateInMemoryFontFileLoader;
            call_RegisterFontFileLoader (new_loader (dwrite w))], 0. simpl.
    rewrite <- app_assoc. repeat split; try reflexivity; try lia; try discriminate.
  - exists [call_CreateInMemoryFontFileLoader;
            call_RegisterFontFileLoader (new_loader (dwrite w));
            call_CreateFontSetBuilder], 0. simpl.
    rewrite <- !app_assoc. repeat split; try reflexivity; try lia; try discriminate.
  - (* both loops returned, CreateFontSet failed *)
    destruct (adding_only_adds env owner_document (Document_GetFonts env) b1)
      as [Hr2 [Hu2 Hf2]].
    apply adding_Returned in Ha1 as [Hadd1 _].
    apply adding_Returned in Ha2 as [Hadd2 _].
    exists ([call_CreateInMemoryFontFileLoader;
             call_RegisterFontFileLoader (new_loader (dwrite w));
             call_CreateFontSetBuilder]
            ++ fst (adding env owner_binaryResources (BinaryResources_GetFonts env) [])
            ++ fst (adding env owner_document (Document_GetFonts env) b1)
            ++ [call_CreateFontSet]), (List.length (source_files env)).
    cbn [dwrite calls logged set_font_set].
    rewrite !calls_logged_all. cbn [dwrite calls logged with_registered set_loader].
    rewrite firstn_all.
    repeat split; try lia; try discriminate.
    + rewrite <- !app_assoc. reflexivity.
    + cbn [app added_files]. rewrite !added_files_app, Hadd1, Hadd2. simpl.
      now rewrite app_nil_r.
    + intros _. cbn [app registrations]. rewrite !registrations_app, Hr1, Hr2. reflexivity.
    + cbn [app unregistrations]. rewrite !unregistrations_app, Hu1, Hu2. reflexivity.
  - (* the build returned *)
    destruct (adding_only_adds env owner_document (Document_GetFonts env) b1)
      as [Hr2 [Hu2 Hf2]].
    apply adding_Returned in Ha1 as [Hadd1 _].
    apply adding_Returned in Ha2 as [Hadd2 _].
    exists ([call_CreateInMemoryFontFileLoader;
             call_RegisterFontFileLoader (new_loader (dwrite w));
             call_CreateFontSetBuilder]
            ++ fst (adding env owner_binaryResources (BinaryResources_GetFonts env) [])
            ++ fst (adding env owner_document (Document_GetFonts env) b1)
            ++ [call_CreateFontSet]), (List.length (source_files env)).
    cbn [dwrite calls logged set_font_set].
    rewrite !calls_logged_all. cbn [dwrite calls logged with_registered set_loader].
    rewrite firstn_all.
    repeat split; try lia.
    + rewrite <- !app_assoc. reflexivity.
    + cbn [app added_files]. rewrite !added_files_app, Hadd1, Hadd2. simpl.
      now rewrite app_nil_r.
    + intros _. cbn [app registrations]. rewrite !registrations_app, Hr1, Hr2. reflexivity.
    + cbn [app unregistrations]. rewrite !unregistrations_app, Hu1, Hu2. reflexivity.
    + intros _.
      exists ([call_CreateInMemoryFontFileLoader;
               call_RegisterFontFileLoader (new_loader (dwrite w));
               call_CreateFontSetBuilder]
              ++ fst (adding env owner_binaryResources (BinaryResources_GetFonts env) [])
              ++ fst (adding env owner_document (Document_GetFonts env) b1)).
      repeat split.
      * now rewrite <- !app_assoc.
      * cbn [app added_files]. rewrite !added_files_app, Hadd1, Hadd2. reflexivity.
      * cbn [app finalizations]. rewrite !finalizations_app, Hf1, Hf2. reflexivity.
  - (* the document loop threw *)
    destruct (adding_only_adds env owner_document (Document_GetFonts env) b1)
      as [Hr2 [Hu2 Hf2]].
    destruct (adding_prefix env owner_document (Document_GetFonts env) b1)
      as [k2 [Hk2 Hp2]].
    apply adding_Returned in Ha1 as [Hadd1 _].
    exists ([call_CreateInMemoryFontFileLoader;
             call_RegisterFontFileLoader (new_loader (dwrite w));
             call_CreateFontSetBuilder]
            ++ fst (adding env owner_binaryResources (BinaryResources_GetFonts env) [])
            ++ fst (adding env owner_document (Document_GetFonts env) b1)),
           (List.length A + k2).
    rewrite !calls_logged_all. cbn [dwrite calls logged with_registered set_loader].
    repeat split; try lia; try discriminate.
    + rewrite <- !app_assoc. reflexivity.
    + cbn [app added_files]. rewrite !added_files_app, Hadd1, Hp2, Hsrc.
      fold A D. now rewrite firstn_app_2.
    + intros _. cbn [app registrations]. rewrite !registrations_app, Hr1, Hr2. reflexivity.
    + cbn [app unregistrations]. rewrite !unregistrations_app, Hu1, Hu2. reflexivity.
  - (* the resource loop threw *)
    exists ([call_CreateInMemoryFontFileLoader;
             call_RegisterFontFileLoader (new_loader (dwrite w));
             call_CreateFontSetBuilder]
            ++ fst (adding env owner_binaryResources (BinaryResources_GetFonts env) [])),
           k1.
    rewrite !calls_logged_all. cbn [dwrite calls logged with_registered set_loader].
    repeat split; try lia; try discriminate.
    + rewrite <- !app_assoc. reflexivity.
    + cbn [app added_files]. rewrite Hp1, Hsrc.
      rewrite firstn_app. replace (k1 - List.length A) with 0 by lia.
      now rewrite firstn_O, app_nil_r.
    + intros _. cbn [app registrations]. rewrite Hr1. reflexivity.
    + cbn [app unregistrations]. rewrite Hu1. reflexivity.
Qed.

(** The manager's members and the registered loaders after a build. *)
Lemma build_members env w :
  m_dwriteFactory5 (this w) = true ->
  m_dwriteFactory3 (this (world (CreateFontSetUsingInMemoryFontData env w))) =
    m_dwriteFactory3 (this w) /\
  m_dwriteFactory5 (this (world (CreateFontSetUsingInMemoryFontData env w))) = true /\
  m_inMemoryFontFileLoader (this (world (CreateFontSetUsingInMemoryFontData env w))) =
    (if FAILED (hr_CreateInMemoryFontFileLoader env) then None
     else Some (new_loader (dwrite w))) /\
  registeredLoaders (dwrite (world (CreateFontSetUsingInMemoryFontData env w))) =
    (if FAILED (hr_CreateInMemoryFontFileLoader env) || FAILED (hr_RegisterFontFileLoader env)
     then registeredLoaders (dwrite w)
     else new_loader (dwrite w) :: registeredLoaders (dwrite w)) /\
  (m_customFontSet (this w) = None ->
   result (CreateFontSetUsingInMemoryFontData env w) <> Returned tt ->
   m_customFontSet (this (world (CreateFontSetUsingInMemoryFontData env w))) = None).
Proof.
  intros H5.
  build_cases H5; unfold result, world; cbn [fst snd];
    cbn [this dwrite logged set_loader set_font_set with_registered
         m_dwriteFactory3 m_dwriteFactory5 m_inMemoryFontFileLoader
         m_customFontSet registeredLoaders];
    rewrite ?this_logged_all, ?registered_logged_all;
    cbn [this dwrite logged set_loader set_font_set with_registered
         m_dwriteFactory3 m_dwriteFactory5 m_inMemoryFontFileLoader
         m_customFontSet registeredLoaders orb];
    repeat split; try assumption; try reflexivity; try congruence.
Qed.

(** What a build throws is a failure code, and it does not touch a null
    pointer when [IDWriteFactory5] is there. *)
Lemma build_outcome env w :
  m_dwriteFactory5 (this w) = true ->
  match result (CreateFontSetUsingInMemoryFontData env w) with
  | Returned _ => True
  | Thrown hr => FAILED hr = true
  | NullDereference => False
  end.
Proof.
  intros H5. build_cases H5; unfold result; cbn [fst]; auto.
Qed.

(** C3: when some source buffer is not font data the platform can parse, the
    build on a manager that has no font set yet (and whose [IDWriteFactory5] is
    there, as the caller has to check) throws a failure code to its caller and
    leaves no font set behind: the manager is still unbuilt and [GetFontCount]
    answers 0. *)
Theorem build_malformed_font_data env w f :
  IDWriteFactory5_IsAvailable (this w) = true ->
  m_customFontSet (this w) = None ->
  In f (BinaryResources_GetFonts env ++ Document_GetFonts env) ->
  parse_font_data env f = None ->
  exists hr,
    result (CreateFontSetUsingInMemoryFontData env w) = Thrown hr /\
    FAILED hr = true /\
    m_customFontSet (this (world (CreateFontSetUsingInMemoryFontData env w))) = None /\
    GetFontCount (this (world (CreateFontSetUsingInMemoryFontData env w))) = 0%Z.
Proof.
  unfold IDWriteFactory5_IsAvailable. intros H5 Hnone Hin Hp.
  pose proof (build_outcome env w H5) as Hout.
  destruct (build_members env w H5) as (_ & _ & _ & _ & Hset).
  assert (Hnot : result (CreateFontSetUsingInMemoryFontData env w) <> Returned tt).
  { intros Hret. apply build_Returned_font_set in Hret as Hfs.
    revert Hret. rewrite (build_steps env w H5). cbv zeta.
    destruct (FAILED (hr_CreateInMemoryFontFileLoader env)); [discriminate|].
    destruct (FAILED (hr_RegisterFontFileLoader env)); [discriminate|].
    destruct (FAILED (hr_CreateFontSetBuilder env)); [discriminate|].
    destruct (snd (adding env owner_binaryResources (BinaryResources_GetFonts env) []))
      as [b1|hr1|] eqn:Ha1; try discriminate.
    destruct (snd (adding env owner_document (Document_GetFonts env) b1))
      as [b2|hr2|] eqn:Ha2; try discriminate.
    intros _.
    apply in_app_or in Hin as [Hin|Hin].
    - destruct (adding_malformed env owner_binaryResources _ [] f Hin Hp) as [hr E].
      congruence.
    - destruct (adding_malformed env owner_document _ b1 f Hin Hp) as [hr E].
      congruence. }
  specialize (Hset Hnone Hnot).
  destruct (result (CreateFontSetUsingInMemoryFontData env w)) as [[]|hr|] eqn:E.
  - contradiction.
  - exists hr. repeat split; try assumption.
    unfold GetFontCount. now rewrite Hset.
  - contradiction.
Qed.

(** The hypotheses hold in a run: the document hands out one buffer that is
    not font data between two that are. *)
Lemma build_malformed_font_data_witness :
  exists hr,
    result (CreateFontSetUsingInMemoryFontData Scenario.env_malformed Scenario.constructed)
      = Thrown hr /\
    FAILED hr = true /\
    m_customFontSet
      (this (world (CreateFontSetUsingInMemoryFontData Scenario.env_malformed
                      Scenario.constructed))) = None /\
    GetFontCount
      (this (world (CreateFontSetUsingInMemoryFontData Scenario.env_malformed
                      Scenario.constructed))) = 0%Z.
Proof.
  apply (build_malformed_font_data Scenario.env_malformed Scenario.constructed
           Scenario.garbage).
  - reflexivity.
  - reflexivity.
  - simpl. right. left. reflexivity.
  - reflexivity.
Defined.

(** C5: on a manager that has no font set [GetFontCount] answers 0; it still
    answers 0 after a build whose two providers hand out no font (the set made
    by such a build, when it returns, is the empty one); and in every state
    of a manager the count is not negative. *)
Theorem GetFontCount_unbuilt_or_empty env w m :
  m_customFontSet (this w) = None ->
  BinaryResources_GetFonts env = [] ->
  Document_GetFonts env = [] ->
  GetFontCount (this w) = 0%Z /\
  GetFontCount (this (world (CreateFontSetUsingInMemoryFontData env w))) = 0%Z /\
  (result (CreateFontSetUsingInMemoryFontData env w) = Returned tt ->
   m_customFontSet (this (world (CreateFontSetUsingInMemoryFontData env w))) = Some []) /\
  (0 <= GetFontCount m)%Z.
Proof.
  intros Hnone Happ Hdoc.
  assert (Hsrc : entries_of env (source_files env) = []).
  { unfold source_files. rewrite Happ, Hdoc. reflexivity. }
  repeat split.
  - unfold GetFontCount. now rewrite Hnone.
  - destruct (result (CreateFontSetUsingInMemoryFontData env w)) as [[]|hr|] eqn:E.
    + apply build_Returned_font_set in E. unfold GetFontCount. rewrite E, Hsrc. reflexivity.
    + destruct (m_dwriteFactory5 (this w)) eqn:H5.
      * destruct (build_members env w H5) as (_ & _ & _ & _ & Hset).
        unfold GetFontCount. rewrite Hset; [reflexivity | assumption | congruence].
      * rewrite (build_without_factory5 env w H5) in E. discriminate.
    + destruct (m_dwriteFactory5 (this w)) eqn:H5.
      * pose proof (build_outcome env w H5) as Hout. rewrite E in Hout. contradiction.
      * rewrite (build_without_factory5 env w H5). unfold GetFontCount. simpl.
        now rewrite Hnone.
  - intros E. apply build_Returned_font_set in E. now rewrite E, Hsrc.
  - unfold GetFontCount, IDWriteFontSet_GetFontCount.
    destruct (m_customFontSet m); lia.
Qed.

(** The hypotheses hold for the manager the constructor leaves and providers
    without fonts; the third manager is the one built from the two fonts. *)
Lemma GetFontCount_unbuilt_or_empty_witness :
  GetFontCount (this Scenario.constructed) = 0%Z /\
  GetFontCount
    (this (world (CreateFontSetUsingInMemoryFontData Scenario.env_empty
                    Scenario.constructed))) = 0%Z /\
  m_customFontSet
    (this (world (CreateFontSetUsingInMemoryFontData Scenario.env_empty
                    Scenario.constructed))) = Some [] /\
  (0 <= GetFontCount (this Scenario.built))%Z.
Proof.
  destruct (GetFontCount_unbuilt_or_empty Scenario.env_empty Scenario.constructed
              (this Scenario.built) eq_refl eq_refl eq_refl)
    as (Hunbuilt & Hafter & Hempty & Hcount).
  split; [exact Hunbuilt|].
  split; [exact Hafter|].
  split; [apply Hempty; reflexivity | exact Hcount].
Defined.

(** C8: in every run of the build the files handed to [AddFontFile] are an
    initial stretch of the source files in source order (the app's resources
    in the order of their vector, then the document's fonts in theirs); when
    the build returns all of them were added, [CreateFontSet] was called once,
    after the last of them, and the manager's font set holds the fonts of the
    source files in that order. *)
Theorem build_adds_sources_in_order env w :
  (exists k,
     added_files (calls (dwrite (world (CreateFontSetUsingInMemoryFontData env w)))) =
     added_files (calls (dwrite w)) ++ firstn k (source_files env)) /\
  (result (CreateFontSetUsingInMemoryFontData env w) = Returned tt ->
   exists cs,
     calls (dwrite (world (CreateFontSetUsingInMemoryFontData env w))) =
       calls (dwrite w) ++ cs ++ [call_CreateFontSet] /\
     added_files cs = source_files env /\
     finalizations cs = 0 /\
     m_customFontSet (this (world (CreateFontSetUsingInMemoryFontData env w))) =
       Some (entries_of env (source_files env))).
Proof.
  destruct (m_dwriteFactory5 (this w)) eqn:H5.
  - destruct (build_calls env w H5) as (cs & k & Hcalls & _ & Hadded & _ & _ & _ & Hret).
    split.
    + exists k. now rewrite Hcalls, added_files_app, Hadded.
    + intros E. destruct (Hret E) as (cs' & -> & Hadd' & Hfin').
      exists cs'. repeat split; try assumption.
      now apply build_Returned_font_set.
  - rewrite (build_without_factory5 env w H5). split.
    + exists 0. simpl. now rewrite app_nil_r.
    + discriminate.
Qed.

(** The sample's scenario: the build returns, having added the resource font
    and then the document font. *)
Example build_adds_sources_in_order_scenario :
  result (CreateFontSetUsingInMemoryFontData Scenario.env Scenario.constructed)
    = Returned tt /\
  added_files (calls (dwrite Scenario.built)) =
    [in_memory_file owner_binaryResources Scenario.resource_font;
     in_memory_file owner_document Scenario.document_font] /\
  GetFontCount (this Scenario.built) = 2%Z.
Proof. repeat split. Qed.

(** ** The loader *)

Lemma build_times_S n env w :
  build_times (S n) env w =
  world (CreateFontSetUsingInMemoryFontData env (build_times n env w)).
Proof.
  revert w. induction n as [|n IH]; intros w; [reflexivity|].
  change (build_times (S (S n)) env w)
    with (build_times (S n) env (world (CreateFontSetUsingInMemoryFontData env w))).
  rewrite IH. reflexivity.
Qed.

Lemma build_times_factory5 n env w :
  m_dwriteFactory5 (this w) = true ->
  m_dwriteFactory5 (this (build_times n env w)) = true.
Proof.
  intros H5. induction n as [|n IH]; [exact H5|].
  rewrite build_times_S. now apply build_members.
Qed.

(** C2, as the code has it: the build does not look at the loader the
    manager already holds.  Every invocation on a manager whose
    [IDWriteFactory5] is there asks for a new in-memory loader and, when it
    gets one, calls [RegisterFontFileLoader] for it exactly once, a loader
    the factory did not have registered; when that call succeeds the factory
    has one more loader registered.  So [n] invocations in a row whose
    creation and registration calls succeed leave [n] more loaders
    registered, one for each invocation. *)
Theorem build_registers_a_new_loader env w n :
  IDWriteFactory5_IsAvailable (this w) = true ->
  FAILED (hr_CreateInMemoryFontFileLoader env) = false ->
  FAILED (hr_RegisterFontFileLoader env) = false ->
  registrations (calls (dwrite (world (CreateFontSetUsingInMemoryFontData env w)))) =
    registrations (calls (dwrite w)) ++ [new_loader (dwrite w)] /\
  ~ In (new_loader (dwrite w)) (registeredLoaders (dwrite w)) /\
  registeredLoaders (dwrite (world (CreateFontSetUsingInMemoryFontData env w))) =
    new_loader (dwrite w) :: registeredLoaders (dwrite w) /\
  List.length (registrations (calls (dwrite (build_times n env w)))) =
    List.length (registrations (calls (dwrite w))) + n /\
  List.length (registeredLoaders (dwrite (build_times n env w))) =
    List.length (registeredLoaders (dwrite w)) + n.
Proof.
  unfold IDWriteFactory5_IsAvailable. intros H5 HL HR.
  assert (Hone : forall w', m_dwriteFactory5 (this w') = true ->
    registrations (calls (dwrite (world (CreateFontSetUsingInMemoryFontData env w')))) =
      registrations (calls (dwrite w')) ++ [new_loader (dwrite w')] /\
    registeredLoaders (dwrite (world (CreateFontSetUsingInMemoryFontData env w'))) =
      new_loader (dwrite w') :: registeredLoaders (dwrite w')).
  { intros w' H5'. split.
    - destruct (build_calls env w' H5') as (cs & k & Hcalls & _ & _ & Hreg & _).
      now rewrite Hcalls, registrations_app, (Hreg HL).
    - destruct (build_members env w' H5') as (_ & _ & _ & Hregd & _).
      now rewrite Hregd, HL, HR. }
  destruct (Hone w H5) as [Hcalls Hregd].
  repeat split; try assumption.
  - apply new_loader_fresh.
  - induction n as [|n IH]; [simpl; lia|].
    rewrite build_times_S.
    destruct (Hone (build_times n env w) (build_times_factory5 n env w H5)) as [E _].
    rewrite E, length_app, IH. simpl. lia.
  - induction n as [|n IH]; [simpl; lia|].
    rewrite build_times_S.
    destruct (Hone (build_times n env w) (build_times_factory5 n env w H5)) as [_ E].
    rewrite E. simpl. rewrite IH. lia.
Qed.

(** The hypotheses hold for the manager that was already built once: its
    second build registers loader 2 beside loader 1. *)
Lemma build_registers_a_new_loader_witness :
  registrations
    (calls (dwrite (world (CreateFontSetUsingInMemoryFontData Scenario.env Scenario.built)))) =
    registrations (calls (dwrite Scenario.built)) ++ [new_loader (dwrite Scenario.built)] /\
  ~ In (new_loader (dwrite Scenario.built)) (registeredLoaders (dwrite Scenario.built)) /\
  registeredLoaders
    (dwrite (world (CreateFontSetUsingInMemoryFontData Scenario.env Scenario.built))) =
    new_loader (dwrite Scenario.built) :: registeredLoaders (dwrite Scenario.built) /\
  List.length (registrations (calls (dwrite (build_times 3 Scenario.env Scenario.built)))) =
    List.length (registrations (calls (dwrite Scenario.built))) + 3 /\
  List.length (registeredLoaders (dwrite (build_times 3 Scenario.env Scenario.built))) =
    List.length (registeredLoaders (dwrite Scenario.built)) + 3.
Proof.
  apply (build_registers_a_new_loader Scenario.env Scenario.built 3); reflexivity.
Defined.

(** C2 as stated fails: on one manager a second build returns like the first,
    and it has registered a second loader; both stay registered. *)
Lemma second_build_registers_again :
  result (CreateFontSetUsingInMemoryFontData Scenario.env Scenario.constructed)
    = Returned tt /\
  result (CreateFontSetUsingInMemoryFontData Scenario.env Scenario.built) = Returned tt /\
  registrations (calls (dwrite Scenario.built)) = [1] /\
  registrations (calls (dwrite Scenario.built_twice)) = [1; 2] /\
  registeredLoaders (dwrite Scenario.built_twice) = [2; 1] /\
  ~ (List.length (registrations (calls (dwrite Scenario.built_twice))) <= 1).
Proof.
  repeat split. intros H. vm_compute in H. lia.
Qed.

(** The manager a returning constructor leaves: the factory is held, no
    loader and no font set yet, and the factory itself is as it was. *)
Lemma ctor_Returned hr_create hr_as w0 :
  result (CustomFontSetManager_ctor hr_create hr_as w0) = Returned tt ->
  world (CustomFontSetManager_ctor hr_create hr_as w0) =
  {| this := {| m_dwriteFactory3 := true;
                m_dwriteFactory5 := negb (Z.eqb hr_as E_NOINTERFACE);
                m_inMemoryFontFileLoader := None;
                m_customFontSet := None |};
     dwrite := dwrite w0 |}.
Proof.
  unfold CustomFontSetManager_ctor, bind, put_this, ThrowIfFailed, throw, ret, result, world.
  cbn [fst snd this dwrite].
  destruct (FAILED hr_create); cbn [fst snd]; [discriminate|].
  destruct (Z.eqb hr_as E_NOINTERFACE); cbn [fst snd negb]; [reflexivity|].
  destruct (FAILED hr_as); cbn [fst snd]; [discriminate | reflexivity].
Qed.

(** The destructor of a manager that holds no loader does nothing. *)
Lemma dtor_without_loader w :
  m_inMemoryFontFileLoader (this w) = None ->
  CustomFontSetManager_dtor w = (Returned tt, w).
Proof.
  intros H. unfold CustomFontSetManager_dtor, bind, get_this. rewrite H. reflexivity.
Qed.

(** The destructor of a manager that holds a loader asks the factory to
    unregister it, and returns whatever the factory answers. *)
Lemma dtor_with_loader w l :
  m_dwriteFactory3 (this w) = true ->
  m_inMemoryFontFileLoader (this w) = Some l ->
  CustomFontSetManager_dtor w =
  (Returned tt,
   {| this := this w;
      dwrite := {| registeredLoaders :=
                     if existsb (Nat.eqb l) (registeredLoaders (dwrite w))
                     then remove Nat.eq_dec l (registeredLoaders (dwrite w))
                     else registeredLoaders (dwrite w);
                   calls := calls (dwrite w) ++ [call_UnregisterFontFileLoader l] |} |}).
Proof.
  intros H3 Hl.
  unfold CustomFontSetManager_dtor, bind, get_this. rewrite Hl.
  unfold UnregisterFontFileLoader, bind, get_this. rewrite H3.
  unfold deref_flag, ret, IDWriteFactory_UnregisterFontFileLoader, bind.
  rewrite record_call_logged. unfold get_dwrite.
  cbn [dwrite logged registeredLoaders].
  destruct (existsb (Nat.eqb l) (registeredLoaders (dwrite w))); reflexivity.
Qed.

Lemma remove_new (l : Loader) (ls : list Loader) :
  ~ In l ls -> @remove Loader Nat.eq_dec l (l :: ls) = ls.
Proof.
  intros H. simpl. destruct (Nat.eq_dec l l) as [_|Hne]; [|congruence].
  now apply notin_remove.
Qed.

(** Builds keep the factory pointers of the manager and never unregister. *)
Lemma build_each_keeps envs : forall w,
  m_dwriteFactory5 (this w) = true ->
  m_dwriteFactory3 (this (build_each envs w)) = m_dwriteFactory3 (this w) /\
  unregistrations (calls (dwrite (build_each envs w))) =
    unregistrations (calls (dwrite w)).
Proof.
  induction envs as [|env rest IH]; intros w H5; [split; reflexivity|].
  cbn [build_each].
  destruct (build_members env w H5) as (H3 & H5' & _).
  destruct (build_calls env w H5) as (cs & k & Hcalls & _ & _ & _ & _ & Hunreg & _).
  destruct (IH _ H5') as [IH3 IHu]. split.
  - now rewrite IH3.
  - now rewrite IHu, Hcalls, unregistrations_app, Hunreg, app_nil_r.
Qed.

(** C9, as the code has it: the destructor unregisters the loader the
    manager holds, the one made by its latest build, and no other.  On every
    manager that was constructed and then built any number of times, each
    build returning or throwing, the destructor returns without a fault; it
    asks the factory to unregister exactly when the manager holds a loader,
    also when the registration of that loader had failed (the factory's answer
    is ignored), and makes no call at all when the manager holds none; the
    builds themselves never unregister; afterwards the loaders registered are
    those registered before the destructor apart from the one held.  When
    the manager was built at most once, that leaves registered exactly the
    loaders that were registered before the manager was made. *)
Theorem destructor_releases_held_loader d0 hr_create hr_as envs :
  result (CustomFontSetManager_ctor hr_create hr_as
            {| this := null_members; dwrite := d0 |}) = Returned tt ->
  (envs <> [] ->
   IDWriteFactory5_IsAvailable
     (this (world (CustomFontSetManager_ctor hr_create hr_as
                     {| this := null_members; dwrite := d0 |}))) = true) ->
  result (CustomFontSetManager_dtor (manager_after d0 hr_create hr_as envs)) = Returned tt /\
  (forall l,
     In l (registeredLoaders
             (dwrite (world (CustomFontSetManager_dtor
                               (manager_after d0 hr_create hr_as envs))))) <->
     In l (registeredLoaders (dwrite (manager_after d0 hr_create hr_as envs))) /\
     m_inMemoryFontFileLoader (this (manager_after d0 hr_create hr_as envs)) <> Some l) /\
  unregistrations
    (calls (dwrite (world (CustomFontSetManager_dtor
                             (manager_after d0 hr_create hr_as envs))))) =
    unregistrations (calls d0) ++
    match m_inMemoryFontFileLoader (this (manager_after d0 hr_create hr_as envs)) with
    | Some l => [l]
    | None => []
    end /\
  (m_inMemoryFontFileLoader (this (manager_after d0 hr_create hr_as envs)) = None ->
   world (CustomFontSetManager_dtor (manager_after d0 hr_create hr_as envs)) =
   manager_after d0 hr_create hr_as envs) /\
  (List.length envs <= 1 ->
   registeredLoaders
     (dwrite (world (CustomFontSetManager_dtor (manager_after d0 hr_create hr_as envs)))) =
   registeredLoaders d0).
Proof.
  intros Hctor Havail. unfold manager_after. revert Havail.
  rewrite (ctor_Returned _ _ _ Hctor). cbn [dwrite].
  set (w1 := {| this := _; dwrite := d0 |}).
  unfold IDWriteFactory5_IsAvailable. intros Havail.
  (* what the builds keep *)
  assert (Hkeep : m_dwriteFactory3 (this (build_each envs w1)) = true /\
                  unregistrations (calls (dwrite (build_each envs w1))) =
                  unregistrations (calls d0)).
  { destruct envs as [|env rest]; [split; reflexivity|].
    apply (build_each_keeps (env :: rest) w1). apply Havail. discriminate. }
  destruct Hkeep as [H3 Hunreg].
  (* at most one build: what is registered and held *)
  assert (Hone : List.length envs <= 1 ->
            (m_inMemoryFontFileLoader (this (build_each envs w1)) = None /\
             registeredLoaders (dwrite (build_each envs w1)) = registeredLoaders d0) \/
            (exists l, m_inMemoryFontFileLoader (this (build_each envs w1)) = Some l /\
                       ~ In l (registeredLoaders d0) /\
                       (registeredLoaders (dwrite (build_each envs w1)) = registeredLoaders d0 \/
                        registeredLoaders (dwrite (build_each envs w1)) =
                        l :: registeredLoaders d0))).
  { intros Hlen. destruct envs as [|env [|env' rest]]; [| |simpl in Hlen; lia].
    - left. split; reflexivity.
    - cbn [build_each].
      assert (H5 : m_dwriteFactory5 (this w1) = true) by (apply Havail; discriminate).
      destruct (build_members env w1 H5) as (_ & _ & Hl & Hreg & _).
      change (dwrite w1) with d0 in Hl, Hreg.
      destruct (FAILED (hr_CreateInMemoryFontFileLoader env)).
      + left. split; [exact Hl | exact Hreg].
      + right. exists (new_loader d0). split; [exact Hl|].
        split; [apply new_loader_fresh|].
        cbn [orb] in Hreg.
        destruct (FAILED (hr_RegisterFontFileLoader env)); [left | right]; exact Hreg. }
  set (w := build_each envs w1) in *.
  destruct (m_inMemoryFontFileLoader (this w)) as [held|] eqn:Hl.
  - rewrite (dtor_with_loader w held H3 Hl). unfold result, world.
    cbn [fst snd dwrite registeredLoaders calls].
    split; [reflexivity|]. split; [|split; [|split; [discriminate|]]].
    + intros l.
      destruct (existsb (Nat.eqb held) (registeredLoaders (dwrite w))) eqn:E.
      * split.
        -- intros H. apply in_remove in H as [Hin Hne]. split; [exact Hin | congruence].
        -- intros [Hin Hne]. apply in_in_remove; [congruence | exact Hin].
      * split.
        -- intros Hin. split; [exact Hin|]. intros Heq. inversion Heq; subst l.
           rewrite existsb_eqb_true in E by exact Hin. discriminate.
        -- intros [Hin _]. exact Hin.
    + now rewrite unregistrations_app, Hunreg.
    + intros Hlen. destruct (Hone Hlen) as [[Hnone _] | (l & Hsome & Hfresh & Hreg)];
        [discriminate|].
      inversion Hsome; subst l.
      destruct Hreg as [Hreg|Hreg]; rewrite Hreg.
      * now rewrite (existsb_eqb_false _ _ Hfresh).
      * rewrite existsb_eqb_true by (left; reflexivity).
        now apply remove_new.
  - rewrite (dtor_without_loader w Hl). unfold result, world. cbn [fst snd].
    split; [reflexivity|]. split; [|split; [|split; [reflexivity|]]].
    + intros l. split; [intros H; split; [exact H | discriminate] | intros [H _]; exact H].
    + now rewrite Hunreg, app_nil_r.
    + intros Hlen. destruct (Hone Hlen) as [[_ Hreg] | (l & Hsome & _)];
        [exact Hreg | discriminate].
Qed.

(** The hypotheses hold for the sample's run: the manager is constructed,
    built once from the two fonts, and destroyed. *)
Lemma destructor_releases_held_loader_witness :
  result (CustomFontSetManager_dtor (manager_after Scenario.no_calls S_OK S_OK [Scenario.env]))
    = Returned tt /\
  (forall l,
     In l (registeredLoaders
             (dwrite (world (CustomFontSetManager_dtor
                               (manager_after Scenario.no_calls S_OK S_OK [Scenario.env])))))
     <->
     In l (registeredLoaders
             (dwrite (manager_after Scenario.no_calls S_OK S_OK [Scenario.env]))) /\
     m_inMemoryFontFileLoader
       (this (manager_after Scenario.no_calls S_OK S_OK [Scenario.env])) <> Some l) /\
  unregistrations
    (calls (dwrite (world (CustomFontSetManager_dtor
                             (manager_after Scenario.no_calls S_OK S_OK [Scenario.env]))))) =
    unregistrations (calls Scenario.no_calls) ++ [1] /\
  registeredLoaders
    (dwrite (world (CustomFontSetManager_dtor
                      (manager_after Scenario.no_calls S_OK S_OK [Scenario.env])))) =
    registeredLoaders Scenario.no_calls.
Proof.
  destruct (destructor_releases_held_loader Scenario.no_calls S_OK S_OK [Scenario.env]
              eq_refl (fun _ => eq_refl))
    as (Hreturns & Hregistered & Hcalls & _ & Honce).
  split; [exact Hreturns|]. split; [exact Hregistered|]. split; [exact Hcalls|].
  apply Honce. simpl. lia.
Defined.

(** C9 as stated fails, in both of its parts.  A manager built twice has
    registered loaders 1 and 2; its destructor unregisters loader 2 only, and
    loader 1, which the manager registered, stays registered.  And a manager
    whose build created loader 1 but failed to register it has registered
    nothing, yet its destructor asks the factory to unregister loader 1. *)
Lemma destructor_misses_registered_loader :
  (registrations (calls (dwrite (manager_after Scenario.no_calls S_OK S_OK
                                   [Scenario.env; Scenario.env]))) = [1; 2] /\
   registeredLoaders Scenario.no_calls = [] /\
   registeredLoaders (dwrite (manager_after Scenario.no_calls S_OK S_OK
                                [Scenario.env; Scenario.env])) = [2; 1] /\
   result (CustomFontSetManager_dtor
             (manager_after Scenario.no_calls S_OK S_OK [Scenario.env; Scenario.env]))
     = Returned tt /\
   unregistrations
     (calls (dwrite (world (CustomFontSetManager_dtor
                              (manager_after Scenario.no_calls S_OK S_OK
                                 [Scenario.env; Scenario.env]))))) = [2] /\
   registeredLoaders
     (dwrite (world (CustomFontSetManager_dtor
                       (manager_after Scenario.no_calls S_OK S_OK
                          [Scenario.env; Scenario.env])))) = [1]) /\
  (result (CreateFontSetUsingInMemoryFontData Runs.env_registration_fails
             Scenario.constructed) = Thrown E_INVALIDARG /\
   registeredLoaders (dwrite (manager_after Scenario.no_calls S_OK S_OK
                                [Runs.env_registration_fails])) = [] /\
   unregistrations
     (calls (dwrite (world (CustomFontSetManager_dtor
                              (manager_after Scenario.no_calls S_OK S_OK
                                 [Runs.env_registration_fails]))))) = [1]).
Proof. repeat split. Qed.

(** ** The queries *)

(** C4: on a built font set [CustomFontSetHasRemoteFonts] returns, and it
    returns true exactly when some entry's locality is not
    [DWRITE_LOCALITY_LOCAL]; on the set a returning build has made from
    in-memory data, whose entries are all local, it returns false. *)
Theorem CustomFontSetHasRemoteFonts_iff w fs env w0 :
  m_customFontSet (this w) = Some fs ->
  result (CreateFontSetUsingInMemoryFontData env w0) = Returned tt ->
  (exists b,
     result (CustomFontSetHasRemoteFonts w) = Returned b /\
     (b = true <-> exists r, In r fs /\ ref_locality r <> DWRITE_LOCALITY_LOCAL)) /\
  result (CustomFontSetHasRemoteFonts
            (world (CreateFontSetUsingInMemoryFontData env w0))) = Returned false.
Proof.
  intros Hfs Hbuilt. split.
  - exists (existsb is_remote fs). split.
    + now rewrite (CustomFontSetHasRemoteFonts_built w fs Hfs).
    + rewrite existsb_exists. split; intros [r [Hin Hr]]; exists r; split;
        try assumption; now apply is_remote_spec.
  - apply build_Returned_font_set in Hbuilt.
    rewrite (CustomFontSetHasRemoteFonts_built _ _ Hbuilt).
    unfold result. cbn [fst]. now rewrite in_memory_entries_local.
Qed.

(** The hypotheses hold for a set with a remote font after a local one, and
    for the build of the sample's scenario. *)
Lemma CustomFontSetHasRemoteFonts_iff_witness :
  (exists b,
     result (CustomFontSetHasRemoteFonts
               (Scenario.set_of [in_memory_reference Scenario.face_A;
                                 Scenario.remote_reference])) = Returned b /\
     (b = true <->
      exists r, In r [in_memory_reference Scenario.face_A; Scenario.remote_reference] /\
                ref_locality r <> DWRITE_LOCALITY_LOCAL)) /\
  result (CustomFontSetHasRemoteFonts
            (world (CreateFontSetUsingInMemoryFontData Scenario.env Scenario.constructed)))
    = Returned false.
Proof.
  apply (CustomFontSetHasRemoteFonts_iff
           (Scenario.set_of [in_memory_reference Scenario.face_A; Scenario.remote_reference])
           [in_memory_reference Scenario.face_A; Scenario.remote_reference]
           Scenario.env Scenario.constructed); reflexivity.
Defined.

(** C10: on a manager that has no font set, the three queries that go
    through [m_customFontSet] dereference the null pointer, while
    [GetFontCount], which tests the pointer first, answers 0. *)
Theorem queries_on_unbuilt_manager w cancellationHandle :
  m_customFontSet (this w) = None ->
  result (GetFullFontNames w) = NullDereference /\
  result (GetFontDataDetails cancellationHandle w) = NullDereference /\
  result (CustomFontSetHasRemoteFonts w) = NullDereference /\
  GetFontCount (this w) = 0%Z.
Proof.
  intros Hnone. repeat split.
  - unfold GetFullFontNames, GetPropertyValuesFromFontSet, bind, get_this.
    rewrite Hnone. reflexivity.
  - unfold GetFontDataDetails, bind, get_this. rewrite Hnone. reflexivity.
  - unfold CustomFontSetHasRemoteFonts, bind, get_this. rewrite Hnone. reflexivity.
  - unfold GetFontCount. now rewrite Hnone.
Qed.

(** The hypothesis holds for the manager the constructor leaves. *)
Lemma queries_on_unbuilt_manager_witness :
  result (GetFullFontNames Scenario.constructed) = NullDereference /\
  result (GetFontDataDetails null_handle Scenario.constructed) = NullDereference /\
  result (CustomFontSetHasRemoteFonts Scenario.constructed) = NullDereference /\
  GetFontCount (this Scenario.constructed) = 0%Z.
Proof.
  apply (queries_on_unbuilt_manager Scenario.constructed null_handle). reflexivity.
Defined.

(** *** Full names *)

Lemma GetStringLength_at (l1 l2 : LocalizedStrings) loc s :
  GetStringLength (l1 ++ (loc, s) :: l2) (List.length l1) = (S_OK, String.length s).
Proof.
  unfold GetStringLength. rewrite nth_error_app2 by lia.
  now rewrite Nat.sub_diag.
Qed.

Lemma GetString_at (l1 l2 : LocalizedStrings) loc s :
  GetString (l1 ++ (loc, s) :: l2) (List.length l1) (String.length s + 1) = (S_OK, s).
Proof.
  unfold GetString. rewrite nth_error_app2 by lia.
  rewrite Nat.sub_diag. simpl.
  replace (Nat.ltb (String.length s) (String.length s + 1)) with true; [reflexivity|].
  symmetry. apply Nat.ltb_lt. lia.
Qed.

(** The loop of [GetFullFontNames] copies the values of the string list, in
    the list's order. *)
Lemma push_full_names (values : LocalizedStrings) w :
  forall rest done fullNames,
  values = done ++ rest ->
  for_loop (List.length rest) (List.length done) (push_full_name values) fullNames w =
  (Returned (fullNames ++ map snd rest), w).
Proof.
  induction rest as [|[loc s] rest IH]; intros done fullNames Hv.
  - simpl. now rewrite app_nil_r.
  - cbn [List.length for_loop].
    assert (Hbody : push_full_name values (List.length done) fullNames w =
                    (Returned (fullNames ++ [s]), w)).
    { unfold push_full_name. rewrite Hv, GetStringLength_at. cbn [fst snd].
      rewrite GetString_at. cbn [fst snd].
      unfold bind. rewrite !ThrowIfFailed_ok by reflexivity. reflexivity. }
    rewrite (bind_Returned _ _ _ _ _ Hbody).
    replace (S (List.length done)) with (List.length (done ++ [(loc, s)]))
      by (rewrite length_app; simpl; lia).
    rewrite (IH (done ++ [(loc, s)]) (fullNames ++ [s])).
    + simpl. now rewrite <- app_assoc.
    + now rewrite <- app_assoc.
Qed.

Lemma unique_values_spec l : forall seen,
  NoDup (map snd (unique_values seen l)) /\
  forall v, In v (map snd (unique_values seen l)) <-> In v (map snd l) /\ ~ In v seen.
Proof.
  induction l as [|[loc v0] rest IH]; intros seen.
  - simpl. split; [constructor | intros v; tauto].
  - cbn [unique_values].
    destruct (existsb (String.eqb v0) seen) eqn:E.
    + destruct (IH seen) as [Hnd Hin]. split; [exact Hnd|].
      intros v. rewrite Hin. simpl.
      apply existsb_exists in E as [x [Hx Heq]]. apply String.eqb_eq in Heq. subst x.
      split; [tauto|]. intros [[<-|H] Hn]; [contradiction | tauto].
    + destruct (IH (v0 :: seen)) as [Hnd Hin]. split.
      * simpl. constructor; [|exact Hnd]. rewrite Hin. simpl. tauto.
      * intros v. simpl. rewrite Hin. simpl.
        assert (Hv0 : ~ In v0 seen).
        { intros H. assert (existsb (String.eqb v0) seen = true); [|congruence].
          apply existsb_exists. exists v0. split; [exact H | apply String.eqb_refl]. }
        destruct (String.string_dec v0 v) as [->|Hne]; [tauto|]. tauto.
Qed.

Lemma language_matches_spec preferred props p :
  In p (language_matches preferred props) <->
  exists names, In names props /\ best_language_match preferred names = Some p.
Proof.
  induction props as [|names rest IH]; simpl.
  - split; [contradiction | intros [n [[] _]]].
  - destruct (best_language_match preferred names) as [q|] eqn:E; simpl; rewrite IH;
      split.
    + intros [<-|[n [Hin Hn]]]; [exists names; auto | exists n; auto].
    + intros [n [[<-|Hin] Hn]]; [left; congruence | right; exists n; auto].
    + intros [n [Hin Hn]]. exists n; auto.
    + intros [n [[<-|Hin] Hn]]; [congruence | exists n; auto].
Qed.

(** C7: on a built font set [GetFullFontNames] returns a list of full names
    without duplicates, also when entries share a full name.  The names are
    those of the entries' FULL_NAME property, one for each entry that has
    one: the en-US string when the entry has one, else the entry's first
    string.  Nothing is said about the order. *)
Theorem GetFullFontNames_unique w fs :
  m_customFontSet (this w) = Some fs ->
  exists fullNames,
    GetFullFontNames w = (Returned fullNames, w) /\
    NoDup fullNames /\
    (forall name,
       In name fullNames <->
       exists r p,
         In r fs /\
         best_language_match "en-US" (ref_properties r DWRITE_FONT_PROPERTY_ID_FULL_NAME)
           = Some p /\
         snd p = name) /\
    (forall names p,
       best_language_match "en-US" names = Some p ->
       In p names /\ (fst p = "en-US" \/ (forall q, In q names -> fst q <> "en-US")
                                         /\ hd_error names = Some p)).
Proof.
  intros Hfs.
  set (values := unique_values []
                   (language_matches "en-US"
                      (map (fun r => ref_properties r DWRITE_FONT_PROPERTY_ID_FULL_NAME) fs))).
  exists (map snd values).
  destruct (unique_values_spec
              (language_matches "en-US"
                 (map (fun r => ref_properties r DWRITE_FONT_PROPERTY_ID_FULL_NAME) fs)) [])
    as [Hnd Hin].
  fold values in Hnd, Hin.
  repeat split.
  - unfold GetFullFontNames, GetPropertyValuesFromFontSet.
    unfold bind at 1. unfold bind at 1. unfold get_this at 1. cbv beta iota.
    unfold bind at 1. rewrite Hfs. unfold deref at 1, ret at 1. cbv beta iota.
    unfold IDWriteFontSet_GetPropertyValues. cbn [fst snd].
    unfold bind at 1. rewrite ThrowIfFailed_ok by reflexivity.
    unfold deref, ret. fold values. unfold GetCount.
    exact (push_full_names values w values [] [] eq_refl).
  - exact Hnd.
  - intros H. apply Hin in H as [H _].
    apply in_map_iff in H as [p [Hp Hl]].
    apply language_matches_spec in Hl as [names [Hn Hb]].
    apply in_map_iff in Hn as [r [Hr Hinr]].
    exists r, p. subst names. auto.
  - intros [r [p [Hr [Hb Hp]]]]. apply Hin. split; [|intros []].
    apply in_map_iff. exists p. split; [exact Hp|].
    apply language_matches_spec.
    exists (ref_properties r DWRITE_FONT_PROPERTY_ID_FULL_NAME). split; [|exact Hb].
    apply in_map_iff. exists r. auto.
  - unfold best_language_match in H.
    destruct (find (fun p0 => String.eqb (fst p0) "en-US") names) as [q|] eqn:E.
    + inversion H; subst q. now apply find_some in E.
    + destruct names as [|q rest]; [discriminate|]. inversion H; subst q. now left.
  - unfold best_language_match in H.
    destruct (find (fun p0 => String.eqb (fst p0) "en-US") names) as [q|] eqn:E.
    + inversion H; subst q. apply find_some in E as [_ E].
      left. now apply String.eqb_eq.
    + right. split; [|exact H].
      intros q Hq Heq. pose proof (find_none _ _ E q Hq) as Hf. simpl in Hf.
      apply String.eqb_neq in Hf. contradiction.
Qed.

(** The hypothesis holds for a set in which two entries share a full name:
    the name comes back once. *)
Lemma GetFullFontNames_unique_witness :
  exists fullNames,
    GetFullFontNames
      (Scenario.set_of [in_memory_reference Scenario.face_A;
                        in_memory_reference Scenario.face_A;
                        in_memory_reference Scenario.face_B]) =
    (Returned fullNames,
     Scenario.set_of [in_memory_reference Scenario.face_A;
                      in_memory_reference Scenario.face_A;
                      in_memory_reference Scenario.face_B]) /\
    NoDup fullNames /\
    (forall name,
       In name fullNames <->
       exists r p,
         In r [in_memory_reference Scenario.face_A;
               in_memory_reference Scenario.face_A;
               in_memory_reference Scenario.face_B] /\
         best_language_match "en-US" (ref_properties r DWRITE_FONT_PROPERTY_ID_FULL_NAME)
           = Some p /\
         snd p = name) /\
    (forall names p,
       best_language_match "en-US" names = Some p ->
       In p names /\ (fst p = "en-US" \/ (forall q, In q names -> fst q <> "en-US")
                                         /\ hd_error names = Some p)).
Proof.
  apply (GetFullFontNames_unique
           (Scenario.set_of [in_memory_reference Scenario.face_A;
                             in_memory_reference Scenario.face_A;
                             in_memory_reference Scenario.face_B])).
  reflexivity.
Defined.

Example GetFullFontNames_shared_name :
  result (GetFullFontNames
            (Scenario.set_of [in_memory_reference Scenario.face_A;
                              in_memory_reference Scenario.face_A;
                              in_memory_reference Scenario.face_B]))
  = Returned ["Font A"; "Schrift B"].
Proof. reflexivity. Qed.

(** *** Details read from the font data *)

Lemma skipn_nth_error {A} (l : list A) : forall i x,
  nth_error l i = Some x -> skipn i l = x :: skipn (S i) l.
Proof.
  induction l as [|y l IH]; intros [|i] x E; simpl in *; try discriminate.
  - now inversion E.
  - now apply IH.
Qed.

Lemma string_app_assoc (a b c : string) :
  ((a ++ b) ++ c = a ++ (b ++ c))%string.
Proof. induction a as [|x a IH]; simpl; [reflexivity | now rewrite IH]. Qed.

Lemma GetStringLength_nth (ls : LocalizedStrings) i loc s :
  nth_error ls i = Some (loc, s) -> GetStringLength ls i = (S_OK, String.length s).
Proof. intros E. unfold GetStringLength. now rewrite E. Qed.

Lemma GetString_nth (ls : LocalizedStrings) i loc s :
  nth_error ls i = Some (loc, s) ->
  GetString ls i (String.length s + 1) = (S_OK, s).
Proof.
  intros E. unfold GetString. rewrite E.
  replace (Nat.ltb (String.length s) (String.length s + 1)) with true; [reflexivity|].
  symmetry. apply Nat.ltb_lt. lia.
Qed.

(** [find_locale] finds the index of the string that [find] finds. *)
Lemma find_locale_find localeName (ls : LocalizedStrings) : forall k,
  match find_locale localeName ls k with
  | Some i =>
      k <= i /\
      exists p, find (fun p => String.eqb (fst p) localeName) ls = Some p /\
                nth_error ls (i - k) = Some p
  | None => find (fun p => String.eqb (fst p) localeName) ls = None
  end.
Proof.
  induction ls as [|[loc s] rest IH]; intros k; simpl; [reflexivity|].
  destruct (String.eqb loc localeName).
  - split; [lia|]. exists (loc, s). rewrite Nat.sub_diag. auto.
  - specialize (IH (S k)). destruct (find_locale localeName rest (S k)) as [i|].
    + destruct IH as [Hle [p [Hf Hn]]]. split; [lia|]. exists p. split; [exact Hf|].
      replace (i - k) with (S (i - S k)) by lia. exact Hn.
    + exact IH.
Qed.

(** The index the sample reads the full name at holds the best language
    match for en-US. *)
Lemma full_name_index (ls : LocalizedStrings) :
  ls <> [] ->
  exists p,
    best_language_match "en-US" ls = Some p /\
    nth_error ls
      (N.to_nat (if snd (FindLocaleName ls "en-US")
                 then snd (fst (FindLocaleName ls "en-US"))
                 else 0%N)) = Some p.
Proof.
  intros Hne. unfold FindLocaleName, best_language_match.
  pose proof (find_locale_find "en-US" ls 0) as H.
  destruct (find_locale "en-US" ls 0) as [i|].
  - destruct H as [_ [p [Hf Hn]]]. exists p. rewrite Hf. split; [reflexivity|].
    cbn [fst snd]. rewrite Nat2N.id. now rewrite Nat.sub_0_r in Hn.
  - rewrite H. destruct ls as [|p rest]; [congruence|]. exists p. auto.
Qed.

Lemma full_name_prefix_of (ls : LocalizedStrings) w :
  ls <> [] ->
  exists p,
    best_language_match "en-US" ls = Some p /\
    full_name_prefix (Some ls) w = (Returned (snd p ++ ": ")%string, w).
Proof.
  intros Hne. destruct (full_name_index ls Hne) as [[loc s] [Hb Hn]].
  exists (loc, s). split; [exact Hb|].
  unfold full_name_prefix.
  unfold bind at 1. unfold deref at 1, ret at 1. cbv beta iota.
  unfold bind at 1.
  assert (Hok : fst (fst (FindLocaleName ls "en-US")) = S_OK).
  { unfold FindLocaleName. destruct (find_locale "en-US" ls 0); reflexivity. }
  rewrite Hok, ThrowIfFailed_ok by reflexivity.
  rewrite (GetStringLength_nth _ _ _ _ Hn). cbn [fst snd].
  unfold bind at 1. rewrite ThrowIfFailed_ok by reflexivity.
  rewrite (GetString_nth _ _ _ _ Hn). cbn [fst snd].
  unfold bind at 1. rewrite ThrowIfFailed_ok by reflexivity.
  reflexivity.
Qed.

Lemma readable_spec r :
  readable r = true ->
  FAILED (ref_enqueue r) = false /\
  exists face, ref_face r = Some face /\ informationalFullName face <> Some [].
Proof.
  unfold readable. intros H. apply andb_true_iff in H as [He Hf].
  apply negb_true_iff in He. split; [exact He|].
  destruct (ref_face r) as [face|]; [|discriminate].
  exists face. split; [reflexivity|].
  destruct (informationalFullName face) as [[|p ls]|]; congruence.
Qed.

(** One turn of the first loop on a readable entry. *)
Lemma enqueue_download_readable (fs : IDWriteFontSet) i r w :
  nth_error fs i = Some r -> readable r = true ->
  enqueue_download fs i tt w =
  (Returned tt, logged (call_EnqueueFontDownloadRequest i) w).
Proof.
  intros E Hr. apply readable_spec in Hr as [He _].
  unfold enqueue_download. rewrite (GetFontFaceReference_in_range _ _ _ E). cbn [fst snd].
  unfold bind at 1. rewrite ThrowIfFailed_ok by reflexivity.
  unfold bind at 1. unfold deref at 1, ret at 1. cbv beta iota.
  unfold bind at 1. unfold EnqueueFontDownloadRequest, bind at 1.
  rewrite record_call_logged. unfold ret at 1.
  now rewrite ThrowIfFailed_ok.
Qed.

(** One turn of the second loop on a readable entry. *)
Lemma report_font_readable (fs : IDWriteFontSet) i r w resultVector :
  nth_error fs i = Some r -> readable r = true ->
  exists face,
    ref_face r = Some face /\
    report_font fs i resultVector w =
    (Returned (resultVector ++ [report_line i face]), logged (call_CreateFontFace i) w).
Proof.
  intros E Hr. apply readable_spec in Hr as [_ [face [Hface Hname]]].
  exists face. split; [exact Hface|].
  unfold report_font. rewrite (GetFontFaceReference_in_range _ _ _ E). cbn [fst snd].
  unfold bind at 1. rewrite ThrowIfFailed_ok by reflexivity.
  unfold bind at 1. unfold deref at 1, ret at 1. cbv beta iota.
  unfold bind at 1. unfold CreateFontFace, bind at 1.
  rewrite record_call_logged. rewrite Hface. unfold ret at 1. cbn [fst snd].
  unfold bind at 1. rewrite ThrowIfFailed_ok by reflexivity.
  unfold bind at 1. unfold deref at 1, ret at 1. cbv beta iota.
  unfold GetInformationalStrings_FULL_NAME, report_line.
  destruct (informationalFullName face) as [ls|] eqn:En; cbn [fst snd].
  - assert (Hne : ls <> []) by (intros ->; apply Hname; reflexivity).
    destruct (full_name_prefix_of ls (logged (call_CreateFontFace i) w) Hne)
      as [p [Hb Hp]].
    unfold bind at 1. rewrite ThrowIfFailed_ok by reflexivity.
    unfold bind at 1. rewrite Hp, Hb. unfold ret.
    now rewrite !string_app_assoc.
  - unfold bind at 1. rewrite ThrowIfFailed_ok by reflexivity.
    unfold bind at 1. unfold ret.
    now rewrite !string_app_assoc.
Qed.

Lemma readable_nth (fs : IDWriteFontSet) i r :
  forallb readable fs = true -> nth_error fs i = Some r -> readable r = true.
Proof.
  intros Hall E. rewrite forallb_forall in Hall. apply Hall.
  eapply nth_error_In. exact E.
Qed.

Lemma in_range_nth (fs : IDWriteFontSet) i n :
  i + S n = List.length fs -> exists r, nth_error fs i = Some r.
Proof.
  intros Hlen. destruct (nth_error fs i) as [r|] eqn:E; [eauto|].
  apply nth_error_None in E. lia.
Qed.

(** The first loop: one download request for each entry, in index order. *)
Lemma enqueue_loop (fs : IDWriteFontSet) :
  forallb readable fs = true ->
  forall n i w, i + n = List.length fs ->
  for_loop n i (enqueue_download fs) tt w =
  (Returned tt, logged_all (map call_EnqueueFontDownloadRequest (seq i n)) w).
Proof.
  intros Hall. induction n as [|n IH]; intros i w Hlen; [reflexivity|].
  destruct (in_range_nth fs i n Hlen) as [r E].
  cbn [for_loop seq map logged_all].
  rewrite (bind_Returned _ _ _ _ _
             (enqueue_download_readable fs i r w E (readable_nth fs i r Hall E))).
  apply IH. lia.
Qed.

(** The second loop: one line for each entry, in index order. *)
Lemma report_loop (fs : IDWriteFontSet) :
  forallb readable fs = true ->
  forall n i w resultVector, i + n = List.length fs ->
  for_loop n i (report_font fs) resultVector w =
  (Returned (resultVector ++ report_lines i (skipn i fs)),
   logged_all (map call_CreateFontFace (seq i n)) w).
Proof.
  intros Hall. induction n as [|n IH]; intros i w resultVector Hlen.
  - rewrite skipn_all2 by lia. simpl. now rewrite app_nil_r.
  - destruct (in_range_nth fs i n Hlen) as [r E].
    destruct (report_font_readable fs i r w resultVector E (readable_nth fs i r Hall E))
      as [face [Hface Hbody]].
    cbn [for_loop seq map logged_all].
    rewrite (bind_Returned _ _ _ _ _ Hbody).
    rewrite IH by lia.
    rewrite (skipn_nth_error fs i r E). cbn [report_lines]. rewrite Hface.
    now rewrite <- app_assoc.
Qed.

Lemma bind_Returned_inv {A B} (m : M A) (k : A -> M B) w b w' :
  bind m k w = (Returned b, w') ->
  exists a w1, m w = (Returned a, w1) /\ k a w1 = (Returned b, w').
Proof.
  unfold bind. destruct (m w) as [[a|hr|] w1]; intros H; try discriminate. eauto.
Qed.

(** A turn of the second loop that returns has pushed one line. *)
Lemma report_font_pushes_one (fs : IDWriteFontSet) i resultVector w lines w' :
  report_font fs i resultVector w = (Returned lines, w') ->
  List.length lines = S (List.length resultVector).
Proof.
  unfold report_font. intros H.
  apply bind_Returned_inv in H as (? & ? & _ & H).
  apply bind_Returned_inv in H as (? & ? & _ & H).
  apply bind_Returned_inv in H as (? & ? & _ & H).
  apply bind_Returned_inv in H as (? & ? & _ & H).
  apply bind_Returned_inv in H as (? & ? & _ & H).
  apply bind_Returned_inv in H as (? & ? & _ & H).
  apply bind_Returned_inv in H as (? & ? & _ & H).
  unfold ret in H. inversion H. rewrite length_app. simpl. lia.
Qed.

Lemma report_loop_length (fs : IDWriteFontSet) :
  forall n i w resultVector lines w',
  for_loop n i (report_font fs) resultVector w = (Returned lines, w') ->
  List.length lines = List.length resultVector + n.
Proof.
  induction n as [|n IH]; intros i w resultVector lines w' H.
  - inversion H. lia.
  - cbn [for_loop] in H.
    apply bind_Returned_inv in H as (acc & w1 & Hbody & H).
    apply report_font_pushes_one in Hbody. apply IH in H. lia.
Qed.

Lemma append_not_empty (a b : string) : b <> "" -> (a ++ b)%string <> "".
Proof. destruct a; simpl; [auto | discriminate]. Qed.

Lemma report_line_not_empty i face : report_line i face <> "".
Proof. unfold report_line. apply append_not_empty. discriminate. Qed.

Lemma report_lines_nth (fs : IDWriteFontSet) :
  forallb readable fs = true ->
  forall from i r face,
  nth_error fs i = Some r -> ref_face r = Some face ->
  nth_error (report_lines from fs) i = Some (report_line (from + i) face).
Proof.
  induction fs as [|r0 fs IH]; intros Hall from [|i] r face E Hface;
    simpl in E; try discriminate.
  - inversion E; subst r0. simpl. rewrite Hface. simpl. now rewrite Nat.add_0_r.
  - simpl in Hall. apply andb_true_iff in Hall as [Hr0 Hall].
    apply readable_spec in Hr0 as [_ [face0 [Hface0 _]]].
    simpl. rewrite Hface0. simpl.
    rewrite (IH Hall (S from) i r face E Hface).
    f_equal. f_equal. lia.
Qed.

Lemma report_lines_length (fs : IDWriteFontSet) :
  forallb readable fs = true ->
  forall from, List.length (report_lines from fs) = List.length fs.
Proof.
  induction fs as [|r0 fs IH]; intros Hall from; [reflexivity|].
  simpl in Hall. apply andb_true_iff in Hall as [Hr0 Hall].
  apply readable_spec in Hr0 as [_ [face0 [Hface0 _]]].
  simpl. rewrite Hface0. simpl. now rewrite IH.
Qed.

Lemma report_lines_not_empty (fs : IDWriteFontSet) :
  forall from, Forall (fun line => line <> "") (report_lines from fs).
Proof.
  induction fs as [|r0 fs IH]; intros from; simpl; [constructor|].
  destruct (ref_face r0); [constructor; [apply report_line_not_empty | apply IH] | apply IH].
Qed.

(** C6: on a built font set of N entries, a call of [GetFontDataDetails]
    that returns has N lines.  When every entry accepts its download request
    and its data can be read, the call returns; it has first enqueued a
    download request for each of the N entries, in index order and without
    waiting, and only then created the N font faces; the line at index i is
    not empty and reads: the full name in the font data (the en-US string,
    else the first one), or "Font i" when the data has no full name, then
    ": x-height = " and the x-height in decimal digits. *)
Theorem GetFontDataDetails_reports_every_font cancellationHandle w fs :
  m_customFontSet (this w) = Some fs ->
  (forall lines,
     result (GetFontDataDetails cancellationHandle w) = Returned lines ->
     List.length lines = List.length fs) /\
  (forallb readable fs = true ->
   result (GetFontDataDetails cancellationHandle w) = Returned (report_lines 0 fs) /\
   List.length (report_lines 0 fs) = List.length fs /\
   calls (dwrite (world (GetFontDataDetails cancellationHandle w))) =
     calls (dwrite w)
     ++ map call_EnqueueFontDownloadRequest (seq 0 (List.length fs))
     ++ map call_CreateFontFace (seq 0 (List.length fs)) /\
   Forall (fun line => line <> "") (report_lines 0 fs) /\
   (forall i r face,
      nth_error fs i = Some r -> ref_face r = Some face ->
      nth_error (report_lines 0 fs) i = Some (report_line i face))).
Proof.
  intros Hfs. split.
  - intros lines. unfold result.
    destruct (GetFontDataDetails cancellationHandle w) as [o w'] eqn:E. cbn [fst].
    intros ->. unfold GetFontDataDetails in E.
    apply bind_Returned_inv in E as (m & w1 & Hm & E).
    inversion Hm; subst m w1.
    rewrite Hfs in E.
    apply bind_Returned_inv in E as (fs' & w1 & Hd & E).
    inversion Hd; subst fs' w1.
    apply bind_Returned_inv in E as (? & w2 & _ & E).
    apply report_loop_length in E. simpl in E. exact E.
  - intros Hall.
    assert (E : GetFontDataDetails cancellationHandle w =
                (Returned (report_lines 0 fs),
                 logged_all (map call_CreateFontFace (seq 0 (List.length fs)))
                   (logged_all (map call_EnqueueFontDownloadRequest
                                  (seq 0 (List.length fs))) w))).
    { unfold GetFontDataDetails.
      unfold bind at 1. unfold get_this at 1. cbv beta iota.
      unfold bind at 1. rewrite Hfs. unfold deref at 1, ret at 1. cbv beta iota.
      unfold bind at 1. rewrite (enqueue_loop fs Hall) by reflexivity.
      rewrite (report_loop fs Hall) by reflexivity. reflexivity. }
    rewrite E. unfold result, world. cbn [fst snd].
    repeat split.
    + now apply report_lines_length.
    + now rewrite !calls_logged_all, <- app_assoc.
    + apply report_lines_not_empty.
    + intros i r face. apply (report_lines_nth fs Hall 0).
Qed.

(** The hypotheses hold for the set built in the sample's scenario, two
    local fonts: two lines come back. *)
Lemma GetFontDataDetails_reports_every_font_witness :
  (forall lines,
     result (GetFontDataDetails null_handle Scenario.built) = Returned lines ->
     List.length lines = 2) /\
  result (GetFontDataDetails null_handle Scenario.built) =
    Returned (report_lines 0 (entries_of Scenario.env (source_files Scenario.env))) /\
  List.length (report_lines 0 (entries_of Scenario.env (source_files Scenario.env))) =
    List.length (entries_of Scenario.env (source_files Scenario.env)) /\
  calls (dwrite (world (GetFontDataDetails null_handle Scenario.built))) =
    calls (dwrite Scenario.built)
    ++ map call_EnqueueFontDownloadRequest
         (seq 0 (List.length (entries_of Scenario.env (source_files Scenario.env))))
    ++ map call_CreateFontFace
         (seq 0 (List.length (entries_of Scenario.env (source_files Scenario.env)))) /\
  Forall (fun line => line <> "")
    (report_lines 0 (entries_of Scenario.env (source_files Scenario.env))) /\
  (forall i r face,
     nth_error (entries_of Scenario.env (source_files Scenario.env)) i = Some r ->
     ref_face r = Some face ->
     nth_error (report_lines 0 (entries_of Scenario.env (source_files Scenario.env))) i =
       Some (report_line i face)).
Proof.
  destruct (GetFontDataDetails_reports_every_font null_handle Scenario.built
              (entries_of Scenario.env (source_files Scenario.env)) eq_refl)
    as [Hlength Hreadable].
  split; [exact Hlength | apply Hreadable; reflexivity].
Defined.

Example GetFontDataDetails_scenario :
  forallb readable (entries_of Scenario.env (source_files Scenario.env)) = true /\
  result (GetFontDataDetails null_handle Scenario.built) =
    Returned ["Font A: x-height = 1082"; "Schrift B: x-height = 916"] /\
  result (GetFontDataDetails null_handle
            (Scenario.set_of [in_memory_reference Scenario.face_nameless;
                              in_memory_reference Scenario.face_nameless])) =
    Returned ["Font 0: x-height = 500"; "Font 1: x-height = 500"].
Proof. repeat split. Qed.

(** C1: what the code does with the cancellation handle.  The handle is
    never read, no timeout is set and nothing is waited for, so the result is
    the same for every handle.  On the set built from the sample's two fonts a
    handle that is already signalled gets the two report lines, not an empty
    vector; and on a set with an entry whose data cannot be read the failure
    of [CreateFontFace] is thrown, where an empty vector was promised. *)
Theorem GetFontDataDetails_ignores_cancellation :
  (forall cancellationHandle w,
     GetFontDataDetails cancellationHandle w = GetFontDataDetails null_handle w) /\
  result (GetFontDataDetails (waitable true) Scenario.built) =
    Returned ["Font A: x-height = 1082"; "Schrift B: x-height = 916"] /\
  result (GetFontDataDetails (waitable true)
            (Scenario.set_of [in_memory_reference Scenario.face_A;
                              Scenario.remote_reference])) =
    Thrown DWRITE_E_REMOTEFONT.
Proof. repeat split. Qed.

(** * Further properties of the manager *)

(** ** Construction and destruction *)

(** X1: the constructor returns exactly when the factory was created and the
    query for [IDWriteFactory5] either succeeded or answered
    [E_NOINTERFACE]; otherwise it throws the failing code of the call that
    failed.  The manager it leaves holds no loader and no font set, has not
    touched the factory, and reports [IDWriteFactory5] available exactly when
    the query did not answer [E_NOINTERFACE]. *)
Theorem constructor_outcome hr_create hr_as w0 :
  (result (CustomFontSetManager_ctor hr_create hr_as w0) = Returned tt <->
   FAILED hr_create = false /\ (hr_as = E_NOINTERFACE \/ FAILED hr_as = false)) /\
  (forall hr,
     result (CustomFontSetManager_ctor hr_create hr_as w0) = Thrown hr ->
     FAILED hr = true /\ (hr = hr_create \/ hr = hr_as /\ hr_as <> E_NOINTERFACE)) /\
  result (CustomFontSetManager_ctor hr_create hr_as w0) <> NullDereference /\
  (result (CustomFontSetManager_ctor hr_create hr_as w0) = Returned tt ->
   IDWriteFactory5_IsAvailable (this (world (CustomFontSetManager_ctor hr_create hr_as w0)))
     = negb (Z.eqb hr_as E_NOINTERFACE) /\
   m_inMemoryFontFileLoader (this (world (CustomFontSetManager_ctor hr_create hr_as w0)))
     = None /\
   m_customFontSet (this (world (CustomFontSetManager_ctor hr_create hr_as w0))) = None /\
   dwrite (world (CustomFontSetManager_ctor hr_create hr_as w0)) = dwrite w0).
Proof.
  split; [|split; [|split]].
  - unfold CustomFontSetManager_ctor, bind, put_this, ThrowIfFailed, throw, ret, result.
    cbn [fst snd].
    destruct (FAILED hr_create) eqn:Hc; cbn [fst].
    { split; [discriminate | intros [H _]; discriminate]. }
    destruct (Z.eqb hr_as E_NOINTERFACE) eqn:He; cbn [fst].
    { apply Z.eqb_eq in He. split; auto. }
    destruct (FAILED hr_as) eqn:Ha; cbn [fst].
    + split; [discriminate|]. intros [_ [H|H]]; [|discriminate].
      apply Z.eqb_neq in He. contradiction.
    + split; auto.
  - intros hr.
    unfold CustomFontSetManager_ctor, bind, put_this, ThrowIfFailed, throw, ret, result.
    cbn [fst snd].
    destruct (FAILED hr_create) eqn:Hc; cbn [fst].
    { intros H. inversion H; subst hr. auto. }
    destruct (Z.eqb hr_as E_NOINTERFACE) eqn:He; cbn [fst]; [discriminate|].
    destruct (FAILED hr_as) eqn:Ha; cbn [fst]; [|discriminate].
    intros H. inversion H; subst hr. apply Z.eqb_neq in He. auto.
  - unfold CustomFontSetManager_ctor, bind, put_this, ThrowIfFailed, throw, ret, result.
    cbn [fst snd].
    destruct (FAILED hr_create); cbn [fst]; [discriminate|].
    destruct (Z.eqb hr_as E_NOINTERFACE); cbn [fst]; [discriminate|].
    destruct (FAILED hr_as); discriminate.
  - intros H. rewrite (ctor_Returned _ _ _ H). repeat split.
Qed.

(** X2: the destructor never throws, whatever the factory answers to the
    unregistration.  It dereferences a null factory only when the manager
    holds a loader and no factory.  It leaves the manager's members alone,
    and when it returns, the loaders registered afterwards are those
    registered before apart from the one the manager holds. *)
Theorem destructor_outcome w :
  (forall hr, result (CustomFontSetManager_dtor w) <> Thrown hr) /\
  (result (CustomFontSetManager_dtor w) = NullDereference <->
   m_dwriteFactory3 (this w) = false /\ m_inMemoryFontFileLoader (this w) <> None) /\
  this (world (CustomFontSetManager_dtor w)) = this w /\
  (result (CustomFontSetManager_dtor w) = Returned tt ->
   forall l,
     In l (registeredLoaders (dwrite (world (CustomFontSetManager_dtor w)))) <->
     In l (registeredLoaders (dwrite w)) /\ m_inMemoryFontFileLoader (this w) <> Some l).
Proof.
  destruct (m_inMemoryFontFileLoader (this w)) as [held|] eqn:Hl.
  - destruct (m_dwriteFactory3 (this w)) eqn:H3.
    + rewrite (dtor_with_loader w held H3 Hl). unfold result, world.
      cbn [fst snd this dwrite registeredLoaders].
      split; [intros hr; discriminate|].
      split; [split; [discriminate | intros [H _]; discriminate]|].
      split; [reflexivity|].
      intros _ l.
      destruct (existsb (Nat.eqb held) (registeredLoaders (dwrite w))) eqn:E.
      * split.
        -- intros H. apply in_remove in H as [Hin Hne]. split; [exact Hin | congruence].
        -- intros [Hin Hne]. apply in_in_remove; [congruence | exact Hin].
      * split.
        -- intros Hin. split; [exact Hin|]. intros Heq. inversion Heq; subst l.
           rewrite existsb_eqb_true in E by exact Hin. discriminate.
        -- intros [Hin _]. exact Hin.
    + assert (E : CustomFontSetManager_dtor w = (NullDereference, w)).
      { unfold CustomFontSetManager_dtor, bind, get_this. rewrite Hl.
        unfold UnregisterFontFileLoader, bind, get_this. rewrite H3. reflexivity. }
      rewrite E. unfold result, world. cbn [fst snd].
      split; [intros hr; discriminate|].
      split; [split; [intros _; split; [reflexivity | discriminate] | reflexivity]|].
      split; [reflexivity | discriminate].
  - rewrite (dtor_without_loader w Hl). unfold result, world. cbn [fst snd].
    split; [intros hr; discriminate|].
    split; [split; [discriminate | intros [_ H]; congruence]|].
    split; [reflexivity|].
    intros _ l. split; [intros H; split; [exact H | discriminate] | intros [H _]; exact H].
Qed.

(** The destructor leaves registered every loader but the one it holds. *)
Lemma dtor_keeps_others w l :
  m_inMemoryFontFileLoader (this w) <> Some l ->
  In l (registeredLoaders (dwrite w)) ->
  In l (registeredLoaders (dwrite (world (CustomFontSetManager_dtor w)))).
Proof.
  intros Hne Hin.
  destruct (m_inMemoryFontFileLoader (this w)) as [held|] eqn:Hl.
  - destruct (m_dwriteFactory3 (this w)) eqn:H3.
    + rewrite (dtor_with_loader w held H3 Hl). unfold world.
      cbn [snd dwrite registeredLoaders].
      destruct (existsb (Nat.eqb held) (registeredLoaders (dwrite w))); [|exact Hin].
      apply in_in_remove; [congruence | exact Hin].
    + unfold CustomFontSetManager_dtor, bind, get_this. rewrite Hl.
      unfold UnregisterFontFileLoader, bind, get_this. rewrite H3. exact Hin.
  - now rewrite (dtor_without_loader w Hl).
Qed.

(** ** More on the build *)

(** X3: a build never unregisters and never keeps hold of a loader that was
    registered before it: such a loader is still registered after the build,
    is not the loader the manager holds afterwards, and so is still
    registered after the destructor has run.  A manager that is built again
    therefore leaves the loader of its earlier build registered for good. *)
Theorem build_abandons_registered_loader env w l :
  IDWriteFactory5_IsAvailable (this w) = true ->
  In l (registeredLoaders (dwrite w)) ->
  In l (registeredLoaders (dwrite (world (CreateFontSetUsingInMemoryFontData env w)))) /\
  m_inMemoryFontFileLoader (this (world (CreateFontSetUsingInMemoryFontData env w)))
    <> Some l /\
  In l (registeredLoaders
          (dwrite (world (CustomFontSetManager_dtor
                            (world (CreateFontSetUsingInMemoryFontData env w)))))).
Proof.
  unfold IDWriteFactory5_IsAvailable. intros H5 Hin.
  destruct (build_members env w H5) as (_ & _ & Hl & Hreg & _).
  assert (Hafter : In l (registeredLoaders
                           (dwrite (world (CreateFontSetUsingInMemoryFontData env w))))).
  { rewrite Hreg.
    destruct (FAILED (hr_CreateInMemoryFontFileLoader env)
              || FAILED (hr_RegisterFontFileLoader env)); [exact Hin | now right]. }
  assert (Hheld : m_inMemoryFontFileLoader
                    (this (world (CreateFontSetUsingInMemoryFontData env w))) <> Some l).
  { rewrite Hl. destruct (FAILED (hr_CreateInMemoryFontFileLoader env)); [discriminate|].
    intros E. inversion E; subst l. exact (new_loader_fresh (dwrite w) Hin). }
  repeat split; try assumption.
  now apply dtor_keeps_others.
Qed.

(** The hypotheses hold for the manager built once: loader 1 survives a second
    build and the destructor. *)
Lemma build_abandons_registered_loader_witness :
  In 1 (registeredLoaders
          (dwrite (world (CreateFontSetUsingInMemoryFontData Scenario.env Scenario.built)))) /\
  m_inMemoryFontFileLoader
    (this (world (CreateFontSetUsingInMemoryFontData Scenario.env Scenario.built)))
    <> Some 1 /\
  In 1 (registeredLoaders
          (dwrite (world (CustomFontSetManager_dtor
                            (world (CreateFontSetUsingInMemoryFontData Scenario.env
                                      Scenario.built)))))).
Proof.
  apply (build_abandons_registered_loader Scenario.env Scenario.built 1).
  - reflexivity.
  - left. reflexivity.
Defined.

Lemma adding_Returned_succeeded env owner fonts : forall builder b,
  snd (adding env owner fonts builder) = Returned b ->
  forall f, In f fonts ->
    FAILED (hr_CreateInMemoryFontFileReference env f) = false /\
    parse_font_data env f <> None.
Proof.
  induction fonts as [|g rest IH]; intros builder b E f Hin; [destruct Hin|].
  simpl in E.
  destruct (FAILED (hr_CreateInMemoryFontFileReference env g)) eqn:Hg; [discriminate|].
  destruct (parse_font_data env g) as [faces|] eqn:Hp; [|discriminate].
  simpl in E. destruct Hin as [<-|Hin].
  - split; [exact Hg | congruence].
  - eapply IH; eassumption.
Qed.

(** A build that returned had [IDWriteFactory5] and a platform that
    succeeded throughout. *)
Lemma build_Returned_platform env w :
  result (CreateFontSetUsingInMemoryFontData env w) = Returned tt ->
  m_dwriteFactory5 (this w) = true /\ platform_succeeds env.
Proof.
  intros E. destruct (m_dwriteFactory5 (this w)) eqn:H5.
  2:{ rewrite (build_without_factory5 env w H5) in E. discriminate. }
  split; [reflexivity|].
  revert E. rewrite (build_steps env w H5). cbv zeta. unfold platform_succeeds.
  destruct (FAILED (hr_CreateInMemoryFontFileLoader env)); [discriminate|].
  destruct (FAILED (hr_RegisterFontFileLoader env)); [discriminate|].
  destruct (FAILED (hr_CreateFontSetBuilder env)); [discriminate|].
  destruct (snd (adding env owner_binaryResources (BinaryResources_GetFonts env) []))
    as [b1|hr1|] eqn:Ha1; try discriminate.
  destruct (snd (adding env owner_document (Document_GetFonts env) b1))
    as [b2|hr2|] eqn:Ha2; try discriminate.
  destruct (FAILED (hr_CreateFontSet env)); [discriminate|].
  intros _.
  split; [reflexivity|]. split; [reflexivity|]. split; [reflexivity|].
  split; [reflexivity|].
  intros f Hin. apply in_app_or in Hin as [Hin|Hin].
  - exact (adding_Returned_succeeded _ _ _ _ _ Ha1 f Hin).
  - exact (adding_Returned_succeeded _ _ _ _ _ Ha2 f Hin).
Qed.

(** X4: the build returns exactly when [IDWriteFactory5] is there, the
    loader is created and registered, the builder is created, every buffer
    of the two providers gets a file reference and is font data the platform
    can parse, and [CreateFontSet] succeeds. *)
Theorem build_returns_iff env w :
  result (CreateFontSetUsingInMemoryFontData env w) = Returned tt <->
  IDWriteFactory5_IsAvailable (this w) = true /\ platform_succeeds env.
Proof.
  unfold IDWriteFactory5_IsAvailable. split.
  - apply build_Returned_platform.
  - intros [H5 Hok]. now apply build_succeeds.
Qed.

Lemma entries_of_length env owner fonts :
  List.length (entries_of env (map (in_memory_file owner) fonts)) =
  list_sum (map (fonts_in env) fonts).
Proof.
  induction fonts as [|f rest IH]; [reflexivity|].
  simpl. unfold fonts_in at 1.
  destruct (parse_font_data env f) as [faces|]; [|exact IH].
  now rewrite length_app, length_map, IH.
Qed.

Lemma list_sum_ones {A} (g : A -> nat) (l : list A) :
  (forall x, In x l -> g x = 1) -> list_sum (map g l) = List.length l.
Proof.
  induction l as [|x l IH]; intros H; [reflexivity|].
  simpl. rewrite (H x) by now left. rewrite IH; [reflexivity|].
  intros y Hy. apply H. now right.
Qed.

(** X5: after a build that returned, [GetFontCount] is the number of fonts
    the platform found in all the buffers together; when every buffer holds
    one font, it is the number of buffers. *)
Theorem font_count_after_build env w :
  result (CreateFontSetUsingInMemoryFontData env w) = Returned tt ->
  GetFontCount (this (world (CreateFontSetUsingInMemoryFontData env w))) =
    Z.of_nat (list_sum (map (fonts_in env)
                          (BinaryResources_GetFonts env ++ Document_GetFonts env))) /\
  ((forall f, In f (BinaryResources_GetFonts env ++ Document_GetFonts env) ->
              fonts_in env f = 1) ->
   GetFontCount (this (world (CreateFontSetUsingInMemoryFontData env w))) =
     Z.of_nat (List.length (BinaryResources_GetFonts env)
               + List.length (Document_GetFonts env))).
Proof.
  intros E. apply build_Returned_font_set in E.
  assert (Hcount : GetFontCount (this (world (CreateFontSetUsingInMemoryFontData env w))) =
                   Z.of_nat (list_sum (map (fonts_in env)
                      (BinaryResources_GetFonts env ++ Document_GetFonts env)))).
  { unfold GetFontCount, IDWriteFontSet_GetFontCount. rewrite E.
    unfold source_files. rewrite entries_of_app, length_app, !entries_of_length.
    now rewrite map_app, list_sum_app. }
  split; [exact Hcount|].
  intros Hone. rewrite Hcount, (list_sum_ones _ _ Hone), length_app. reflexivity.
Qed.

(** The hypotheses hold in the sample's scenario: two buffers of one font
    each, two fonts. *)
Lemma font_count_after_build_witness :
  GetFontCount (this (world (CreateFontSetUsingInMemoryFontData Scenario.env
                               Scenario.constructed))) =
    Z.of_nat (list_sum (map (fonts_in Scenario.env)
                          (BinaryResources_GetFonts Scenario.env
                           ++ Document_GetFonts Scenario.env))) /\
  GetFontCount (this (world (CreateFontSetUsingInMemoryFontData Scenario.env
                               Scenario.constructed))) =
    Z.of_nat (List.length (BinaryResources_GetFonts Scenario.env)
              + List.length (Document_GetFonts Scenario.env)).
Proof.
  destruct (font_count_after_build Scenario.env Scenario.constructed eq_refl)
    as [Hsum Hone].
  split; [exact Hsum|]. apply Hone.
  intros f [<-|[<-|[]]]; reflexivity.
Defined.

(** X6: what a build that throws does to the font set the manager had.
    Thrown before [CreateFontSet] is reached, the set is the one from before
    the build; thrown by [CreateFontSet], the manager has no set any more,
    since the pointer was released for the call. *)
Theorem failed_build_font_set env w hr :
  result (CreateFontSetUsingInMemoryFontData env w) = Thrown hr ->
  (m_customFontSet (this (world (CreateFontSetUsingInMemoryFontData env w))) =
     m_customFontSet (this w) /\
   finalizations (calls (dwrite (world (CreateFontSetUsingInMemoryFontData env w)))) =
     finalizations (calls (dwrite w))) \/
  (m_customFontSet (this (world (CreateFontSetUsingInMemoryFontData env w))) = None /\
   hr = hr_CreateFontSet env /\
   finalizations (calls (dwrite (world (CreateFontSetUsingInMemoryFontData env w)))) =
     S (finalizations (calls (dwrite w)))).
Proof.
  destruct (m_dwriteFactory5 (this w)) eqn:H5.
  2:{ rewrite (build_without_factory5 env w H5). discriminate. }
  destruct (adding_only_adds env owner_binaryResources (BinaryResources_GetFonts env) [])
    as (_ & _ & Hf1).
  build_cases H5; unfold result, world; cbn [fst snd]; intros E; try discriminate;
    try (destruct (adding_only_adds env owner_document (Document_GetFonts env) b1)
           as (_ & _ & Hf2));
    cbn [this dwrite logged set_loader set_font_set with_registered
         m_customFontSet calls];
    rewrite ?this_logged_all, ?calls_logged_all;
    cbn [this dwrite logged set_loader set_font_set with_registered
         m_customFontSet calls];
    rewrite ?finalizations_app, ?Hf1, ?Hf2; cbn [finalizations];
    rewrite ?Nat.add_0_r.
  - left. auto.
  - left. auto.
  - left. auto.
  - right. inversion E. repeat split. lia.
  - left. auto.
  - left. auto.
Qed.

(** The hypothesis holds when [CreateFontSet] fails on a manager that was
    built before: the earlier set is gone. *)
Lemma failed_build_font_set_witness :
  (m_customFontSet
     (this (world (CreateFontSetUsingInMemoryFontData Runs.env_CreateFontSet_fails
                     Scenario.built))) =
   m_customFontSet (this Scenario.built) /\
   finalizations
     (calls (dwrite (world (CreateFontSetUsingInMemoryFontData Runs.env_CreateFontSet_fails
                              Scenario.built)))) =
   finalizations (calls (dwrite Scenario.built))) \/
  (m_customFontSet
     (this (world (CreateFontSetUsingInMemoryFontData Runs.env_CreateFontSet_fails
                     Scenario.built))) = None /\
   E_INVALIDARG = hr_CreateFontSet Runs.env_CreateFontSet_fails /\
   finalizations
     (calls (dwrite (world (CreateFontSetUsingInMemoryFontData Runs.env_CreateFontSet_fails
                              Scenario.built)))) =
   S (finalizations (calls (dwrite Scenario.built)))).
Proof.
  apply (failed_build_font_set Runs.env_CreateFontSet_fails Scenario.built E_INVALIDARG).
  reflexivity.
Defined.

(** ** More on the details read from the font data *)

Lemma E_INVALIDARG_failed : FAILED E_INVALIDARG = true.
Proof. reflexivity. Qed.

Lemma DWRITE_E_REMOTEFONT_failed : FAILED DWRITE_E_REMOTEFONT = true.
Proof. reflexivity. Qed.

Lemma readable_split r : readable r = accepts_download r && data_readable r.
Proof. reflexivity. Qed.

(** One turn of the first loop, in full. *)
Lemma enqueue_download_turn (fs : IDWriteFontSet) i w :
  enqueue_download fs i tt w =
  match nth_error fs i with
  | None => (Thrown E_INVALIDARG, w)
  | Some r =>
      if FAILED (ref_enqueue r)
      then (Thrown (ref_enqueue r), logged (call_EnqueueFontDownloadRequest i) w)
      else (Returned tt, logged (call_EnqueueFontDownloadRequest i) w)
  end.
Proof.
  unfold enqueue_download, IDWriteFontSet_GetFontFaceReference.
  destruct (nth_error fs i) as [r|]; cbn [fst snd].
  - unfold bind at 1. rewrite ThrowIfFailed_ok by reflexivity.
    unfold bind at 1. unfold deref at 1, ret at 1. cbv beta iota.
    unfold bind at 1. unfold EnqueueFontDownloadRequest, bind at 1.
    rewrite record_call_logged. unfold ret at 1.
    destruct (FAILED (ref_enqueue r)) eqn:E;
      [now rewrite ThrowIfFailed_throws | now rewrite ThrowIfFailed_ok].
  - unfold bind at 1. now rewrite ThrowIfFailed_throws by reflexivity.
Qed.

(** One turn of the second loop, in full. *)
Lemma report_font_turn (fs : IDWriteFontSet) i w resultVector :
  report_font fs i resultVector w =
  match nth_error fs i with
  | None => (Thrown E_INVALIDARG, w)
  | Some r =>
      match ref_face r with
      | None => (Thrown DWRITE_E_REMOTEFONT, logged (call_CreateFontFace i) w)
      | Some face =>
          match informationalFullName face with
          | Some [] => (Thrown E_INVALIDARG, logged (call_CreateFontFace i) w)
          | _ => (Returned (resultVector ++ [report_line i face]),
                  logged (call_CreateFontFace i) w)
          end
      end
  end.
Proof.
  destruct (nth_error fs i) as [r|] eqn:E.
  2:{ unfold report_font, IDWriteFontSet_GetFontFaceReference. rewrite E. cbn [fst snd].
      unfold bind at 1. now rewrite ThrowIfFailed_throws by reflexivity. }
  destruct (data_readable r) eqn:Hd.
  - (* the turn returns: as in the readable case *)
    assert (Hturn : exists face, ref_face r = Some face /\
              informationalFullName face <> Some [] /\
              report_font fs i resultVector w =
              (Returned (resultVector ++ [report_line i face]),
               logged (call_CreateFontFace i) w)).
    { unfold data_readable in Hd.
      destruct (ref_face r) as [face|] eqn:Hface; [|discriminate].
      exists face. split; [reflexivity|]. split.
      - destruct (informationalFullName face) as [[|p ls]|];
          [discriminate Hd | discriminate | discriminate].
      - unfold report_font. rewrite (GetFontFaceReference_in_range _ _ _ E). cbn [fst snd].
        unfold bind at 1. rewrite ThrowIfFailed_ok by reflexivity.
        unfold bind at 1. unfold deref at 1, ret at 1. cbv beta iota.
        unfold bind at 1. unfold CreateFontFace, bind at 1.
        rewrite record_call_logged. rewrite Hface. unfold ret at 1. cbn [fst snd].
        unfold bind at 1. rewrite ThrowIfFailed_ok by reflexivity.
        unfold bind at 1. unfold deref at 1, ret at 1. cbv beta iota.
        unfold GetInformationalStrings_FULL_NAME, report_line.
        destruct (informationalFullName face) as [ls|] eqn:En; cbn [fst snd].
        + assert (Hne : ls <> []) by (intros ->; discriminate).
          destruct (full_name_prefix_of ls (logged (call_CreateFontFace i) w) Hne)
            as [p [Hb Hp]].
          unfold bind at 1. rewrite ThrowIfFailed_ok by reflexivity.
          unfold bind at 1. rewrite Hp, Hb. unfold ret.
          now rewrite !string_app_assoc.
        + unfold bind at 1. rewrite ThrowIfFailed_ok by reflexivity.
          unfold bind at 1. unfold ret.
          now rewrite !string_app_assoc. }
    destruct Hturn as [face [Hface [Hname Hturn]]]. rewrite Hface, Hturn.
    destruct (informationalFullName face) as [[|p ls]|];
      [exfalso; apply Hname; reflexivity | reflexivity | reflexivity].
  - unfold data_readable in Hd.
    unfold report_font. rewrite (GetFontFaceReference_in_range _ _ _ E). cbn [fst snd].
    unfold bind at 1. rewrite ThrowIfFailed_ok by reflexivity.
    unfold bind at 1. unfold deref at 1, ret at 1. cbv beta iota.
    unfold bind at 1. unfold CreateFontFace, bind at 1.
    rewrite record_call_logged.
    destruct (ref_face r) as [face|] eqn:Hface.
    + destruct (informationalFullName face) as [[|p ls]|] eqn:En; try discriminate.
      unfold ret at 1. cbn [fst snd].
      unfold bind at 1. rewrite ThrowIfFailed_ok by reflexivity.
      unfold bind at 1. unfold deref at 1, ret at 1. cbv beta iota.
      unfold GetInformationalStrings_FULL_NAME. rewrite En. cbn [fst snd].
      unfold bind at 1. rewrite ThrowIfFailed_ok by reflexivity.
      unfold bind at 1. unfold full_name_prefix.
      unfold bind at 1. unfold deref at 1, ret at 1. cbv beta iota.
      unfold bind at 1. rewrite ThrowIfFailed_ok by reflexivity.
      unfold bind at 1.
      change (fst (GetStringLength []
                     (N.to_nat (if snd (FindLocaleName [] "en-US")
                                then snd (fst (FindLocaleName [] "en-US"))
                                else 0%N)))) with E_INVALIDARG.
      now rewrite ThrowIfFailed_throws by reflexivity.
    + unfold ret at 1. cbn [fst snd].
      unfold bind at 1. now rewrite ThrowIfFailed_throws by reflexivity.
Qed.

Lemma nth_error_middle {A} (done rest : list A) (x : A) :
  nth_error (done ++ x :: rest) (List.length done) = Some x.
Proof. rewrite nth_error_app2 by lia. now rewrite Nat.sub_diag. Qed.

(** A run of the first loop over the entries [rest] that follow [done]: it
    records download requests for an initial stretch of them and returns
    exactly when all of them accept the request. *)
Lemma enqueue_loop_run (fs : IDWriteFontSet) : forall rest done w,
  fs = done ++ rest ->
  exists k,
    k <= List.length rest /\
    world (for_loop (List.length rest) (List.length done) (enqueue_download fs) tt w) =
      logged_all (map call_EnqueueFontDownloadRequest (seq (List.length done) k)) w /\
    match result (for_loop (List.length rest) (List.length done)
                    (enqueue_download fs) tt w) with
    | Returned _ => forallb accepts_download rest = true
    | Thrown hr => FAILED hr = true /\ forallb accepts_download rest = false
    | NullDereference => False
    end.
Proof.
  induction rest as [|r rest IH]; intros done w Hfs.
  - exists 0. split; [simpl; lia|]. split; reflexivity.
  - cbn [List.length for_loop forallb]. unfold bind.
    rewrite enqueue_download_turn, Hfs, nth_error_middle. rewrite <- Hfs.
    replace (accepts_download r) with (negb (FAILED (ref_enqueue r))) by reflexivity.
    destruct (FAILED (ref_enqueue r)) eqn:E; cbn [negb andb].
    + exists 1. unfold result, world. cbn [fst snd seq map logged_all].
      split; [lia|]. split; [reflexivity|]. split; [exact E | reflexivity].
    + destruct (IH (done ++ [r]) (logged (call_EnqueueFontDownloadRequest (List.length done)) w))
        as [k [Hk [Hw Hr]]].
      { now rewrite <- app_assoc. }
      rewrite length_app in Hw, Hr. cbn [List.length] in Hw, Hr.
      rewrite Nat.add_1_r in Hw, Hr.
      exists (S k). split; [lia|]. split; [exact Hw | exact Hr].
Qed.

(** A run of the second loop, likewise: font faces are created for an
    initial stretch of the entries, and it returns exactly when the data of
    all of them can be read. *)
Lemma report_loop_run (fs : IDWriteFontSet) : forall rest done w resultVector,
  fs = done ++ rest ->
  exists k,
    k <= List.length rest /\
    world (for_loop (List.length rest) (List.length done) (report_font fs)
             resultVector w) =
      logged_all (map call_CreateFontFace (seq (List.length done) k)) w /\
    match result (for_loop (List.length rest) (List.length done) (report_font fs)
                    resultVector w) with
    | Returned _ => forallb data_readable rest = true
    | Thrown hr => FAILED hr = true /\ forallb data_readable rest = false
    | NullDereference => False
    end.
Proof.
  induction rest as [|r rest IH]; intros done w resultVector Hfs.
  - exists 0. split; [simpl; lia|]. split; reflexivity.
  - cbn [List.length for_loop forallb]. unfold bind.
    rewrite report_font_turn, Hfs, nth_error_middle. rewrite <- Hfs.
    replace (data_readable r)
      with (match ref_face r with
            | Some face => match informationalFullName face with
                           | Some [] => false
                           | _ => true
                           end
            | None => false
            end) by reflexivity.
    destruct (ref_face r) as [face|].
    + destruct (informationalFullName face) as [[|p ls]|]; cbn [andb].
      * exists 1. unfold result, world. cbn [fst snd seq map logged_all].
        split; [lia|]. split; [reflexivity|]. split; reflexivity.
      * destruct (IH (done ++ [r]) (logged (call_CreateFontFace (List.length done)) w)
                    (resultVector ++ [report_line (List.length done) face]))
          as [k [Hk [Hw Hr]]].
        { now rewrite <- app_assoc. }
        rewrite length_app in Hw, Hr. cbn [List.length] in Hw, Hr.
        rewrite Nat.add_1_r in Hw, Hr.
        exists (S k). split; [lia|]. split; [exact Hw | exact Hr].
      * destruct (IH (done ++ [r]) (logged (call_CreateFontFace (List.length done)) w)
                    (resultVector ++ [report_line (List.length done) face]))
          as [k [Hk [Hw Hr]]].
        { now rewrite <- app_assoc. }
        rewrite length_app in Hw, Hr. cbn [List.length] in Hw, Hr.
        rewrite Nat.add_1_r in Hw, Hr.
        exists (S k). split; [lia|]. split; [exact Hw | exact Hr].
    + exists 1. unfold result, world. cbn [fst snd seq map logged_all andb].
      split; [lia|]. split; [reflexivity|]. split; reflexivity.
Qed.

Lemma forallb_readable (fs : IDWriteFontSet) :
  forallb readable fs = forallb accepts_download fs && forallb data_readable fs.
Proof.
  induction fs as [|r fs IH]; [reflexivity|].
  cbn [forallb]. rewrite IH, readable_split.
  destruct (accepts_download r), (data_readable r), (forallb accepts_download fs);
    reflexivity.
Qed.

(** [GetFontDataDetails] on a manager that has a font set: the two loops. *)
Lemma GetFontDataDetails_loops cancellationHandle w fs :
  m_customFontSet (this w) = Some fs ->
  GetFontDataDetails cancellationHandle w =
  match for_loop (List.length fs) 0 (enqueue_download fs) tt w with
  | (Returned _, w1) => for_loop (List.length fs) 0 (report_font fs) [] w1
  | (Thrown hr, w1) => (Thrown hr, w1)
  | (NullDereference, w1) => (NullDereference, w1)
  end.
Proof.
  intros Hfs. unfold GetFontDataDetails.
  unfold bind at 1. unfold get_this at 1. cbv beta iota.
  unfold bind at 1. rewrite Hfs. unfold deref at 1, ret at 1. cbv beta iota.
  reflexivity.
Qed.

Lemma created_faces_app cs1 cs2 :
  created_faces (cs1 ++ cs2) = created_faces cs1 ++ created_faces cs2.
Proof.
  induction cs1 as [|c cs1 IH]; [reflexivity|].
  destruct c; simpl; rewrite IH; reflexivity.
Qed.

Lemma created_faces_enqueue l :
  created_faces (map call_EnqueueFontDownloadRequest l) = [].
Proof. induction l as [|i l IH]; [reflexivity | exact IH]. Qed.

(** How [GetFontDataDetails] ends on a manager that has a font set, and what
    it leaves alone. *)
Lemma GetFontDataDetails_run cancellationHandle w fs :
  m_customFontSet (this w) = Some fs ->
  match result (GetFontDataDetails cancellationHandle w) with
  | Returned _ => forallb readable fs = true
  | Thrown hr => FAILED hr = true
  | NullDereference => False
  end /\
  this (world (GetFontDataDetails cancellationHandle w)) = this w /\
  registeredLoaders (dwrite (world (GetFontDataDetails cancellationHandle w)))
  = registeredLoaders (dwrite w).
Proof.
  intros Hfs.
  rewrite (GetFontDataDetails_loops _ _ _ Hfs).
  destruct (enqueue_loop_run fs fs [] w eq_refl) as [k1 [_ [Hw1 Hr1]]].
  cbn [List.length] in Hw1, Hr1. unfold result, world in Hw1, Hr1.
  destruct (for_loop (List.length fs) 0 (enqueue_download fs) tt w) as [o1 w1].
  cbn [fst snd] in Hw1, Hr1. subst w1.
  destruct o1 as [[]|hr|]; unfold result, world; cbn [fst snd].
  - destruct (report_loop_run fs fs []
                (logged_all (map call_EnqueueFontDownloadRequest (seq 0 k1)) w) []
                eq_refl) as [k2 [_ [Hw2 Hr2]]].
    cbn [List.length] in Hw2, Hr2. unfold result, world in Hw2, Hr2.
    destruct (for_loop (List.length fs) 0 (report_font fs) []
                (logged_all (map call_EnqueueFontDownloadRequest (seq 0 k1)) w))
      as [o2 w2].
    cbn [fst snd] in Hw2, Hr2 |- *. subst w2.
    rewrite !this_logged_all, !registered_logged_all.
    split; [|split; reflexivity].
    destruct o2 as [lines|hr|]; [|tauto|exact Hr2].
    now rewrite forallb_readable, Hr1, Hr2.
  - rewrite this_logged_all, registered_logged_all. tauto.
  - contradiction.
Qed.

Lemma GetFontDataDetails_readable cancellationHandle w fs :
  m_customFontSet (this w) = Some fs ->
  forallb readable fs = true ->
  result (GetFontDataDetails cancellationHandle w) = Returned (report_lines 0 fs).
Proof.
  intros Hfs Hall. rewrite (GetFontDataDetails_loops _ _ _ Hfs).
  rewrite (enqueue_loop fs Hall) by reflexivity.
  now rewrite (report_loop fs Hall) by reflexivity.
Qed.

(** X7: on a manager that has a font set, [GetFontDataDetails] returns
    exactly when every entry accepts its download request and has data that
    can be read; it then returns the report lines of all entries.  Otherwise
    it throws a failure code: no partial list comes back and no null pointer
    is touched.  Either way the manager's members and the registered loaders
    are as before. *)
Theorem GetFontDataDetails_returns_iff cancellationHandle w fs :
  m_customFontSet (this w) = Some fs ->
  (forall lines,
     result (GetFontDataDetails cancellationHandle w) = Returned lines <->
     forallb readable fs = true /\ lines = report_lines 0 fs) /\
  (forallb readable fs = false ->
   exists hr, result (GetFontDataDetails cancellationHandle w) = Thrown hr /\
              FAILED hr = true) /\
  this (world (GetFontDataDetails cancellationHandle w)) = this w /\
  registeredLoaders (dwrite (world (GetFontDataDetails cancellationHandle w))) =
    registeredLoaders (dwrite w).
Proof.
  intros Hfs.
  pose proof (GetFontDataDetails_readable cancellationHandle w fs Hfs) as Hall.
  destruct (GetFontDataDetails_run cancellationHandle w fs Hfs) as [Hout [Hthis Hreg]].
  split; [|split; [|split; assumption]].
  - intros lines. split.
    + intros E. rewrite E in Hout. split; [exact Hout|].
      rewrite (Hall Hout) in E. now inversion E.
    + intros [Hr ->]. now apply Hall.
  - intros Hnot.
    destruct (result (GetFontDataDetails cancellationHandle w)) as [lines|hr|].
    + congruence.
    + exists hr. auto.
    + contradiction.
Qed.

(** The hypothesis holds for the set the sample builds. *)
Lemma GetFontDataDetails_returns_iff_witness :
  (forall lines,
     result (GetFontDataDetails null_handle Scenario.built) = Returned lines <->
     forallb readable (entries_of Scenario.env (source_files Scenario.env)) = true /\
     lines = report_lines 0 (entries_of Scenario.env (source_files Scenario.env))) /\
  (forallb readable (entries_of Scenario.env (source_files Scenario.env)) = false ->
   exists hr, result (GetFontDataDetails null_handle Scenario.built) = Thrown hr /\
              FAILED hr = true) /\
  this (world (GetFontDataDetails null_handle Scenario.built)) = this Scenario.built /\
  registeredLoaders (dwrite (world (GetFontDataDetails null_handle Scenario.built))) =
    registeredLoaders (dwrite Scenario.built).
Proof.
  apply (GetFontDataDetails_returns_iff null_handle Scenario.built
           (entries_of Scenario.env (source_files Scenario.env))).
  reflexivity.
Defined.

(** X8: when some entry of the font set refuses its download request,
    [GetFontDataDetails] throws out of its first loop: no font face is
    created, for any entry. *)
Theorem refused_download_creates_no_face cancellationHandle w fs r :
  m_customFontSet (this w) = Some fs ->
  In r fs ->
  FAILED (ref_enqueue r) = true ->
  (exists hr, result (GetFontDataDetails cancellationHandle w) = Thrown hr) /\
  created_faces (calls (dwrite (world (GetFontDataDetails cancellationHandle w)))) =
    created_faces (calls (dwrite w)).
Proof.
  intros Hfs Hin Hr.
  assert (Hnot : forallb accepts_download fs = false).
  { destruct (forallb accepts_download fs) eqn:E; [|reflexivity].
    rewrite forallb_forall in E. specialize (E r Hin).
    unfold accepts_download in E. rewrite Hr in E. discriminate. }
  rewrite (GetFontDataDetails_loops _ _ _ Hfs).
  destruct (enqueue_loop_run fs fs [] w eq_refl) as [k1 [_ [Hw1 Hr1]]].
  cbn [List.length] in Hw1, Hr1. unfold result, world in Hw1, Hr1.
  destruct (for_loop (List.length fs) 0 (enqueue_download fs) tt w) as [o1 w1].
  cbn [fst snd] in Hw1, Hr1. subst w1.
  destruct o1 as [[]|hr|]; [congruence | | contradiction].
  unfold result, world. cbn [fst snd]. split; [eauto|].
  now rewrite calls_logged_all, created_faces_app, created_faces_enqueue, app_nil_r.
Qed.

(** The hypotheses hold for a set whose second entry refuses the request. *)
Lemma refused_download_creates_no_face_witness :
  (exists hr,
     result (GetFontDataDetails null_handle
               (Scenario.set_of [in_memory_reference Scenario.face_A;
                                 Runs.refusing_reference])) = Thrown hr) /\
  created_faces
    (calls (dwrite (world (GetFontDataDetails null_handle
                             (Scenario.set_of [in_memory_reference Scenario.face_A;
                                               Runs.refusing_reference]))))) =
    created_faces
      (calls (dwrite (Scenario.set_of [in_memory_reference Scenario.face_A;
                                       Runs.refusing_reference]))).
Proof.
  apply (refused_download_creates_no_face null_handle
           (Scenario.set_of [in_memory_reference Scenario.face_A; Runs.refusing_reference])
           [in_memory_reference Scenario.face_A; Runs.refusing_reference]
           Runs.refusing_reference).
  - reflexivity.
  - right. left. reflexivity.
  - reflexivity.
Defined.

(** * The driver *)

Lemma write_rows_run lines : forall con w,
  write_rows lines {| console := con; manager_world := w |} =
  (Returned tt, {| console := con ++ rows lines; manager_world := w |}).
Proof.
  induction lines as [|line lines IH]; intros con w.
  - simpl. unfold dret. now rewrite app_nil_r.
  - cbn [write_rows]. unfold dbind, write. cbn [console manager_world].
    rewrite IH. unfold rows. cbn [map]. now rewrite <- app_assoc.
Qed.

Lemma flushed_app es1 es2 : flushed (es1 ++ es2) = flushed es1 ++ flushed es2.
Proof.
  induction es1 as [|e es1 IH]; [reflexivity|].
  destruct e; simpl; rewrite IH; reflexivity.
Qed.

Lemma flushed_rows lines : flushed (rows lines) = [].
Proof. induction lines as [|line lines IH]; [reflexivity | exact IH]. Qed.

(** [GetFullFontNames] on a manager that has a font set. *)
Lemma GetFullFontNames_built w fs :
  m_customFontSet (this w) = Some fs ->
  GetFullFontNames w = (Returned (full_names fs), w).
Proof.
  intros Hfs. unfold GetFullFontNames, GetPropertyValuesFromFontSet.
  unfold bind at 1. unfold bind at 1. unfold get_this at 1. cbv beta iota.
  unfold bind at 1. rewrite Hfs. unfold deref at 1, ret at 1. cbv beta iota.
  unfold IDWriteFontSet_GetPropertyValues. cbn [fst snd].
  unfold bind at 1. rewrite ThrowIfFailed_ok by reflexivity.
  unfold deref, ret, GetCount, full_names.
  exact (push_full_names _ w _ [] [] eq_refl).
Qed.

Lemma GetFontCount_positive m :
  (0 <? GetFontCount m)%Z = true <->
  exists r fs, m_customFontSet m = Some (r :: fs).
Proof.
  unfold GetFontCount, IDWriteFontSet_GetFontCount.
  destruct (m_customFontSet m) as [[|r fs]|]; simpl; split; intros H;
    try discriminate; try (destruct H as (? & ? & H); discriminate); eauto.
Qed.

(** [ReportFontProperties], in full. *)
Lemma ReportFontProperties_run con w :
  ReportFontProperties {| console := con; manager_world := w |} =
  (Returned tt,
   {| console :=
        con ++ wcout (text_count (GetFontCount (this w)))
            :: match m_customFontSet (this w) with
               | Some (r :: fs) =>
                   wcout text_names :: rows (full_names (r :: fs)) ++ [wcout nl]
               | _ => []
               end;
      manager_world := w |}).
Proof.
  unfold ReportFontProperties, dbind, fontCount, call, write, bind, get_this, ret.
  cbn [fst snd console manager_world].
  fold (text_count (GetFontCount (this w))). fold text_names.
  destruct (m_customFontSet (this w)) as [[|r fs]|] eqn:Hfs.
  - unfold GetFontCount at 1. rewrite Hfs. reflexivity.
  - replace (0 <? GetFontCount (this w))%Z with true
      by (symmetry; apply GetFontCount_positive; eauto).
    cbv beta iota. cbn [fst snd console manager_world].
    rewrite (GetFullFontNames_built w _ Hfs). cbn [fst snd].
    rewrite write_rows_run. cbn [console manager_world].
    rewrite <- !app_assoc. reflexivity.
  - unfold GetFontCount at 1. rewrite Hfs. reflexivity.
Qed.

(** [ReportFontDataDetails], in full. *)
Lemma ReportFontDataDetails_run stdin con w :
  ReportFontDataDetails stdin {| console := con; manager_world := w |} =
  match m_customFontSet (this w) with
  | Some (r :: fs) =>
      if existsb is_remote (r :: fs)
      then
        match stdin with
        | INVALID_HANDLE_VALUE =>
            (Returned tt,
             {| console := con ++ [wcout text_details; wcout text_remote;
                                   wcout text_skipping];
                manager_world := w |})
        | std_handle inputHandle =>
            print_details
              (con ++ [wcout text_details; wcout text_remote; wcout text_fetching;
                       flushed_input inputHandle])
              (GetFontDataDetails inputHandle w)
        end
      else print_details (con ++ [wcout text_details]) (GetFontDataDetails null_handle w)
  | _ => (Returned tt, {| console := con; manager_world := w |})
  end.
Proof.
  unfold ReportFontDataDetails.
  unfold dbind at 1. unfold fontCount, call, bind, get_this, ret.
  cbn [fst snd console manager_world].
  destruct (m_customFontSet (this w)) as [[|r fs]|] eqn:Hfs.
  - unfold GetFontCount. rewrite Hfs. reflexivity.
  - replace (0 <? GetFontCount (this w))%Z with true
      by (symmetry; apply GetFontCount_positive; eauto).
    unfold dbind at 1. unfold write at 1. cbn [console manager_world].
    fold text_details.
    unfold dbind at 1. unfold choose_input_handle.
    unfold dbind at 1. unfold call at 1. cbn [console manager_world].
    rewrite (CustomFontSetHasRemoteFonts_built w _ Hfs). cbn [fst snd].
    destruct (existsb is_remote (r :: fs)).
    + unfold dbind at 1. unfold write at 1. cbn [console manager_world].
      fold text_remote.
      destruct stdin as [|inputHandle].
      * unfold dbind at 1. unfold write at 1. cbn [console manager_world].
        fold text_skipping. unfold dret.
        rewrite <- !app_assoc. reflexivity.
      * unfold dbind at 1. unfold write at 1. cbn [console manager_world].
        fold text_fetching.
        unfold dbind at 1. unfold FlushConsoleInputBuffer at 1.
        cbn [console manager_world]. unfold dret at 1.
        unfold dbind, call. cbn [console manager_world].
        rewrite <- !app_assoc. cbn [app].
        destruct (GetFontDataDetails inputHandle w) as [[lines|hr|] w']; cbn [fst snd];
          [now rewrite write_rows_run | reflexivity | reflexivity].
    + unfold dret at 1.
      unfold dbind, call. cbn [console manager_world].
      destruct (GetFontDataDetails null_handle w) as [[lines|hr|] w']; cbn [fst snd];
        [now rewrite write_rows_run | reflexivity | reflexivity].
  - unfold GetFontCount. rewrite Hfs. reflexivity.
Qed.

(** A build that returned has registered the loader the manager now holds. *)
Lemma build_Returned_registered env w :
  result (CreateFontSetUsingInMemoryFontData env w) = Returned tt ->
  m_dwriteFactory3 (this (world (CreateFontSetUsingInMemoryFontData env w))) =
    m_dwriteFactory3 (this w) /\
  m_inMemoryFontFileLoader (this (world (CreateFontSetUsingInMemoryFontData env w))) =
    Some (new_loader (dwrite w)) /\
  registeredLoaders (dwrite (world (CreateFontSetUsingInMemoryFontData env w))) =
    new_loader (dwrite w) :: registeredLoaders (dwrite w).
Proof.
  intros E. destruct (m_dwriteFactory5 (this w)) eqn:H5.
  2:{ rewrite (build_without_factory5 env w H5) in E. discriminate. }
  destruct (build_members env w H5) as (H3 & _ & Hl & Hreg & _).
  assert (HLR : FAILED (hr_CreateInMemoryFontFileLoader env) = false /\
                FAILED (hr_RegisterFontFileLoader env) = false).
  { rewrite (build_steps env w H5) in E. cbv zeta in E.
    destruct (FAILED (hr_CreateInMemoryFontFileLoader env)); [discriminate|].
    destruct (FAILED (hr_RegisterFontFileLoader env)); [discriminate|]. auto. }
  destruct HLR as [HL HR]. rewrite HL in Hl. rewrite HL, HR in Hreg.
  split; [exact H3|]. split; [exact Hl | exact Hreg].
Qed.

(** The destructor of a manager that holds a loader registered on top of the
    loaders [registered] brings the factory back to [registered]. *)
Lemma dtor_restores w l registered :
  m_dwriteFactory3 (this w) = true ->
  m_inMemoryFontFileLoader (this w) = Some l ->
  registeredLoaders (dwrite w) = l :: registered ->
  ~ In l registered ->
  result (CustomFontSetManager_dtor w) = Returned tt /\
  registeredLoaders (dwrite (world (CustomFontSetManager_dtor w))) = registered.
Proof.
  intros H3 Hl Hreg Hfresh.
  rewrite (dtor_with_loader w l H3 Hl). unfold result, world.
  cbn [fst snd dwrite registeredLoaders]. split; [reflexivity|].
  rewrite Hreg. rewrite existsb_eqb_true by (left; reflexivity).
  now apply remove_new.
Qed.

Lemma call_run {A} (m : M A) con w :
  call m {| console := con; manager_world := w |} =
  (fst (m w), {| console := con; manager_world := snd (m w) |}).
Proof. reflexivity. Qed.

(** The [switch] of [wmain] and the reports after it, run on the manager the
    constructor has left. *)
Lemma wmain_scenario_run run con w1 :
  m_dwriteFactory3 (this w1) = true ->
  m_inMemoryFontFileLoader (this w1) = None ->
  clean (fst (wmain_scenario run {| console := con; manager_world := w1 |})) /\
  flushed (console (snd (wmain_scenario run {| console := con; manager_world := w1 |})))
    = flushed con /\
  (forall c,
     fst (wmain_scenario run {| console := con; manager_world := w1 |}) = Returned c ->
     result (CustomFontSetManager_dtor
               (manager_world (snd (wmain_scenario run
                                      {| console := con; manager_world := w1 |}))))
       = Returned tt /\
     registeredLoaders
       (dwrite (world (CustomFontSetManager_dtor
                         (manager_world (snd (wmain_scenario run
                                                {| console := con;
                                                   manager_world := w1 |}))))))
       = registeredLoaders (dwrite w1) /\
     ((c = 0%Z /\ GetScenario run = InMemoryFonts /\
       m_dwriteFactory5 (this w1) = true /\
       result (CreateFontSetUsingInMemoryFontData (build_env run) w1) = Returned tt) \/
      (c = (-1)%Z /\
       manager_world (snd (wmain_scenario run {| console := con; manager_world := w1 |}))
         = w1 /\
       (GetScenario run <> InMemoryFonts \/ m_dwriteFactory5 (this w1) = false)))).
Proof.
  intros H3 Hl.
  assert (Hdtor1 : result (CustomFontSetManager_dtor w1) = Returned tt /\
                   registeredLoaders (dwrite (world (CustomFontSetManager_dtor w1)))
                   = registeredLoaders (dwrite w1)).
  { now rewrite (dtor_without_loader w1 Hl). }
  destruct (wmain_scenario run {| console := con; manager_world := w1 |}) as [o p] eqn:E.
  cbn [fst snd]. unfold wmain_scenario in E.
  destruct (GetScenario run) as [|n] eqn:Hs.
  2:{ unfold dbind, write, dret in E. cbn [fst snd console manager_world] in E.
      inversion E; subst o p. cbn [console manager_world].
      split; [exact I|]. split; [now rewrite flushed_app, app_nil_r|].
      intros c Ec. inversion Ec; subst c.
      split; [apply Hdtor1|]. split; [apply Hdtor1|].
      right. split; [reflexivity|]. split; [reflexivity|]. left. discriminate. }
  unfold dbind at 1 in E. unfold write at 1 in E. cbn [console manager_world] in E.
  unfold dbind at 1 in E. rewrite call_run in E. unfold get_this at 1 2 in E.
  cbn [fst snd] in E. unfold IDWriteFactory5_IsAvailable in E.
  destruct (m_dwriteFactory5 (this w1)) eqn:H5; cbn [negb] in E.
  2:{ unfold dbind, write, dret in E. cbn [fst snd console manager_world] in E.
      inversion E; subst o p. cbn [console manager_world].
      split; [exact I|]. split; [now rewrite !flushed_app, !app_nil_r|].
      intros c Ec. inversion Ec; subst c.
      split; [apply Hdtor1|]. split; [apply Hdtor1|].
      right. split; [reflexivity|]. split; [reflexivity|]. right. reflexivity. }
  unfold dbind at 1 in E. rewrite call_run in E.
  pose proof (build_outcome (build_env run) w1 H5) as Hclean.
  pose proof (build_Returned_registered (build_env run) w1) as Hregd.
  pose proof (build_Returned_font_set (build_env run) w1) as Hset.
  unfold result, world in Hclean, Hregd, Hset.
  destruct (CreateFontSetUsingInMemoryFontData (build_env run) w1) as [[[]|hr|] w2];
    cbn [fst snd] in Hclean, Hregd, Hset, E.
  - (* the build returned *)
    destruct (Hregd eq_refl) as (H3' & Hl' & Hreg'). specialize (Hset eq_refl).
    rewrite H3 in H3'.
    assert (Hdtor2 : forall w3, this w3 = this w2 ->
              registeredLoaders (dwrite w3) = registeredLoaders (dwrite w2) ->
              result (CustomFontSetManager_dtor w3) = Returned tt /\
              registeredLoaders (dwrite (world (CustomFontSetManager_dtor w3)))
              = registeredLoaders (dwrite w1)).
    { intros w3 Hthis Hsame.
      apply (dtor_restores w3 (new_loader (dwrite w1))).
      - now rewrite Hthis.
      - now rewrite Hthis.
      - now rewrite Hsame.
      - apply new_loader_fresh. }
    unfold dbind at 1 in E. rewrite ReportFontProperties_run in E.
    unfold dbind at 1 in E. rewrite ReportFontDataDetails_run in E. rewrite Hset in E.
    match type of E with
    | context [{| console := ?c; manager_world := w2 |}] => set (con2 := c) in E
    end.
    assert (Hcon2 : flushed con2 = flushed con).
    { unfold con2. rewrite !flushed_app. cbn [flushed].
      destruct (entries_of (build_env run) (source_files (build_env run))) as [|r fs];
        [now rewrite !app_nil_r|].
      cbn [flushed]. rewrite flushed_app, flushed_rows. now rewrite !app_nil_r. }
    clearbody con2.
    destruct (entries_of (build_env run) (source_files (build_env run))) as [|r fs] eqn:He.
    + (* no font at all *)
      unfold dret in E. inversion E; subst o p. cbn [console manager_world].
      split; [exact I|]. split; [exact Hcon2|].
      intros c Ec. inversion Ec; subst c.
      destruct (Hdtor2 w2 eq_refl eq_refl) as [Hd1 Hd2].
      split; [exact Hd1|]. split; [exact Hd2|]. left. auto.
    + rewrite <- He, in_memory_entries_local in E.
      destruct (GetFontDataDetails_run null_handle w2 _ Hset) as (Hgc & Hgt & Hgr).
      unfold result, world in Hgc, Hgt, Hgr.
      destruct (GetFontDataDetails null_handle w2) as [[lines|hr|] w3];
        cbn [fst snd print_details] in Hgc, Hgt, Hgr, E.
      * unfold dret in E. inversion E; subst o p. cbn [console manager_world].
        split; [exact I|].
        split; [now rewrite !flushed_app, flushed_rows, Hcon2, !app_nil_r|].
        intros c Ec. inversion Ec; subst c.
        destruct (Hdtor2 w3 Hgt Hgr) as [Hd1 Hd2].
        split; [exact Hd1|]. split; [exact Hd2|]. left. auto.
      * inversion E; subst o p. cbn [console manager_world].
        split; [exact Hgc|].
        split; [now rewrite !flushed_app, Hcon2, !app_nil_r|].
        intros c Ec. discriminate.
      * contradiction.
  - (* the build threw *)
    inversion E; subst o p. cbn [console manager_world].
    split; [exact Hclean|]. split; [now rewrite flushed_app, app_nil_r|].
    intros c Ec. discriminate.
  - contradiction.
Qed.

Lemma ctor_clean hr_create hr_as w0 :
  clean (result (CustomFontSetManager_ctor hr_create hr_as w0)).
Proof.
  unfold CustomFontSetManager_ctor, bind, put_this, ThrowIfFailed, throw, ret, result.
  cbn [fst snd].
  destruct (FAILED hr_create) eqn:Hc; cbn [fst clean]; [exact Hc|].
  destruct (Z.eqb hr_as E_NOINTERFACE); cbn [fst clean]; [exact I|].
  destruct (FAILED hr_as) eqn:Ha; cbn [fst clean]; [exact Ha | exact I].
Qed.

(** The manager the constructor leaves, in the process [wmain] starts in. *)
Lemma ctor_world run d0 :
  result (CustomFontSetManager_ctor (hr_DWriteCreateFactory run) (hr_As_IDWriteFactory5 run)
            {| this := null_members; dwrite := d0 |}) = Returned tt ->
  world (CustomFontSetManager_ctor (hr_DWriteCreateFactory run) (hr_As_IDWriteFactory5 run)
           {| this := null_members; dwrite := d0 |}) =
  {| this := {| m_dwriteFactory3 := true;
                m_dwriteFactory5 := negb (Z.eqb (hr_As_IDWriteFactory5 run) E_NOINTERFACE);
                m_inMemoryFontFileLoader := None;
                m_customFontSet := None |};
     dwrite := d0 |}.
Proof. intros E. now rewrite (ctor_Returned _ _ _ E). Qed.

Lemma constructor_succeeded run d0 :
  result (CustomFontSetManager_ctor (hr_DWriteCreateFactory run) (hr_As_IDWriteFactory5 run)
            {| this := null_members; dwrite := d0 |}) = Returned tt ->
  FAILED (hr_DWriteCreateFactory run) = false /\
  (hr_As_IDWriteFactory5 run = E_NOINTERFACE \/ FAILED (hr_As_IDWriteFactory5 run) = false).
Proof.
  unfold CustomFontSetManager_ctor, bind, put_this, ThrowIfFailed, throw, ret, result.
  cbn [fst snd].
  destruct (FAILED (hr_DWriteCreateFactory run)); cbn [fst]; [discriminate|].
  destruct (Z.eqb (hr_As_IDWriteFactory5 run) E_NOINTERFACE) eqn:He; cbn [fst].
  { apply Z.eqb_eq in He. auto. }
  destruct (FAILED (hr_As_IDWriteFactory5 run)); cbn [fst]; [discriminate | auto].
Qed.

(** A run of [wmain]: how it ends, what it leaves registered, and what its
    exit code tells. *)
Lemma wmain_run run d0 :
  clean (fst (wmain run (process_start d0))) /\
  flushed (console (snd (wmain run (process_start d0)))) = [] /\
  (forall c,
     fst (wmain run (process_start d0)) = Returned c ->
     registeredLoaders (dwrite (manager_world (snd (wmain run (process_start d0)))))
       = registeredLoaders d0 /\
     ((c = 0%Z /\ ProcessArgs run = true /\ GetScenario run = InMemoryFonts /\
       FAILED (hr_DWriteCreateFactory run) = false /\
       FAILED (hr_As_IDWriteFactory5 run) = false /\
       platform_succeeds (build_env run)) \/
      (c = (-1)%Z /\
       calls (dwrite (manager_world (snd (wmain run (process_start d0))))) = calls d0 /\
       m_customFontSet (this (manager_world (snd (wmain run (process_start d0))))) = None /\
       (ProcessArgs run = false \/ GetScenario run <> InMemoryFonts \/
        hr_As_IDWriteFactory5 run = E_NOINTERFACE)))).
Proof.
  destruct (wmain run (process_start d0)) as [o p] eqn:E. cbn [fst snd].
  unfold wmain, process_start in E.
  destruct (ProcessArgs run) eqn:Hargs; cbn [negb] in E.
  2:{ unfold dbind, write, dret in E. cbn [console manager_world app] in E.
      inversion E; subst o p. cbn [console manager_world this dwrite flushed].
      split; [exact I|]. split; [reflexivity|].
      intros c Ec. inversion Ec; subst c. split; [reflexivity|].
      right. split; [reflexivity|]. split; [reflexivity|]. split; [reflexivity|].
      left. reflexivity. }
  unfold dbind at 1 in E. rewrite call_run in E.
  pose proof (ctor_clean (hr_DWriteCreateFactory run) (hr_As_IDWriteFactory5 run)
                {| this := null_members; dwrite := d0 |}) as Hclean.
  pose proof (ctor_world run d0) as Hworld.
  pose proof (constructor_succeeded run d0) as Hhr.
  unfold result, world in Hclean, Hworld, Hhr.
  destruct (CustomFontSetManager_ctor (hr_DWriteCreateFactory run)
              (hr_As_IDWriteFactory5 run) {| this := null_members; dwrite := d0 |})
    as [[[]|hr|] w1]; cbn [fst snd] in Hclean, Hworld, Hhr, E.
  2:{ inversion E; subst o p. cbn [console manager_world flushed].
      split; [exact Hclean|]. split; [reflexivity|]. intros c Ec. discriminate. }
  2:{ contradiction. }
  specialize (Hworld eq_refl). destruct (Hhr eq_refl) as [Hcreate Has]. subst w1.
  set (w1 := {| this := _; dwrite := d0 |}) in E.
  destruct (wmain_scenario_run run [] w1 eq_refl eq_refl) as (Hsc & Hsf & Hsr).
  unfold dbind at 1 in E.
  destruct (wmain_scenario run {| console := []; manager_world := w1 |})
    as [[c'|hr|] p1]; cbn [fst snd] in Hsc, Hsf, Hsr.
  2:{ inversion E; subst o p. split; [exact Hsc|]. split; [exact Hsf|].
      intros c Ec. discriminate. }
  2:{ contradiction. }
  destruct (Hsr c' eq_refl) as (Hd1 & Hd2 & Hcases).
  destruct p1 as [con1 wm1]. cbn [manager_world console] in Hd1, Hd2, Hcases, Hsf.
  unfold dbind at 1 in E. rewrite call_run in E.
  unfold result, world in Hd1, Hd2.
  destruct (CustomFontSetManager_dtor wm1) as [od wd] eqn:Ed.
  cbn [fst snd] in Hd1, Hd2, E. subst od. unfold dret in E.
  inversion E; subst o p. cbn [console manager_world].
  split; [exact I|]. split; [exact Hsf|].
  intros c Ec. inversion Ec; subst c'.
  split; [exact Hd2|].
  destruct Hcases as [(Hc & Hs & H5 & Hb) | (Hc & Hw & Hwhy)].
  - left. split; [exact Hc|]. split; [reflexivity|]. split; [exact Hs|].
    split; [exact Hcreate|].
    apply build_Returned_platform in Hb as [_ Hok].
    split; [|exact Hok].
    destruct Has as [Has|Has]; [|exact Has].
    exfalso. unfold w1 in H5. cbn [this m_dwriteFactory5] in H5.
    rewrite Has, Z.eqb_refl in H5. discriminate.
  - right. split; [exact Hc|]. subst wm1.
    rewrite (dtor_without_loader w1 eq_refl) in Ed. inversion Ed; subst wd.
    split; [reflexivity|]. split; [reflexivity|].
    destruct Hwhy as [Hs|H5]; [right; left; exact Hs|].
    right. right. unfold w1 in H5. cbn [this m_dwriteFactory5] in H5.
    apply negb_false_iff in H5. now apply Z.eqb_eq.
Qed.

(** ** The two reports *)

(** X9: [ReportFontProperties] returns on every manager, built or not,
    without changing it.  It writes the font count, and only when the
    manager has a font set with at least one font does it ask for the full
    names and write the heading, one row for each name and an empty row. *)
Theorem ReportFontProperties_output p :
  fst (ReportFontProperties p) = Returned tt /\
  manager_world (snd (ReportFontProperties p)) = manager_world p /\
  console (snd (ReportFontProperties p)) =
    console p
    ++ wcout (text_count (GetFontCount (this (manager_world p))))
       :: match m_customFontSet (this (manager_world p)) with
          | Some (r :: fs) => wcout text_names :: rows (full_names (r :: fs)) ++ [wcout nl]
          | _ => []
          end.
Proof.
  destruct p as [con w]. rewrite ReportFontProperties_run.
  cbn [fst snd console manager_world]. repeat split.
Qed.

(** X10: [ReportFontDataDetails] never dereferences a null pointer and
    throws failure codes only, whatever the manager and the standard input
    handle; on a manager that has no font set, or an empty one, it returns
    without writing anything and without a call on the manager. *)
Theorem ReportFontDataDetails_guarded stdin p :
  clean (fst (ReportFontDataDetails stdin p)) /\
  (GetFontCount (this (manager_world p)) = 0%Z ->
   fst (ReportFontDataDetails stdin p) = Returned tt /\
   console (snd (ReportFontDataDetails stdin p)) = console p /\
   manager_world (snd (ReportFontDataDetails stdin p)) = manager_world p).
Proof.
  destruct p as [con w]. rewrite ReportFontDataDetails_run.
  cbn [console manager_world].
  destruct (m_customFontSet (this w)) as [[|r fs]|] eqn:Hfs.
  - split; [exact I|]. intros _. repeat split.
  - split.
    + assert (Hd : forall h c, clean (fst (print_details c (GetFontDataDetails h w)))).
      { intros h c.
        destruct (GetFontDataDetails_run h w _ Hfs) as [Hc _]. unfold result in Hc.
        destruct (GetFontDataDetails h w) as [[lines|hr|] w']; cbn [fst] in Hc |- *;
          [exact I | exact Hc | contradiction]. }
      destruct (existsb is_remote (r :: fs)); [|apply Hd].
      destruct stdin as [|h]; [exact I | apply Hd].
    + unfold GetFontCount, IDWriteFontSet_GetFontCount. rewrite Hfs.
      cbn [List.length]. lia.
  - split; [exact I|]. intros _. repeat split.
Qed.

(** The hypothesis holds for the manager the constructor leaves. *)
Lemma ReportFontDataDetails_guarded_witness :
  clean (fst (ReportFontDataDetails INVALID_HANDLE_VALUE
                (Runs.process_of Scenario.constructed))) /\
  fst (ReportFontDataDetails INVALID_HANDLE_VALUE (Runs.process_of Scenario.constructed))
    = Returned tt /\
  console (snd (ReportFontDataDetails INVALID_HANDLE_VALUE
                  (Runs.process_of Scenario.constructed)))
    = console (Runs.process_of Scenario.constructed) /\
  manager_world (snd (ReportFontDataDetails INVALID_HANDLE_VALUE
                        (Runs.process_of Scenario.constructed)))
    = manager_world (Runs.process_of Scenario.constructed).
Proof.
  destruct (ReportFontDataDetails_guarded INVALID_HANDLE_VALUE
              (Runs.process_of Scenario.constructed)) as [Hclean Hzero].
  split; [exact Hclean | apply Hzero; reflexivity].
Defined.

(** X11: [ReportFontDataDetails] and the standard input.  It flushes the
    console input exactly when the font set has an entry that is not local
    and the handle of the standard input is valid, and then that one handle.
    With such an entry and an invalid handle it says it is skipping and
    returns without a single call on the platform. *)
Theorem ReportFontDataDetails_standard_input stdin p fs :
  m_customFontSet (this (manager_world p)) = Some fs ->
  flushed (console (snd (ReportFontDataDetails stdin p))) =
    flushed (console p)
    ++ (if existsb is_remote fs
        then match stdin with
             | std_handle inputHandle => [inputHandle]
             | INVALID_HANDLE_VALUE => []
             end
        else []) /\
  (existsb is_remote fs = true -> stdin = INVALID_HANDLE_VALUE ->
   fst (ReportFontDataDetails stdin p) = Returned tt /\
   manager_world (snd (ReportFontDataDetails stdin p)) = manager_world p /\
   console (snd (ReportFontDataDetails stdin p)) =
     console p ++ [wcout text_details; wcout text_remote; wcout text_skipping]).
Proof.
  destruct p as [con w]. cbn [console manager_world]. intros Hfs.
  rewrite ReportFontDataDetails_run, Hfs.
  assert (Hd : forall h c,
            flushed (console (snd (print_details c (GetFontDataDetails h w))))
            = flushed c).
  { intros h c.
    destruct (GetFontDataDetails h w) as [[lines|hr|] w']; cbn [snd print_details console];
      [now rewrite flushed_app, flushed_rows, app_nil_r | reflexivity | reflexivity]. }
  destruct fs as [|r fs].
  - cbn [existsb console snd]. split; [now rewrite app_nil_r | discriminate].
  - destruct (existsb is_remote (r :: fs)).
    + destruct stdin as [|h].
      * cbn [fst snd console manager_world].
        split; [rewrite flushed_app; reflexivity|]. intros _ _. repeat split.
      * split; [|discriminate]. rewrite Hd, flushed_app. reflexivity.
    + split; [|discriminate]. rewrite Hd, flushed_app. reflexivity.
Qed.

(** The hypotheses hold for a set with a remote font and no standard input. *)
Lemma ReportFontDataDetails_standard_input_witness :
  flushed (console (snd (ReportFontDataDetails INVALID_HANDLE_VALUE
                           (Runs.process_of (Scenario.set_of [Scenario.remote_reference])))))
    = [] /\
  fst (ReportFontDataDetails INVALID_HANDLE_VALUE
         (Runs.process_of (Scenario.set_of [Scenario.remote_reference]))) = Returned tt /\
  manager_world (snd (ReportFontDataDetails INVALID_HANDLE_VALUE
                        (Runs.process_of (Scenario.set_of [Scenario.remote_reference]))))
    = Scenario.set_of [Scenario.remote_reference] /\
  console (snd (ReportFontDataDetails INVALID_HANDLE_VALUE
                  (Runs.process_of (Scenario.set_of [Scenario.remote_reference]))))
    = [wcout text_details; wcout text_remote; wcout text_skipping].
Proof.
  destruct (ReportFontDataDetails_standard_input INVALID_HANDLE_VALUE
              (Runs.process_of (Scenario.set_of [Scenario.remote_reference]))
              [Scenario.remote_reference] eq_refl) as [Hflushed Hskip].
  split; [exact Hflushed | apply Hskip; reflexivity].
Defined.

(** ** The program *)

(** X12: [wmain] never dereferences a null pointer: every query it makes
    on the manager is behind a guard that suffices.  What it throws is a
    failure code, and when it returns its exit code is 0 or -1.  Exit code 0
    means the command line was accepted, the scenario is the in-memory one,
    the factory and [IDWriteFactory5] were obtained and every platform call of
    the build succeeded; exit code -1 means the program stopped before any
    call on the factory and built no font set. *)
Theorem wmain_outcome run d0 :
  clean (fst (wmain run (process_start d0))) /\
  (forall c,
     fst (wmain run (process_start d0)) = Returned c ->
     (c = 0%Z /\ ProcessArgs run = true /\ GetScenario run = InMemoryFonts /\
      FAILED (hr_DWriteCreateFactory run) = false /\
      FAILED (hr_As_IDWriteFactory5 run) = false /\
      platform_succeeds (build_env run)) \/
     (c = (-1)%Z /\
      calls (dwrite (manager_world (snd (wmain run (process_start d0))))) = calls d0 /\
      m_customFontSet (this (manager_world (snd (wmain run (process_start d0))))) = None /\
      (ProcessArgs run = false \/ GetScenario run <> InMemoryFonts \/
       hr_As_IDWriteFactory5 run = E_NOINTERFACE))).
Proof.
  destruct (wmain_run run d0) as (Hclean & _ & Hret).
  split; [exact Hclean|]. intros c E. exact (proj2 (Hret c E)).
Qed.

(** X13: whenever [wmain] returns, with either exit code, the loaders
    registered with the factory are those registered when it started: the
    manager's destructor has released the loader of the build. *)
Theorem wmain_releases_loader run d0 c :
  fst (wmain run (process_start d0)) = Returned c ->
  registeredLoaders (dwrite (manager_world (snd (wmain run (process_start d0))))) =
  registeredLoaders d0.
Proof.
  intros E. destruct (wmain_run run d0) as (_ & _ & Hret). exact (proj1 (Hret c E)).
Qed.

(** The hypothesis holds for the sample's run. *)
Lemma wmain_releases_loader_witness :
  registeredLoaders
    (dwrite (manager_world (snd (wmain Runs.in_memory (process_start Scenario.no_calls))))) =
  registeredLoaders Scenario.no_calls.
Proof.
  apply (wmain_releases_loader Runs.in_memory Scenario.no_calls 0%Z). reflexivity.
Defined.

(** X14: [wmain] never flushes the console input, whatever the standard
    input handle is: the font set it builds from memory has local entries
    only, so the branch of [ReportFontDataDetails] for remote fonts is not
    taken. *)
Theorem wmain_never_flushes_input run d0 :
  flushed (console (snd (wmain run (process_start d0)))) = [].
Proof.
  destruct (wmain_run run d0) as (_ & Hflushed & _). exact Hflushed.
Qed.

Lemma ctor_run hr_create hr_as w0 :
  FAILED hr_create = false -> FAILED hr_as = false ->
  CustomFontSetManager_ctor hr_create hr_as w0 =
  (Returned tt,
   {| this := {| m_dwriteFactory3 := true;
                 m_dwriteFactory5 := true;
                 m_inMemoryFontFileLoader := None;
                 m_customFontSet := None |};
      dwrite := dwrite w0 |}).
Proof.
  intros Hc Ha.
  assert (He : Z.eqb hr_as E_NOINTERFACE = false).
  { apply Z.eqb_neq. intros ->. discriminate. }
  unfold CustomFontSetManager_ctor, bind, put_this, ThrowIfFailed, throw, ret.
  cbn [fst snd this dwrite]. rewrite Hc. cbn [fst snd]. rewrite He, Ha. reflexivity.
Qed.

Lemma dtor_returns w :
  m_dwriteFactory3 (this w) = true ->
  result (CustomFontSetManager_dtor w) = Returned tt.
Proof.
  intros H3. destruct (m_inMemoryFontFileLoader (this w)) as [l|] eqn:Hl.
  - now rewrite (dtor_with_loader w l H3 Hl).
  - now rewrite (dtor_without_loader w Hl).
Qed.

(** X15: the run that succeeds.  When the command line is accepted and asks
    for the in-memory scenario, the factory and [IDWriteFactory5] are
    obtained, every platform call of the build succeeds and the data of every
    font can be read, [wmain] returns 0, and what it has written is: the
    scenario, the number of fonts, and, unless there is no font, the heading
    and the full names, an empty row, the heading of the details and one
    detail row for each font. *)
Theorem wmain_success run d0 :
  ProcessArgs run = true ->
  GetScenario run = InMemoryFonts ->
  FAILED (hr_DWriteCreateFactory run) = false ->
  FAILED (hr_As_IDWriteFactory5 run) = false ->
  platform_succeeds (build_env run) ->
  forallb readable (entries_of (build_env run) (source_files (build_env run))) = true ->
  fst (wmain run (process_start d0)) = Returned 0%Z /\
  console (snd (wmain run (process_start d0))) =
    wcout text_scenario
    :: wcout (text_count
                (Z.of_nat (List.length
                             (entries_of (build_env run) (source_files (build_env run))))))
    :: match entries_of (build_env run) (source_files (build_env run)) with
       | [] => []
       | r :: fs =>
           wcout text_names
           :: rows (full_names (r :: fs))
           ++ wcout nl :: wcout text_details :: rows (report_lines 0 (r :: fs))
       end.
Proof.
  intros Hargs Hs Hc Ha Hok Hread.
  destruct (wmain run (process_start d0)) as [o p] eqn:E. cbn [fst snd].
  unfold wmain, process_start in E. rewrite Hargs in E. cbn [negb] in E.
  unfold dbind at 1 in E. rewrite call_run, (ctor_run _ _ _ Hc Ha) in E.
  cbn [fst snd dwrite] in E.
  set (w1 := {| this := _; dwrite := d0 |}) in E.
  unfold dbind at 1 in E. unfold wmain_scenario in E. rewrite Hs in E.
  unfold dbind at 1 in E. unfold write at 1 in E. cbn [console manager_world app] in E.
  fold text_scenario in E.
  unfold dbind at 1 in E. rewrite call_run in E. unfold get_this at 1 2 in E.
  cbn [fst snd] in E.
  change (IDWriteFactory5_IsAvailable (this w1)) with true in E. cbn [negb] in E.
  unfold dbind at 1 in E. rewrite call_run in E.
  pose proof (build_succeeds (build_env run) w1 eq_refl Hok) as Hb.
  pose proof (build_Returned_font_set (build_env run) w1 Hb) as Hset.
  pose proof (build_Returned_registered (build_env run) w1 Hb) as (H3 & _ & _).
  unfold result, world in Hb, Hset, H3.
  destruct (CreateFontSetUsingInMemoryFontData (build_env run) w1) as [ob w2].
  cbn [fst snd] in Hb, Hset, H3, E. subst ob.
  change (m_dwriteFactory3 (this w1)) with true in H3.
  unfold dbind at 1 in E. rewrite ReportFontProperties_run in E.
  unfold dbind at 1 in E. rewrite ReportFontDataDetails_run in E. rewrite Hset in E.
  assert (Hcount : GetFontCount (this w2) =
                   Z.of_nat (List.length
                               (entries_of (build_env run) (source_files (build_env run))))).
  { unfold GetFontCount. now rewrite Hset. }
  rewrite Hcount in E.
  pose proof (GetFontDataDetails_readable null_handle w2 _ Hset Hread) as Hg.
  destruct (GetFontDataDetails_run null_handle w2 _ Hset) as (_ & Hgt & _).
  unfold result, world in Hg, Hgt.
  destruct (entries_of (build_env run) (source_files (build_env run))) as [|r fs] eqn:He.
  - unfold dret at 1 in E. unfold dbind at 1 in E. rewrite call_run in E.
    pose proof (dtor_returns w2 H3) as Hd. unfold result in Hd.
    destruct (CustomFontSetManager_dtor w2) as [od wd]. cbn [fst snd] in Hd, E. subst od.
    unfold dret in E. inversion E; subst o p. cbn [console]. split; reflexivity.
  - rewrite <- He, in_memory_entries_local in E. rewrite He in E.
    destruct (GetFontDataDetails null_handle w2) as [og w3]. cbn [fst snd] in Hg, Hgt.
    subst og. cbn [print_details] in E.
    unfold dret at 1 in E. unfold dbind at 1 in E. rewrite call_run in E.
    assert (H3' : m_dwriteFactory3 (this w3) = true) by now rewrite Hgt.
    pose proof (dtor_returns w3 H3') as Hd. unfold result in Hd.
    destruct (CustomFontSetManager_dtor w3) as [od wd]. cbn [fst snd] in Hd, E. subst od.
    unfold dret in E. inversion E; subst o p. cbn [console]. split; [reflexivity|].
    cbn [app]. rewrite <- !app_assoc. reflexivity.
Qed.

(** The hypotheses hold for the sample's run. *)
Lemma wmain_success_witness :
  fst (wmain Runs.in_memory (process_start Scenario.no_calls)) = Returned 0%Z /\
  console (snd (wmain Runs.in_memory (process_start Scenario.no_calls))) =
    wcout text_scenario
    :: wcout (text_count
                (Z.of_nat (List.length
                             (entries_of (build_env Runs.in_memory)
                                (source_files (build_env Runs.in_memory))))))
    :: match entries_of (build_env Runs.in_memory)
               (source_files (build_env Runs.in_memory)) with
       | [] => []
       | r :: fs =>
           wcout text_names
           :: rows (full_names (r :: fs))
           ++ wcout nl :: wcout text_details :: rows (report_lines 0 (r :: fs))
       end.
Proof.
  apply (wmain_success Runs.in_memory Scenario.no_calls); try reflexivity.
  unfold platform_succeeds.
  split; [reflexivity|]. split; [reflexivity|]. split; [reflexivity|].
  split; [reflexivity|].
  intros f [<-|[<-|[]]]; (split; [reflexivity | discriminate]).
Defined.
